(** * Wplace-BlueMarble: the template diff and progress engine

    A shallow embedding of [src/Pixel.js] (classes [Pixel], [TileProgress],
    [TileProgressManager]), [src/TemplateArray.js] and the method
    [drawTemplateOnTile] of [src/templateManager.js], with the properties
    of the specification stated and proved over it.

    Conventions.
    - A JavaScript number is an exact integer of [Z]; every count and index
      of the engine stays far below 2^53, where doubles are exact.  A number
      that may be [NaN] is an [option Z] with [None] for [NaN].
    - A value read from an array that may be [undefined] is an [option]
      with [None] for [undefined].
    - A [Uint8ClampedArray] is a [list Z]; a plain object used as a
      dictionary is a [gmap string _]; a [Set] of strings is a
      [gset string]; a [Map], whose iteration order matters, and an object
      whose keys are enumerated are association lists in insertion order.
    - Output-only effects ([console.log], [handleDisplayStatus],
      [postMessage]) are left out. *)

From Stdlib Require Import Ascii.
From stdpp Require Import base numbers list list_numbers strings pretty gmap sorting.

Open Scope Z_scope.

(** ** JavaScript numbers and strings *)

Module JS.

(** A number or [NaN]. *)
Definition num := option Z.

Definition add (a b : num) : num :=
  match a, b with Some x, Some y => Some (x + y) | _, _ => None end.

Definition mul (a b : num) : num :=
  match a, b with Some x, Some y => Some (x * y) | _, _ => None end.

(** [a < b] and [a >= b]: every comparison with [NaN] is [false]. *)
Definition lt (a b : num) : bool :=
  match a, b with Some x, Some y => bool_decide (x < y) | _, _ => false end.

Definition ge (a b : num) : bool :=
  match a, b with Some x, Some y => bool_decide (y ≤ x) | _, _ => false end.

(** [a % b] on integers: the remainder has the sign of the dividend, and
    [a % 0] is [NaN]. *)
Definition rem (a b : Z) : num :=
  if decide (b = 0) then None else Some (Z.rem a b).

(** [Math.floor(a / b)] on integers with [b] not zero. *)
Definition floor_div (a b : Z) : Z := a `div` b.

(** [data[i]]: [undefined] when [i] is [NaN], negative or past the end. *)
Definition at_index {A} (data : list A) (i : num) : option A :=
  match i with
  | Some n => if decide (0 ≤ n) then data !! Z.to_nat n else None
  | None => None
  end.

(** [s.startsWith(q)]. *)
Fixpoint startsWith (s q : string) {struct q} : bool :=
  match q with
  | EmptyString => true
  | String c q' =>
      match s with
      | EmptyString => false
      | String d s' => if decide (c = d) then startsWith s' q' else false
      end
  end.

(** [s.split(c)] for a one-character separator. *)
Fixpoint split (c : ascii) (s : string) : list string :=
  match s with
  | EmptyString => [EmptyString]
  | String a s' =>
      if decide (a = c) then EmptyString :: split c s'
      else match split c s' with
           | [] => [String a EmptyString]
           | h :: t => String a h :: t
           end
  end.

(** [l.join(c)]. *)
Fixpoint join (c : ascii) (l : list string) : string :=
  match l with
  | [] => EmptyString
  | [x] => x
  | x :: l' => x +:+ String c (join c l')
  end.

(** [s.includes(c)] for one character. *)
Fixpoint includes (s : string) (c : ascii) : bool :=
  match s with
  | EmptyString => false
  | String a s' => if decide (a = c) then true else includes s' c
  end.

(** A template literal [`${v}`] of a number or [undefined]. *)
Definition show (v : option Z) : string :=
  match v with Some z => pretty z | None => "undefined" end.

End JS.

(** ** [Pixel.js]: class [Pixel] *)

Module Pixel.

Record t := mk {
  red : option Z;
  green : option Z;
  blue : option Z;
  alpha : option Z
}.

(** [undefined >= 64] and [undefined < 64] are both [false]. *)
Definition isPainted (p : t) : bool :=
  match alpha p with Some a => bool_decide (64 ≤ a) | None => false end.

Definition isUnpainted (p : t) : bool :=
  match alpha p with Some a => bool_decide (a < 64) | None => false end.

Definition getFromData (data : list Z) (index : JS.num) : t :=
  {| red := JS.at_index data index;
     green := JS.at_index data (JS.add index (Some 1));
     blue := JS.at_index data (JS.add index (Some 2));
     alpha := JS.at_index data (JS.add index (Some 3)) |}.

Definition getColorKey (p : t) : string :=
  JS.show (red p) +:+ "," +:+ JS.show (green p) +:+ "," +:+ JS.show (blue p).

Definition equalsRGB (p q : t) : bool :=
  bool_decide (red p = red q) && bool_decide (green p = green q)
  && bool_decide (blue p = blue q).

Definition equalsRGBA (p q : t) : bool :=
  bool_decide (red p = red q) && bool_decide (green p = green q)
  && bool_decide (blue p = blue q) && bool_decide (alpha p = alpha q).

End Pixel.

(** ** [Pixel.js]: classes [TileProgress] and [TileProgressManager] *)

(** An element of [wrongPixelPositions]: the object [{tx, ty, px, py}]. *)
Record WrongPixelPosition := {
  tx : JS.num;
  ty : JS.num;
  px : JS.num;
  py : JS.num
}.

Record TileProgress := {
  totalPixelCount : Z;
  paintedPixelCount : Z;
  wrongPixelCount : Z;
  paintedPixelColorCounts : gmap string Z;
  wrongPixelColorCounts : gmap string Z;
  wrongPixelPositions : list WrongPixelPosition
}.

Module TileProgressManager.

(** The [Map] [tileProgress], in insertion order. *)
Definition t := list (string * TileProgress).

Definition empty : t := [].

(** [Map.prototype.set]: a present key keeps its place and takes the new
    value, an absent key is added at the end. *)
Fixpoint set (tileKey : string) (progress : TileProgress) (m : t) : t :=
  match m with
  | [] => [(tileKey, progress)]
  | (k, v) :: m' =>
      if decide (k = tileKey) then (k, progress) :: m'
      else (k, v) :: set tileKey progress m'
  end.

Fixpoint get (tileKey : string) (m : t) : option TileProgress :=
  match m with
  | [] => None
  | (k, v) :: m' => if decide (k = tileKey) then Some v else get tileKey m'
  end.

Definition has (tileKey : string) (m : t) : bool :=
  bool_decide (is_Some (get tileKey m)).

(** The object returned by [computeTotalProgress]; the fields carry the
    names of the locals that are summed. *)
Record TotalProgress := {
  aggregateTotalPixelCount : Z;
  aggregatePaintedPixelCount : Z;
  aggregateWrongPixelCount : Z;
  aggregateWrongPixelPositions : list WrongPixelPosition
}.

Definition addProgress (acc : TotalProgress) (progress : TileProgress)
  : TotalProgress :=
  {| aggregateTotalPixelCount :=
       aggregateTotalPixelCount acc + totalPixelCount progress;
     aggregatePaintedPixelCount :=
       aggregatePaintedPixelCount acc + paintedPixelCount progress;
     aggregateWrongPixelCount :=
       aggregateWrongPixelCount acc + wrongPixelCount progress;
     aggregateWrongPixelPositions :=
       aggregateWrongPixelPositions acc ++ wrongPixelPositions progress |}.

Definition computeTotalProgress (m : t) : TotalProgress :=
  foldl addProgress
    {| aggregateTotalPixelCount := 0;
       aggregatePaintedPixelCount := 0;
       aggregateWrongPixelCount := 0;
       aggregateWrongPixelPositions := [] |}
    (m.*2).

End TileProgressManager.

(** ** Templates and their tile fragments *)

(** A bitmap with the RGBA bytes that [getImageData] reads back once the
    bitmap is drawn on a canvas of its own size. *)
Record ImageBitmap := {
  width : Z;
  height : Z;
  data : list Z
}.

(** A value of [colorPalette]: [{count, enabled}]. *)
Record PaletteEntry := {
  count : Z;
  enabled : bool
}.

(** Modelled from the spec: the class [Template] ([Template.js] is not
    among the sources), with the fields the engine reads.  [chunked] is the
    spec's [tiles], an object from tile address to bitmap whose keys are
    enumerated in insertion order, and is [null] until the template is
    chunked; [tilePrefixes] is the spec's [tilePrefixSet]. *)
Record Template := {
  sortID : Z;
  chunked : option (list (string * ImageBitmap));
  tilePrefixes : option (gset string);
  colorPalette : option (gmap string PaletteEntry);
  allowedColorsSet : option (gset string)
}.

(** Modelled from the spec: the class [TemplateTileBlob]
    ([TemplateTileBlob.js] is not among the sources), the spec's tile
    fragment [{bitmap, tileCoords, pixelCoords}].  The coordinates are the
    pieces of the split key, [undefined] where the key has too few. *)
Record TemplateTileBlob := {
  bitmap : ImageBitmap;
  tileCoords : option string * option string;
  pixelCoords : option string * option string
}.

(** What the engine takes from outside the sources: the builtin [Number]
    applied to a string, and [formatTileCoords] of [utils.js]. *)
Class Externals := {
  Number : string → JS.num;
  formatTileCoords : Z * Z → string
}.

(** [Number(v)] for a string or [undefined]; [Number(undefined)] is [NaN]. *)
Definition NumberOf `{Externals} (v : option string) : JS.num :=
  match v with Some s => Number s | None => None end.

(** ** [TemplateArray.js] *)

Module TemplateArray.

(** [sortByPriority]: [sort((a, b) => a.sortID - b.sortID)].  The sort
    of an array is stable; it is an insertion sort here, each template
    going before the first one that its [sortID] does not exceed. *)
Fixpoint insertByPriority (a : Template) (l : list Template) : list Template :=
  match l with
  | [] => [a]
  | b :: l' =>
      if decide (sortID a - sortID b ≤ 0) then a :: b :: l'
      else b :: insertByPriority a l'
  end.

Definition sortByPriority (templates : list Template) : list Template :=
  foldr insertByPriority [] templates.

(** [Object.keys(template.chunked).some(k => k.startsWith(tileCoords))] *)
Definition scanChunkedKeys (ch : list (string * ImageBitmap))
    (tileCoords : string) : bool :=
  existsb (λ k, JS.startsWith k tileCoords) (ch.*1).

(** The callback of [isAnyTemplateInTile]. *)
Definition isTemplateInTile (template : Template) (tileCoords : string) : bool :=
  match chunked template with
  | None => false
  | Some ch =>
      match tilePrefixes template with
      | Some prefixes =>
          if bool_decide (0 < size prefixes)%nat
          then bool_decide (tileCoords ∈ prefixes)
          else scanChunkedKeys ch tileCoords
      | None => scanChunkedKeys ch tileCoords
      end
  end.

Definition isAnyTemplateInTile (templates : list Template)
    (tileCoords : string) : bool :=
  existsb (λ template, isTemplateInTile template tileCoords) templates.

(** [new TemplateTileBlob({...})] for one matching key [tile]. *)
Definition blobOfTile (tile : string * ImageBitmap) : TemplateTileBlob :=
  let coords := JS.split ","%char (tile.1) in
  {| bitmap := tile.2;
     tileCoords := (coords !! 0%nat, coords !! 1%nat);
     pixelCoords := (coords !! 2%nat, coords !! 3%nat) |}.

(** The callback of [map] in [getRelevantTemplateTileBlobs]: [null] is
    [None].  [template.chunked[tile]] is the bitmap listed with the key
    [tile]. *)
Definition relevantBlob (ch : list (string * ImageBitmap))
    (tileCoords : string) : option TemplateTileBlob :=
  let matchingTiles := filter (λ tile, JS.startsWith (tile.1) tileCoords = true) ch in
  if bool_decide (length matchingTiles = 0%nat) then None
  else head (blobOfTile <$> matchingTiles).

(** The result is [None] when the call throws: [Object.keys] of a [null]
    [chunked] is a [TypeError]. *)
Fixpoint getRelevantTemplateTileBlobs (templates : list Template)
    (tileCoords : string) : option (list TemplateTileBlob) :=
  match templates with
  | [] => Some []
  | template :: rest =>
      match chunked template with
      | None => None
      | Some ch =>
          match getRelevantTemplateTileBlobs rest tileCoords with
          | None => None
          | Some blobs =>
              Some (match relevantBlob ch tileCoords with
                    | Some blob => blob :: blobs
                    | None => blobs
                    end)
          end
      end
  end.

End TemplateArray.

(** ** [templateManager.js]: [drawTemplateOnTile] *)

(** The bytes of an image file. *)
Definition Blob := list Z.

(** One drawing call on the output canvas. *)
Inductive CanvasOp :=
  | DrawTile (tileBlob : Blob) (drawSize : Z)
      (* drawImage(tileBitmap, 0, 0, drawSize, drawSize) *)
  | DrawBitmap (bitmap : ImageBitmap) (dx dy : JS.num)
      (* drawImage(template.bitmap, dx, dy) *)
  | DrawFiltered (w h : Z) (filterImgData : list Z) (dx dy : JS.num).
      (* drawImage(filterCanvas, dx, dy) after putImageData(filterImg, 0, 0) *)

(** What [drawTemplateOnTile] resolves to: the blob it was given, or the
    output canvas converted to a blob, the canvas being the sequence of the
    drawing calls made on it. *)
Inductive OutputBlob :=
  | InputBlob (tileBlob : Blob)
  | CanvasBlob (drawSize : Z) (ops : list CanvasOp).

(** What the calls of [drawTemplateOnTile] that stand outside every [try]
    do, the drawing apart: whether [await createImageBitmap(tileBlob)]
    resolves (line 255; it rejects on a blob that does not decode),
    whether [this.overlay.handleDisplayStatus] returns (lines 515 and 526;
    [Overlay.js] is not among the sources), and whether
    [await canvas.convertToBlob] resolves (line 529). *)
Record HostCalls := {
  tileDecodes : bool;
  statusDisplays : bool;
  canvasConverts : bool
}.

(** The fields of [TemplateManager] that [drawTemplateOnTile] reads or
    writes. *)
Record TemplateManager := {
  tileSize : Z;
  drawMult : Z;
  templatesArray : list Template;
  templatesShouldBeDrawn : bool;
  tileProgress : TileProgressManager.t
}.

Module TemplateManager.

(** The constructor: [tileSize = 1000], [drawMult = 3], no template. *)
Definition new : TemplateManager :=
  {| tileSize := 1000;
     drawMult := 3;
     templatesArray := [];
     templatesShouldBeDrawn := true;
     tileProgress := TileProgressManager.empty |}.

Definition setTemplatesArray (ts : list Template) (m : TemplateManager)
  : TemplateManager :=
  {| tileSize := tileSize m;
     drawMult := drawMult m;
     templatesArray := ts;
     templatesShouldBeDrawn := templatesShouldBeDrawn m;
     tileProgress := tileProgress m |}.

Definition setTileProgress (tp : TileProgressManager.t) (m : TemplateManager)
  : TemplateManager :=
  {| tileSize := tileSize m;
     drawMult := drawMult m;
     templatesArray := templatesArray m;
     templatesShouldBeDrawn := templatesShouldBeDrawn m;
     tileProgress := tp |}.

(** [for (let i = 0; i < n; i++) body]. *)
Definition forRange {S} (n : Z) (body : Z → S → S) (s : S) : S :=
  foldl (λ s i, body i s) s (seqZ 0 n).

(** [(x % drawMult) !== 1 || (y % drawMult) !== 1]: the test that skips
    a pixel of the two loops. *)
Definition isNotCenter (dm x y : Z) : bool :=
  negb (bool_decide (JS.rem x dm = Some 1))
  || negb (bool_decide (JS.rem y dm = Some 1)).

(** [counts[key] = (counts[key] || 0) + 1]. *)
Definition increment (key : string) (counts : gmap string Z) : gmap string Z :=
  <[key := default 0 (counts !! key) + 1]> counts.

(** The six counters declared before the loops, all empty. *)
Definition noProgress : TileProgress :=
  {| totalPixelCount := 0;
     paintedPixelCount := 0;
     wrongPixelCount := 0;
     paintedPixelColorCounts := ∅;
     wrongPixelColorCounts := ∅;
     wrongPixelPositions := [] |}.

Section Engine.
Context `{Externals}.

(** The object pushed on [wrongPixelPositions]. *)
Definition wrongPosition (dm : Z) (template : TemplateTileBlob) (x y : Z)
  : WrongPixelPosition :=
  {| tx := NumberOf (tileCoords template).1;
     ty := NumberOf (tileCoords template).2;
     px := JS.add (NumberOf (pixelCoords template).1)
             (Some (JS.floor_div (x - 1) dm));
     py := JS.add (NumberOf (pixelCoords template).2)
             (Some (JS.floor_div (y - 1) dm)) |}.

(** [wrongPixelCount++], the color count and the position, the same
    three statements in both branches that find a wrong pixel. *)
Definition recordWrong (dm : Z) (template : TemplateTileBlob) (x y : Z)
    (shredPixel : Pixel.t) (st : TileProgress) : TileProgress :=
  {| totalPixelCount := totalPixelCount st;
     paintedPixelCount := paintedPixelCount st;
     wrongPixelCount := wrongPixelCount st + 1;
     paintedPixelColorCounts := paintedPixelColorCounts st;
     wrongPixelColorCounts :=
       increment (Pixel.getColorKey shredPixel) (wrongPixelColorCounts st);
     wrongPixelPositions :=
       wrongPixelPositions st ++ [wrongPosition dm template x y] |}.

Definition recordPainted (shredPixel : Pixel.t) (st : TileProgress)
  : TileProgress :=
  {| totalPixelCount := totalPixelCount st;
     paintedPixelCount := paintedPixelCount st + 1;
     wrongPixelCount := wrongPixelCount st;
     paintedPixelColorCounts :=
       increment (Pixel.getColorKey shredPixel) (paintedPixelColorCounts st);
     wrongPixelColorCounts := wrongPixelColorCounts st;
     wrongPixelPositions := wrongPixelPositions st |}.

Definition incrementTotal (st : TileProgress) : TileProgress :=
  {| totalPixelCount := totalPixelCount st + 1;
     paintedPixelCount := paintedPixelCount st;
     wrongPixelCount := wrongPixelCount st;
     paintedPixelColorCounts := paintedPixelColorCounts st;
     wrongPixelColorCounts := wrongPixelColorCounts st;
     wrongPixelPositions := wrongPixelPositions st |}.

(** The body of the two classification loops at [(x, y)]: lines 305 to
    405.  [tilePixelsSnapshot] is the snapshot of the tile, [st] the
    six counters.  The [try] blocks around it hold array reads, a set
    lookup and arithmetic, which do not throw. *)
Definition classifyPixel (mgr : TemplateManager)
    (tilePixelsSnapshot : list Z) (template : TemplateTileBlob)
    (x y : Z) (st : TileProgress) : TileProgress :=
  let dm := drawMult mgr in
  let drawSize := tileSize mgr * dm in
  let tempWidth := width (bitmap template) in
  let tempData := data (bitmap template) in
  let globalOffsetX := JS.mul (NumberOf (pixelCoords template).1) (Some dm) in
  let globalOffsetY := JS.mul (NumberOf (pixelCoords template).2) (Some dm) in
  if isNotCenter dm x y then st
  else
    let gx := JS.add (Some x) globalOffsetX in
    let gy := JS.add (Some y) globalOffsetY in
    if JS.lt gx (Some 0) || JS.lt gy (Some 0)
       || JS.ge gx (Some drawSize) || JS.ge gy (Some drawSize)
    then st
    else
      let templatePixelCenterIndex := (y * tempWidth + x) * 4 in
      let shredPixel := Pixel.getFromData tempData (Some templatePixelCenterIndex) in
      if Pixel.isUnpainted shredPixel then
        let activeTemplate := head (templatesArray mgr) in
        let tileIdx := JS.mul (JS.add (JS.mul gy (Some drawSize)) gx) (Some 4) in
        let snapshotPixel := Pixel.getFromData tilePixelsSnapshot tileIdx in
        let colorKey := Pixel.getColorKey snapshotPixel in
        let isWPlaceColor :=
          match activeTemplate ≫= allowedColorsSet with
          | Some allowed => bool_decide (colorKey ∈ allowed)
          | None => false
          end in
        if Pixel.isPainted snapshotPixel && isWPlaceColor
        then recordWrong dm template x y shredPixel st
        else st
      else
        let st := incrementTotal st in
        let realPixelCenterIndex :=
          JS.mul (JS.add (JS.mul gy (Some drawSize)) gx) (Some 4) in
        let realPixel := Pixel.getFromData tilePixelsSnapshot realPixelCenterIndex in
        if Pixel.isPainted realPixel && Pixel.equalsRGB realPixel shredPixel
        then recordPainted shredPixel st
        else if Pixel.isPainted realPixel
        then recordWrong dm template x y shredPixel st
        else st.

(** The two loops over the bitmap of one fragment, lines 303 to 407. *)
Definition classifyTemplate (mgr : TemplateManager)
    (tilePixelsSnapshot : list Z) (template : TemplateTileBlob)
    (st : TileProgress) : TileProgress :=
  forRange (height (bitmap template)) (λ y,
    forRange (width (bitmap template)) (λ x,
      classifyPixel mgr tilePixelsSnapshot template x y)) st.

(** [data[i] = v] on a typed array: a write outside it is ignored. *)
Definition arraySet (i v : Z) (data : list Z) : list Z :=
  if decide (0 ≤ i) then <[Z.to_nat i := v]> data else data.

(** [Object.values(palette).some(v => v?.enabled === false)]. *)
Definition hasDisabled (palette : gmap string PaletteEntry) : bool :=
  bool_decide (map_Exists (λ _ v, enabled v = false) palette).

(** [activeTemplate?.colorPalette || {}]. *)
Definition paletteOf (activeTemplate : option Template)
  : gmap string PaletteEntry :=
  default ∅ (activeTemplate ≫= colorPalette).

(** The body of the two filter loops at [(x, y)]: lines 444 to 467. *)
Definition filterPixel (mgr : TemplateManager) (tempWidth : Z)
    (x y : Z) (filterImgData : list Z) : list Z :=
  let dm := drawMult mgr in
  let activeTemplate := head (templatesArray mgr) in
  let palette := paletteOf activeTemplate in
  if isNotCenter dm x y then filterImgData
  else
    let pixelIndex := (y * tempWidth + x) * 4 in
    let pixel := Pixel.getFromData filterImgData (Some pixelIndex) in
    if JS.lt (Pixel.alpha pixel) (Some 1) then filterImgData
    else
      let inWplacePalette :=
        match activeTemplate ≫= allowedColorsSet with
        | Some allowed => bool_decide (Pixel.getColorKey pixel ∈ allowed)
        | None => true
        end in
      let isPaletteColorEnabled :=
        match palette !! (if inWplacePalette then Pixel.getColorKey pixel
                          else "other") with
        | Some entry => enabled entry
        | None => true
        end in
      if negb inWplacePalette || negb isPaletteColorEnabled
      then arraySet (pixelIndex + 3) 0 filterImgData
      else filterImgData.

(** The two filter loops over the copy of one bitmap, lines 441 to 469. *)
Definition filterTemplate (mgr : TemplateManager) (bm : ImageBitmap)
  : list Z :=
  forRange (height bm) (λ y,
    forRange (width bm) (λ x, filterPixel mgr (width bm) x y)) (data bm).

(** The drawing call for one fragment, lines 414 to 474. *)
Definition overlayOp (mgr : TemplateManager) (template : TemplateTileBlob)
  : CanvasOp :=
  let dm := drawMult mgr in
  let activeTemplate := head (templatesArray mgr) in
  let palette := paletteOf activeTemplate in
  let dx := JS.mul (NumberOf (pixelCoords template).1) (Some dm) in
  let dy := JS.mul (NumberOf (pixelCoords template).2) (Some dm) in
  if negb (hasDisabled palette) then DrawBitmap (bitmap template) dx dy
  else
    DrawFiltered (width (bitmap template)) (height (bitmap template))
      (filterTemplate mgr (bitmap template)) dx dy.

(** One turn of the loop over the fragments, lines 279 to 483: the
    counters when there is a snapshot, then the drawing call. *)
Definition drawOneTemplate (mgr : TemplateManager)
    (tilePixelsSnapshot : option (list Z))
    (acc : TileProgress * list CanvasOp) (template : TemplateTileBlob)
  : TileProgress * list CanvasOp :=
  let st :=
    match tilePixelsSnapshot with
    | Some snapshot => classifyTemplate mgr snapshot template acc.1
    | None => acc.1
    end in
  (st, acc.2 ++ [overlayOp mgr template]).

(** The loop over the fragments, from the six counters at zero and
    the canvas on which the tile is drawn: lines 247 to 483.  The first
    component is what [new TileProgress] takes at line 488. *)
Definition drawAllTemplates (mgr : TemplateManager)
    (tilePixelsSnapshot : option (list Z)) (tileBlob : Blob)
    (templateTileBlobsToDraw : list TemplateTileBlob)
  : TileProgress * list CanvasOp :=
  foldl (drawOneTemplate mgr tilePixelsSnapshot)
    (noProgress, [DrawTile tileBlob (tileSize mgr * drawMult mgr)])
    templateTileBlobsToDraw.

(** [drawTemplateOnTile(tileBlob, tileCoords)].

    [tilePixelsSnapshot] is what [getImageData] gives for the tile
    drawn on the canvas, [None] when it throws, and [host] says what
    the calls outside every [try] do.  The result is [None] when the
    call throws (the promise rejects): at line 241 on a template
    without [chunked], at line 255 on a tile blob that does not
    decode, at line 515 or 526 when the status cannot be displayed,
    at line 529 when the canvas cannot be converted; what the
    manager holds after a call that throws is not described.
    Otherwise the result is the blob the promise resolves to with the
    manager after the call.  [sortByPriority] sorts the array that the
    manager holds, so the manager keeps the sorted array. *)
Definition drawTemplateOnTile (mgr : TemplateManager) (tileBlob : Blob)
    (tileCoords : Z * Z) (tilePixelsSnapshot : option (list Z))
    (host : HostCalls)
  : option (OutputBlob * TemplateManager) :=
  if negb (templatesShouldBeDrawn mgr) then Some (InputBlob tileBlob, mgr)
  else
    let drawSize := tileSize mgr * drawMult mgr in
    let tileCoords := formatTileCoords tileCoords in
    let mgr := setTemplatesArray
                 (TemplateArray.sortByPriority (templatesArray mgr)) mgr in
    if negb (TemplateArray.isAnyTemplateInTile (templatesArray mgr) tileCoords)
    then Some (InputBlob tileBlob, mgr)
    else
      match TemplateArray.getRelevantTemplateTileBlobs
              (templatesArray mgr) tileCoords with
      | None => None
      | Some templateTileBlobsToDraw =>
          let templateCount := length templateTileBlobsToDraw in
          if negb (tileDecodes host) then None
          else
            let '(progress, ops) :=
              drawAllTemplates mgr tilePixelsSnapshot tileBlob
                templateTileBlobsToDraw in
            let mgr :=
              if bool_decide (0 < templateCount)%nat
              then setTileProgress
                     (TileProgressManager.set tileCoords progress
                        (tileProgress mgr)) mgr
              else mgr in
            if negb (statusDisplays host) then None
            else if negb (canvasConverts host) then None
            else Some (CanvasBlob drawSize ops, mgr)
      end.

(** [template.tilePrefixes.add(k.split(',').slice(0,2).join(','))], the
    statement of [#parseBlueMarble] that fills the index from the keys
    of the tiles. *)
Definition tilePrefixOfKey (k : string) : string :=
  JS.join "," (take 2 (JS.split "," k)).

Definition tilePrefixesOfKeys (ch : list (string * ImageBitmap))
  : gset string :=
  list_to_set (tilePrefixOfKey <$> ch.*1).

End Engine.

End TemplateManager.

(** ** Vocabulary of the statements *)

Section Vocabulary.
Context `{Externals}.

(** [shredPixel] at [(x, y)]: the pixel of the fragment's bitmap. *)
Definition shredPixelAt (template : TemplateTileBlob) (x y : Z) : Pixel.t :=
  Pixel.getFromData (data (bitmap template))
    (Some ((y * width (bitmap template) + x) * 4)).

(** [gx] and [gy] at [(x, y)]. *)
Definition globalX (mgr : TemplateManager) (template : TemplateTileBlob)
    (x : Z) : JS.num :=
  JS.add (Some x)
    (JS.mul (NumberOf (pixelCoords template).1) (Some (drawMult mgr))).

Definition globalY (mgr : TemplateManager) (template : TemplateTileBlob)
    (y : Z) : JS.num :=
  JS.add (Some y)
    (JS.mul (NumberOf (pixelCoords template).2) (Some (drawMult mgr))).

(** [snapshotPixel], or [realPixel], at [(x, y)]: the pixel of the
    snapshot under the sample. *)
Definition groundPixelAt (mgr : TemplateManager) (tilePixelsSnapshot : list Z)
    (template : TemplateTileBlob) (x y : Z) : Pixel.t :=
  let drawSize := tileSize mgr * drawMult mgr in
  Pixel.getFromData tilePixelsSnapshot
    (JS.mul (JS.add (JS.mul (globalY mgr template y) (Some drawSize))
               (globalX mgr template x)) (Some 4)).

(** The second test of the loop body: the sample lies outside the tile. *)
Definition isOutsideTile (mgr : TemplateManager) (template : TemplateTileBlob)
    (x y : Z) : bool :=
  let drawSize := tileSize mgr * drawMult mgr in
  JS.lt (globalX mgr template x) (Some 0)
  || JS.lt (globalY mgr template y) (Some 0)
  || JS.ge (globalX mgr template x) (Some drawSize)
  || JS.ge (globalY mgr template y) (Some drawSize).

(** The position passes both tests: it is sampled and classified. *)
Definition isSampled (mgr : TemplateManager) (template : TemplateTileBlob)
    (x y : Z) : bool :=
  negb (TemplateManager.isNotCenter (drawMult mgr) x y)
  && negb (isOutsideTile mgr template x y).

(** [activeTemplate.allowedColorsSet.has(key)], [false] without a set. *)
Definition isWPlaceColor (mgr : TemplateManager) (key : string) : bool :=
  match head (templatesArray mgr) ≫= allowedColorsSet with
  | Some allowed => bool_decide (key ∈ allowed)
  | None => false
  end.

(** The wrong count is the number of wrong positions. *)
Definition countsPositions (st : TileProgress) : Prop :=
  wrongPixelCount st = Z.of_nat (length (wrongPixelPositions st)).

(** [inWplacePalette] of the filter loops for a color key: [true]
    without an allowed set. *)
Definition inWplacePalette (mgr : TemplateManager) (key : string) : bool :=
  match head (templatesArray mgr) ≫= allowedColorsSet with
  | Some allowed => bool_decide (key ∈ allowed)
  | None => true
  end.

(** The palette of the active template has an entry for the key with
    [enabled === false]. *)
Definition isDisabled (mgr : TemplateManager) (key : string) : bool :=
  match TemplateManager.paletteOf (head (templatesArray mgr)) !! key with
  | Some entry => negb (enabled entry)
  | None => false
  end.

(** No key of the template starts with the tile: the template has no
    fragment in it. *)
Definition noFragmentIn (q : string) (t : Template) : bool :=
  match chunked t with
  | Some ch => negb (TemplateArray.scanChunkedKeys ch q)
  | None => true
  end.

(** Every tile of the index is the tile prefix of a key. *)
Definition prefixesDerived (t : Template) : bool :=
  match chunked t, tilePrefixes t with
  | Some ch, Some prefixes =>
      bool_decide (prefixes ⊆ TemplateManager.tilePrefixesOfKeys ch)
  | _, _ => true
  end.

Definition isChunked (t : Template) : bool :=
  bool_decide (is_Some (chunked t)).

End Vocabulary.

(** The positions of the two loops, row by row. *)
Definition loopPositions (w h : Z) : list (Z * Z) :=
  y ← seqZ 0 h; x ← seqZ 0 w; [(x, y)].

(** The positions of the two loops that pass the center test, in the order
    of the loops. *)
Definition sampledPositions (dm w h : Z) : list (Z * Z) :=
  filter (λ p, TemplateManager.isNotCenter dm p.1 p.2 = false)
    (loopPositions w h).

(** The center offset of the specification. *)
Definition centerOffset (dm : Z) : Z := (dm - 1) `div` 2.

(** The address format of the specification, fixed-width fields joined
    by commas ("xxxx,yyyy" for a tile and "1231,0047,183,593" for a key of
    [chunked] in the comments of the sources): a tile is two fields and a
    key four, the tile fields [n] characters wide. *)
Definition isTileCoords (n : nat) (q : string) : bool :=
  match JS.split "," q with
  | [X; Y] => bool_decide (String.length X = n ∧ String.length Y = n)
  | _ => false
  end.

Definition isTileKey (n : nat) (k : string) : bool :=
  match JS.split "," k with
  | [X; Y; P; Q] => bool_decide (String.length X = n ∧ String.length Y = n)
  | _ => false
  end.

(** ** A host for the examples *)

Module Host.

Definition digitValue (c : ascii) : option Z :=
  let n := Z.of_nat (nat_of_ascii c) in
  if decide (48 ≤ n ≤ 57) then Some (n - 48) else None.

Fixpoint parseDigits (s : string) (acc : Z) : JS.num :=
  match s with
  | EmptyString => Some acc
  | String c s' =>
      match digitValue c with
      | Some d => parseDigits s' (10 * acc + d)
      | None => None
      end
  end.

(** [Number] on a string of decimal digits, the form of the fields of a
    key; [NaN] elsewhere. *)
Definition decimalNumber (s : string) : JS.num := parseDigits s 0.

(** [s.padStart(n, '0')]. *)
Definition padStart (n : nat) (s : string) : string :=
  String.concat EmptyString (replicate (n - String.length s) "0") +:+ s.

(** Modelled from the spec: [formatTileCoords] of [utils.js], which is
    not among the sources: the two tile coordinates as zero-padded
    fields of fixed width, joined by a comma. *)
Definition formatPadded (tileCoords : Z * Z) : string :=
  padStart 4 (pretty tileCoords.1) +:+ "," +:+ padStart 4 (pretty tileCoords.2).

Definition externals : Externals :=
  {| Number := decimalNumber; formatTileCoords := formatPadded |}.

End Host.

(** ** Inputs of the examples *)

Module Examples.
Import TemplateManager.

(** A bitmap of one block of the draw multiplier 3: a center pixel and
    transparent pixels around it. *)
Definition block (center : list Z) : ImageBitmap :=
  {| width := 3; height := 3;
     data := replicate 16 0 ++ center ++ replicate 16 0 |}.

(** A bitmap of two blocks side by side, with centers at [(1, 1)] and
    [(4, 1)]. *)
Definition twoBlocks (left right : list Z) : ImageBitmap :=
  {| width := 6; height := 3;
     data := replicate 28 0 ++ left ++ replicate 8 0 ++ right
             ++ replicate 28 0 |}.

Definition entry (n : Z) (on : bool) : PaletteEntry :=
  {| count := n; enabled := on |}.

(** A template of two pixels at the pixel [(5, 1)] of the tile
    [(1, 2)]. *)
Definition tilesA : list (string * ImageBitmap) :=
  [("0001,0002,005,001", twoBlocks [10; 20; 30; 255] [40; 50; 60; 255])].

Definition templateA : Template :=
  {| sortID := 0;
     chunked := Some tilesA;
     tilePrefixes := Some (tilePrefixesOfKeys tilesA);
     colorPalette :=
       Some {[ "10,20,30" := entry 1 true; "40,50,60" := entry 1 true ]};
     allowedColorsSet := Some {[ "10,20,30"; "40,50,60"; "70,80,90" ]} |}.

Definition managerA : TemplateManager := setTemplatesArray [templateA] new.

Definition blobA : TemplateTileBlob :=
  {| bitmap := twoBlocks [10; 20; 30; 255] [40; 50; 60; 255];
     tileCoords := (Some "0001", Some "0002");
     pixelCoords := (Some "005", Some "001") |}.

(** A template of one blank pixel at the same place. *)
Definition tilesB : list (string * ImageBitmap) :=
  [("0001,0002,005,001", block [0; 0; 0; 0])].

Definition templateB : Template :=
  {| sortID := 0;
     chunked := Some tilesB;
     tilePrefixes := Some (tilePrefixesOfKeys tilesB);
     colorPalette := Some ∅;
     allowedColorsSet := Some {[ "10,20,30" ]} |}.

Definition managerB : TemplateManager := setTemplatesArray [templateB] new.

Definition blobB : TemplateTileBlob :=
  {| bitmap := block [0; 0; 0; 0];
     tileCoords := (Some "0001", Some "0002");
     pixelCoords := (Some "005", Some "001") |}.

(** A snapshot of a tile at the draw size 3000: transparent but for the
    pixel [(16, 4)], of color (10, 20, 30), and the pixel [(19, 4)], of
    color (70, 80, 90); they lie under the centers of the blocks of a
    fragment at the pixel [(5, 1)]. *)
Definition snapshotA : list Z :=
  replicate (Z.to_nat 48064) 0 ++ [10; 20; 30; 255] ++ replicate 8 0
  ++ [70; 80; 90; 255] ++ replicate (Z.to_nat 35951920) 0.

(** A template of one pixel whose color is outside the allowed set,
    with a palette in which one color is disabled and "other" is
    enabled. *)
Definition tilesC : list (string * ImageBitmap) :=
  [("0001,0002,000,000", block [9; 9; 9; 255])].

Definition templateC : Template :=
  {| sortID := 0;
     chunked := Some tilesC;
     tilePrefixes := Some (tilePrefixesOfKeys tilesC);
     colorPalette :=
       Some {[ "1,2,3" := entry 0 false; "other" := entry 1 true ]};
     allowedColorsSet := Some {[ "1,2,3" ]} |}.

Definition managerC : TemplateManager := setTemplatesArray [templateC] new.

Definition blobC : TemplateTileBlob :=
  {| bitmap := block [9; 9; 9; 255];
     tileCoords := (Some "0001", Some "0002");
     pixelCoords := (Some "000", Some "000") |}.

(** A template of one pixel whose color is disabled in the palette. *)
Definition templateD : Template :=
  {| sortID := 0;
     chunked := Some [("0001,0002,000,000", block [1; 2; 3; 255])];
     tilePrefixes := Some {[ "0001,0002" ]};
     colorPalette := Some {[ "1,2,3" := entry 1 false ]};
     allowedColorsSet := Some {[ "1,2,3" ]} |}.

Definition managerD : TemplateManager := setTemplatesArray [templateD] new.

Definition blobD : TemplateTileBlob :=
  {| bitmap := block [1; 2; 3; 255];
     tileCoords := (Some "0001", Some "0002");
     pixelCoords := (Some "000", Some "000") |}.

(** A record of progress, and a manager that holds it for the tile
    [(1, 2)] of [templateA]. *)
Definition progressA : TileProgress :=
  {| totalPixelCount := 2;
     paintedPixelCount := 1;
     wrongPixelCount := 1;
     paintedPixelColorCounts := {[ "10,20,30" := 1 ]};
     wrongPixelColorCounts := {[ "40,50,60" := 1 ]};
     wrongPixelPositions :=
       [{| tx := Some 1; ty := Some 2; px := Some 6; py := Some 1 |}] |}.

Definition progressB : TileProgress :=
  {| totalPixelCount := 5;
     paintedPixelCount := 3;
     wrongPixelCount := 2;
     paintedPixelColorCounts := {[ "10,20,30" := 3 ]};
     wrongPixelColorCounts := {[ "40,50,60" := 2 ]};
     wrongPixelPositions :=
       [{| tx := Some 1; ty := Some 3; px := Some 0; py := Some 0 |};
        {| tx := Some 1; ty := Some 3; px := Some 1; py := Some 0 |}] |}.

Definition managerWithRecord : TemplateManager :=
  setTileProgress
    (TileProgressManager.set "0001,0002" progressA TileProgressManager.empty)
    managerA.

(** The bytes of some tile image. *)
Definition tileBlob : Blob := [137; 80; 78; 71].

(** A page on which the tile decodes, the status is displayed and the
    canvas is converted. *)
Definition hostOK : HostCalls :=
  {| tileDecodes := true; statusDisplays := true; canvasConverts := true |}.

(** A template with the two keys of the comment of [templateManager.js]. *)
Definition tilesE : list (string * ImageBitmap) :=
  [("1231,0047,183,593", block [10; 20; 30; 255]);
   ("1231,0048,183,000", block [10; 20; 30; 255])].

Definition templateE : Template :=
  {| sortID := 0;
     chunked := Some tilesE;
     tilePrefixes := Some (tilePrefixesOfKeys tilesE);
     colorPalette := Some {[ "10,20,30" := entry 2 true ]};
     allowedColorsSet := Some {[ "10,20,30" ]} |}.

End Examples.

(** ** More of [Pixel.js]: [computeTotalColorsProgress] *)

(** The object returned by [computeTotalColorsProgress]; the fields carry
    the names of the locals that are filled. *)
Record TotalColorsProgress := {
  aggregatePaintedPixelColorCounts : gmap string Z;
  aggregateWrongPixelColorCounts : gmap string Z
}.

(** [if (!aggregate[color]) { aggregate[color] = 0; }
     aggregate[color] += count;] *)
Definition addColorCount (color : string) (count : Z)
    (aggregate : gmap string Z) : gmap string Z :=
  <[color := default 0 (aggregate !! color) + count]> aggregate.

(** [for (const [color, count] of Object.entries(counts)) ...] *)
Definition addColorCounts (counts aggregate : gmap string Z) : gmap string Z :=
  map_fold addColorCount aggregate counts.

Definition addColorsProgress (acc : TotalColorsProgress)
    (progress : TileProgress) : TotalColorsProgress :=
  {| aggregatePaintedPixelColorCounts :=
       addColorCounts (paintedPixelColorCounts progress)
         (aggregatePaintedPixelColorCounts acc);
     aggregateWrongPixelColorCounts :=
       addColorCounts (wrongPixelColorCounts progress)
         (aggregateWrongPixelColorCounts acc) |}.

Definition computeTotalColorsProgress (m : TileProgressManager.t)
  : TotalColorsProgress :=
  foldl addColorsProgress
    {| aggregatePaintedPixelColorCounts := ∅;
       aggregateWrongPixelColorCounts := ∅ |}
    (m.*2).

(** The count of a color in a dictionary of counts, zero for a color that
    is not a key. *)
Definition countOf (color : string) (counts : gmap string Z) : Z :=
  default 0 (counts !! color).

(** The sum over a list of integers. *)
Definition sumZ (l : list Z) : Z := foldr Z.add 0 l.

(** The sum of the counts of a dictionary. *)
Definition sumCounts (counts : gmap string Z) : Z :=
  map_fold (λ _ count acc, count + acc) 0 counts.

(** ** Vocabulary of the further statements *)

(** The order of [sortByPriority]: the [sortID] does not decrease. *)
Definition byPriority (a b : Template) : Prop := sortID a ≤ sortID b.

(** What the classification does at a position of a fragment. *)
Inductive Verdict :=
  | NotSampled    (* not a center, or outside the tile: nothing *)
  | Blank         (* blank template pixel, nothing to count *)
  | Overpainted   (* blank template pixel over a painted allowed color: wrong *)
  | Correct       (* required pixel, painted in its color: total and painted *)
  | Wrong         (* required pixel, painted in another color: total and wrong *)
  | Pending.      (* required pixel, not painted: total *)

Global Instance Verdict_eq_dec : EqDecision Verdict.
Proof. solve_decision. Defined.

Section MoreVocabulary.
Context `{Externals}.

Definition verdictAt (mgr : TemplateManager) (tilePixelsSnapshot : list Z)
    (template : TemplateTileBlob) (x y : Z) : Verdict :=
  let shred := shredPixelAt template x y in
  let ground := groundPixelAt mgr tilePixelsSnapshot template x y in
  if negb (isSampled mgr template x y) then NotSampled
  else if Pixel.isUnpainted shred then
    if Pixel.isPainted ground && isWPlaceColor mgr (Pixel.getColorKey ground)
    then Overpainted else Blank
  else if Pixel.isPainted ground && Pixel.equalsRGB ground shred then Correct
  else if Pixel.isPainted ground then Wrong
  else Pending.

(** The positions that a pass goes through: those of the loops over the
    bitmap of each fragment, fragment after fragment. *)
Definition passPositions (blobs : list TemplateTileBlob)
  : list (TemplateTileBlob * (Z * Z)) :=
  t ← blobs;
  (λ p, (t, p)) <$> loopPositions (width (bitmap t)) (height (bitmap t)).

(** The positions of a pass with one of the verdicts [vs], in the order
    of the pass. *)
Definition passPositionsWith (vs : list Verdict) (mgr : TemplateManager)
    (tilePixelsSnapshot : list Z) (blobs : list TemplateTileBlob)
  : list (TemplateTileBlob * (Z * Z)) :=
  filter (λ tp, verdictAt mgr tilePixelsSnapshot tp.1 tp.2.1 tp.2.2 ∈ vs)
    (passPositions blobs).

(** The positions of a list with one of the verdicts [vs], in the order
    of the list. *)
Definition positionsWith (vs : list Verdict) (mgr : TemplateManager)
    (tilePixelsSnapshot : list Z) (l : list (TemplateTileBlob * (Z * Z)))
  : list (TemplateTileBlob * (Z * Z)) :=
  filter (λ tp, verdictAt mgr tilePixelsSnapshot tp.1 tp.2.1 tp.2.2 ∈ vs) l.

(** The color key of the template pixel at a position of a pass. *)
Definition shredKeyAt (tp : TemplateTileBlob * (Z * Z)) : string :=
  Pixel.getColorKey (shredPixelAt tp.1 tp.2.1 tp.2.2).

(** The positions of a list whose template pixel has the color key
    [key]. *)
Definition ofColor (key : string) (l : list (TemplateTileBlob * (Z * Z)))
  : list (TemplateTileBlob * (Z * Z)) :=
  filter (λ tp, shredKeyAt tp = key) l.

(** The entry of [wrongPixelPositions] that the code makes for a
    position. *)
Definition entryOf (mgr : TemplateManager) (tp : TemplateTileBlob * (Z * Z))
  : WrongPixelPosition :=
  TemplateManager.wrongPosition (drawMult mgr) tp.1 tp.2.1 tp.2.2.

(** The sample of the specification: [x] and [y] are at the center
    offset of their block. *)
Definition isCenter (dm x y : Z) : Prop :=
  x `mod` dm = centerOffset dm ∧ y `mod` dm = centerOffset dm.

Global Instance isCenter_dec dm x y : Decision (isCenter dm x y).
Proof. unfold isCenter. apply _. Defined.


(** The counters agree with the color counts: the painted count is the
    sum of the painted color counts and the wrong count the sum of the
    wrong color counts, and the painted count lies between zero and the
    total. *)
Definition countsColors (st : TileProgress) : Prop :=
  paintedPixelCount st = sumCounts (paintedPixelColorCounts st)
  ∧ wrongPixelCount st = sumCounts (wrongPixelColorCounts st)
  ∧ 0 ≤ paintedPixelCount st ≤ totalPixelCount st
  ∧ 0 ≤ wrongPixelCount st.

End MoreVocabulary.

(** ** [templateManager.js]: the import of stored templates *)

(** The parts of [#parseBlueMarble] that do not go through [Template.js],
    the decoding of the images or the page: the count of the required
    pixels of the tiles of one template, and its palette. *)
Module ParseBlueMarble.

(** The counters of the loops over the pixels of the tiles, and whether
    the body has thrown: the [try] around the two loops of a tile ends
    them at the first exception and keeps what was counted before it. *)
Record Counting := {
  requiredPixelCount : Z;
  paletteMap : gmap string Z;
  thrown : bool
}.

(** The body of the two loops at [(x, y)], lines 601 to 611, over the
    data of a bitmap of width [w].  [allowed] is what
    [activeTemplate.allowedColorsSet] evaluates to at line 610, where
    [activeTemplate] is neither a parameter nor a local of
    [#parseBlueMarble]: [None] when the evaluation throws, for want of a
    binding or of the set.  The count is incremented before. *)
Definition countPixel (drawMult : Z) (allowed : option (gset string))
    (w : Z) (data : list Z) (x y : Z) (st : Counting) : Counting :=
  if thrown st then st
  else if TemplateManager.isNotCenter drawMult x y then st
  else
    let idx := (y * w + x) * 4 in
    let r := JS.at_index data (Some idx) in
    let g := JS.at_index data (Some (idx + 1)) in
    let b := JS.at_index data (Some (idx + 2)) in
    let a := JS.at_index data (Some (idx + 3)) in
    if JS.lt a (Some 64) then st
    else if bool_decide (r = Some 222) && bool_decide (g = Some 250)
            && bool_decide (b = Some 206) then st
    else
      let counted := requiredPixelCount st + 1 in
      match allowed with
      | None =>
          {| requiredPixelCount := counted;
             paletteMap := paletteMap st;
             thrown := true |}
      | Some allowed =>
          let rgb := JS.show r +:+ "," +:+ JS.show g +:+ "," +:+ JS.show b in
          let key := if bool_decide (rgb ∈ allowed) then rgb else "other" in
          {| requiredPixelCount := counted;
             paletteMap := TemplateManager.increment key (paletteMap st);
             thrown := false |}
      end.

(** The [try] block of one tile, lines 589 to 615, on the two counters. *)
Definition countTile (drawMult : Z) (allowed : option (gset string))
    (templateBitmap : ImageBitmap) (counters : Z * gmap string Z)
  : Z * gmap string Z :=
  let w := width templateBitmap in
  let h := height templateBitmap in
  let st :=
    TemplateManager.forRange h (λ y,
      TemplateManager.forRange w (λ x,
        countPixel drawMult allowed w (data templateBitmap) x y))
      {| requiredPixelCount := counters.1;
         paletteMap := counters.2;
         thrown := false |} in
  (requiredPixelCount st, paletteMap st).

(** The loop over the tiles of one template, lines 577 to 617, on
    [requiredPixelCount] and [paletteMap]; [tiles] lists the decoded
    bitmaps with their keys in the order of the loop. *)
Definition countTiles (drawMult : Z) (allowed : option (gset string))
    (tiles : list (string * ImageBitmap)) : Z * gmap string Z :=
  foldl (λ counters tile, countTile drawMult allowed tile.2 counters)
    (0, ∅) tiles.

(** A value of the stored [palette]: [meta?.count], [undefined] being
    [None], and the truth value of [meta?.enabled]. *)
Record PersistedEntry := {
  persistedCount : option Z;
  persistedEnabled : bool
}.

(** [paletteObj], lines 628 and 629. *)
Definition paletteObj (paletteMap : gmap string Z) : gmap string PaletteEntry :=
  (λ c, {| count := c; enabled := true |}) <$> paletteMap.

(** The body of the loop over the entries of the stored palette, lines
    639 to 643. *)
Definition mergeEntry (rgb : string) (meta : PersistedEntry)
    (colorPalette : gmap string PaletteEntry) : gmap string PaletteEntry :=
  match colorPalette !! rgb with
  | None =>
      <[rgb := {| count := default 0 (persistedCount meta);
                  enabled := persistedEnabled meta |}]> colorPalette
  | Some entry =>
      <[rgb := {| count := count entry;
                  enabled := persistedEnabled meta |}]> colorPalette
  end.

(** Lines 636 to 646: the stored palette, when there is one, is merged
    into the palette of the template. *)
Definition mergePersisted (persisted : option (gmap string PersistedEntry))
    (colorPalette : gmap string PaletteEntry) : gmap string PaletteEntry :=
  match persisted with
  | Some entries => map_fold mergeEntry colorPalette entries
  | None => colorPalette
  end.

(** [template.colorPalette] at the end of the import of one template. *)
Definition importedPalette (paletteMap : gmap string Z)
    (persisted : option (gmap string PersistedEntry))
  : gmap string PaletteEntry :=
  mergePersisted persisted (paletteObj paletteMap).

(** The pixel at [(x, y)] is counted by the loops: a center with alpha
    not under 64 that is not the color 222, 250, 206. *)
Definition isRequiredAt (drawMult w : Z) (data : list Z) (x y : Z) : bool :=
  let idx := (y * w + x) * 4 in
  negb (TemplateManager.isNotCenter drawMult x y)
  && negb (JS.lt (JS.at_index data (Some (idx + 3))) (Some 64))
  && negb (bool_decide (JS.at_index data (Some idx) = Some 222)
           && bool_decide (JS.at_index data (Some (idx + 1)) = Some 250)
           && bool_decide (JS.at_index data (Some (idx + 2)) = Some 206)).

(** The counted positions of a bitmap, in the order of the loops. *)
Definition requiredPositions (drawMult : Z) (bm : ImageBitmap)
  : list (Z * Z) :=
  filter (λ p, isRequiredAt drawMult (width bm) (data bm) p.1 p.2 = true)
    (loopPositions (width bm) (height bm)).

End ParseBlueMarble.

(** ** More inputs for the statements *)

Module MoreExamples.
Import TemplateManager Examples.

(** [templateA] with one color of its palette disabled. *)
Definition templateAHidden : Template :=
  {| sortID := 0;
     chunked := Some tilesA;
     tilePrefixes := Some (tilePrefixesOfKeys tilesA);
     colorPalette :=
       Some {[ "10,20,30" := entry 1 false; "40,50,60" := entry 1 true ]};
     allowedColorsSet := Some {[ "10,20,30"; "40,50,60"; "70,80,90" ]} |}.

Definition managerAHidden : TemplateManager :=
  setTemplatesArray [templateAHidden] new.

(** The fragment of a key of two fields, "0001,0002": it has no pixel
    coordinates. *)
Definition blobNoOffset : TemplateTileBlob :=
  {| bitmap := block [10; 20; 30; 255];
     tileCoords := (Some "0001", Some "0002");
     pixelCoords := (None, None) |}.

End MoreExamples.

(** * Properties *)

(** ** The progress aggregator *)

Section Aggregator.
Import TileProgressManager.

Lemma foldl_addProgress_app acc l1 l2 :
  foldl addProgress acc (l1 ++ l2)
  = foldl addProgress (foldl addProgress acc l1) l2.
Proof. apply foldl_app. Qed.

Lemma set_fresh k p (m : TileProgressManager.t) :
  get k m = None → set k p m = m ++ [(k, p)].
Proof.
  induction m as [|[k' v] m IH]; simpl; [done|].
  destruct (decide (k' = k)); [done|].
  intros Hm. by rewrite IH.
Qed.

Lemma get_set_eq k p (m : TileProgressManager.t) : get k (set k p m) = Some p.
Proof.
  induction m as [|[k' v] m IH]; simpl.
  - by rewrite decide_True.
  - destruct (decide (k' = k)) as [->|Hne]; simpl.
    + by rewrite decide_True.
    + by rewrite decide_False.
Qed.

Lemma get_set_ne k k' p (m : TileProgressManager.t) :
  k ≠ k' → get k' (set k p m) = get k' m.
Proof.
  intros Hne. induction m as [|[k0 v] m IH]; simpl.
  - by rewrite decide_False.
  - destruct (decide (k0 = k)) as [->|Hne']; simpl.
    + by rewrite !decide_False.
    + destruct (decide (k0 = k')); done.
Qed.

(** Recording a tile that has no record yet adds its counts to the
    totals and its positions after those already there. *)
Lemma computeTotalProgress_set_fresh k p (m : TileProgressManager.t) :
  get k m = None →
  computeTotalProgress (set k p m) = addProgress (computeTotalProgress m) p.
Proof.
  intros Hm. rewrite set_fresh by done. unfold computeTotalProgress.
  by rewrite fmap_app, foldl_app.
Qed.

(** C9: after tiles A and B are recorded at distinct addresses, the
    totals are the sums of the three counts of A and B, and the wrong
    positions are those of A followed by those of B. *)
Theorem totals_of_two_tiles (kA kB : string) (A B : TileProgress) :
  kA ≠ kB →
  computeTotalProgress (set kB B (set kA A empty))
  = {| aggregateTotalPixelCount := totalPixelCount A + totalPixelCount B;
       aggregatePaintedPixelCount := paintedPixelCount A + paintedPixelCount B;
       aggregateWrongPixelCount := wrongPixelCount A + wrongPixelCount B;
       aggregateWrongPixelPositions :=
         wrongPixelPositions A ++ wrongPixelPositions B |}.
Proof.
  intros Hne. simpl. rewrite decide_False by done. reflexivity.
Qed.

End Aggregator.

(** ** The classification of one sample *)

Section Classification.
Context `{Externals}.
Import TemplateManager.

Implicit Types (mgr : TemplateManager) (template : TemplateTileBlob).
Implicit Types (st : TileProgress) (x y : Z).

Lemma isSampled_center mgr template x y :
  isSampled mgr template x y = true → isNotCenter (drawMult mgr) x y = false.
Proof. unfold isSampled. intros [? _]%andb_prop. by apply negb_true_iff. Qed.

Lemma isSampled_inside mgr template x y :
  isSampled mgr template x y = true → isOutsideTile mgr template x y = false.
Proof. unfold isSampled. intros [_ ?]%andb_prop. by apply negb_true_iff. Qed.

(** The body of the loops at a sampled position, in the vocabulary of
    the statements. *)
Lemma classifyPixel_sampled mgr snapshot template x y st :
  isSampled mgr template x y = true →
  classifyPixel mgr snapshot template x y st
  = let shred := shredPixelAt template x y in
    let ground := groundPixelAt mgr snapshot template x y in
    if Pixel.isUnpainted shred then
      if Pixel.isPainted ground && isWPlaceColor mgr (Pixel.getColorKey ground)
      then recordWrong (drawMult mgr) template x y shred st
      else st
    else
      if Pixel.isPainted ground && Pixel.equalsRGB ground shred
      then recordPainted shred (incrementTotal st)
      else if Pixel.isPainted ground
      then recordWrong (drawMult mgr) template x y shred (incrementTotal st)
      else incrementTotal st.
Proof.
  intros Hs. unfold classifyPixel.
  rewrite (isSampled_center _ _ _ _ Hs).
  pose proof (isSampled_inside _ _ _ _ Hs) as Hin.
  unfold isOutsideTile, globalX, globalY in Hin. rewrite Hin.
  reflexivity.
Qed.

Lemma classifyPixel_skipped mgr snapshot template x y st :
  isSampled mgr template x y = false →
  classifyPixel mgr snapshot template x y st = st.
Proof.
  unfold isSampled, classifyPixel. intros Hs.
  destruct (isNotCenter (drawMult mgr) x y); [done|].
  simpl in Hs. apply negb_false_iff in Hs.
  unfold isOutsideTile, globalX, globalY in Hs. by rewrite Hs.
Qed.

Lemma isPainted_not_unpainted (p : Pixel.t) :
  Pixel.isPainted p = true → Pixel.isUnpainted p = false.
Proof.
  unfold Pixel.isPainted, Pixel.isUnpainted. destruct (Pixel.alpha p); [|done].
  intros ?%bool_decide_eq_true. apply bool_decide_eq_false. lia.
Qed.

Lemma isUnpainted_not_painted (p : Pixel.t) :
  Pixel.isUnpainted p = true → Pixel.isPainted p = false.
Proof.
  unfold Pixel.isPainted, Pixel.isUnpainted. destruct (Pixel.alpha p); [|done].
  intros ?%bool_decide_eq_true. apply bool_decide_eq_false. lia.
Qed.

Lemma lookup_increment key (counts : gmap string Z) :
  increment key counts !! key = Some (default 0 (counts !! key) + 1).
Proof. unfold increment. apply lookup_insert_eq. Qed.

Lemma lookup_increment_ne key key' (counts : gmap string Z) :
  key ≠ key' → increment key counts !! key' = counts !! key'.
Proof. intros. unfold increment. by apply lookup_insert_ne. Qed.

Lemma center_floor_div dm x :
  0 < dm → JS.rem x dm = Some 1 → JS.floor_div (x - 1) dm = x `div` dm.
Proof.
  unfold JS.rem, JS.floor_div. intros Hdm.
  destruct (decide (dm = 0)); [done|]. intros [= Hr].
  pose proof (Z.quot_rem' x dm) as Hq. rewrite Hr in Hq.
  assert (dm ≠ 1).
  { intros ->. rewrite Z.rem_1_r in Hr. done. }
  rewrite Hq at 2. replace (x - 1) with (x `quot` dm * dm) by lia.
  rewrite Z.div_mul by lia.
  rewrite (Z.mul_comm dm), Z.div_add_l by lia.
  rewrite (Z.div_small 1 dm) by lia. lia.
Qed.

Lemma isNotCenter_false dm x y :
  isNotCenter dm x y = false ↔ JS.rem x dm = Some 1 ∧ JS.rem y dm = Some 1.
Proof.
  unfold isNotCenter. rewrite orb_false_iff, !negb_false_iff.
  by rewrite !bool_decide_eq_true.
Qed.

End Classification.

(** ** The loops *)

Section Loops.
Context `{Externals}.
Import TemplateManager.

Lemma forRange_nested {S} (f : Z → Z → S → S) (w h : Z) (s : S) :
  forRange h (λ y, forRange w (λ x, f x y)) s
  = foldl (λ s p, f p.1 p.2 s) s (loopPositions w h).
Proof.
  unfold forRange, loopPositions. generalize (seqZ 0 h) as ys.
  intros ys. revert s. induction ys as [|y ys IH]; intros s; [done|].
  cbn [foldl mbind list_bind]. rewrite foldl_app, <- IH. f_equal.
  generalize (seqZ 0 w) as xs. intros xs. revert s.
  induction xs as [|x xs IHx]; intros s; [done|].
  cbn. by rewrite IHx.
Qed.

Lemma foldl_filter_skip {S A} (f : S → A → S) (P : A → Prop)
    `{∀ a, Decision (P a)} (l : list A) (s : S) :
  (∀ s a, ¬ P a → f s a = s) →
  foldl f s (filter P l) = foldl f s l.
Proof.
  intros Hskip. revert s. induction l as [|a l IH]; intros s; [done|].
  rewrite filter_cons. destruct (decide (P a)) as [|Hn]; simpl.
  - apply IH.
  - rewrite (Hskip s a Hn). apply IH.
Qed.

Lemma foldl_invariant {S A} (I : S → Prop) (f : S → A → S) (l : list A) (s : S) :
  (∀ s a, I s → I (f s a)) → I s → I (foldl f s l).
Proof.
  intros Hf. revert s. induction l as [|a l IH]; intros s Hs; [done|].
  simpl. apply IH, Hf, Hs.
Qed.

Lemma elem_of_loopPositions w h x y :
  (x, y) ∈ loopPositions w h ↔ 0 ≤ x < w ∧ 0 ≤ y < h.
Proof.
  unfold loopPositions. rewrite list_elem_of_bind. split.
  - intros (y' & Hin & Hy'). apply list_elem_of_bind in Hin as (x' & Hin & Hx').
    apply list_elem_of_singleton in Hin as [= -> ->].
    apply elem_of_seqZ in Hx', Hy'. lia.
  - intros [Hx Hy]. exists y. split; [|apply elem_of_seqZ; lia].
    apply list_elem_of_bind. exists x. split; [|apply elem_of_seqZ; lia].
    by apply list_elem_of_singleton.
Qed.

Lemma NoDup_loopPositions w h : NoDup (loopPositions w h).
Proof.
  unfold loopPositions. apply NoDup_bind.
  - intros y1 y2 p _ _ H1 H2.
    apply list_elem_of_bind in H1 as (x1 & H1 & _).
    apply list_elem_of_bind in H2 as (x2 & H2 & _).
    apply list_elem_of_singleton in H1, H2. congruence.
  - intros y _. apply NoDup_bind.
    + intros x1 x2 p _ _ H1 H2.
      apply list_elem_of_singleton in H1, H2. congruence.
    + intros x _. apply NoDup_singleton.
    + apply NoDup_seqZ.
  - apply NoDup_seqZ.
Qed.

Lemma classifyPixel_not_center mgr snapshot template x y st :
  isNotCenter (drawMult mgr) x y ≠ false →
  classifyPixel mgr snapshot template x y st = st.
Proof.
  intros Hc. unfold classifyPixel.
  by destruct (isNotCenter (drawMult mgr) x y).
Qed.

Lemma filterPixel_not_center mgr w x y d :
  isNotCenter (drawMult mgr) x y ≠ false → filterPixel mgr w x y d = d.
Proof.
  intros Hc. unfold filterPixel.
  by destruct (isNotCenter (drawMult mgr) x y).
Qed.

(** The classification loops do what their body does at the sampled
    positions, in the order of the loops. *)
Lemma classifyTemplate_sampled mgr snapshot template st :
  classifyTemplate mgr snapshot template st
  = foldl (λ st p, classifyPixel mgr snapshot template p.1 p.2 st) st
      (sampledPositions (drawMult mgr) (width (bitmap template))
         (height (bitmap template))).
Proof.
  unfold classifyTemplate, sampledPositions.
  rewrite (forRange_nested (classifyPixel mgr snapshot template)).
  symmetry. apply foldl_filter_skip.
  intros s p Hp. by apply classifyPixel_not_center.
Qed.

Lemma filterTemplate_sampled mgr bm :
  filterTemplate mgr bm
  = foldl (λ d p, filterPixel mgr (width bm) p.1 p.2 d) (data bm)
      (sampledPositions (drawMult mgr) (width bm) (height bm)).
Proof.
  unfold filterTemplate, sampledPositions.
  rewrite (forRange_nested (filterPixel mgr (width bm))).
  symmetry. apply foldl_filter_skip.
  intros s p Hp. by apply filterPixel_not_center.
Qed.


Lemma classifyPixel_countsPositions mgr snapshot template x y st :
  countsPositions st →
  countsPositions (classifyPixel mgr snapshot template x y st).
Proof.
  unfold countsPositions, classifyPixel. intros Hst.
  repeat case_match; simpl; rewrite ?length_app; simpl; lia.
Qed.

Lemma classifyTemplate_countsPositions mgr snapshot template st :
  countsPositions st →
  countsPositions (classifyTemplate mgr snapshot template st).
Proof.
  rewrite classifyTemplate_sampled. apply foldl_invariant.
  intros s p. apply classifyPixel_countsPositions.
Qed.

(** C10: in the progress record that a pass over the fragments of a tile
    hands to [new TileProgress], the wrong count is the length of the
    list of wrong positions. *)
Theorem wrong_count_is_number_of_positions mgr snapshot tileBlob blobs :
  let progress := (drawAllTemplates mgr snapshot tileBlob blobs).1 in
  wrongPixelCount progress = Z.of_nat (length (wrongPixelPositions progress)).
Proof.
  simpl. unfold drawAllTemplates.
  apply (foldl_invariant (λ acc, countsPositions acc.1)); [|done].
  intros [st ops] template Hst. unfold drawOneTemplate. simpl in *.
  destruct snapshot; [|done]. by apply classifyTemplate_countsPositions.
Qed.

End Loops.

(** ** The counters of a pass, position by position *)

Section PassCounters.
Context `{Externals}.
Import TemplateArray TemplateManager.

Implicit Types (mgr : TemplateManager) (template : TemplateTileBlob).
Implicit Types (st : TileProgress) (x y : Z).
Implicit Types (l before after : list (TemplateTileBlob * (Z * Z))).

Lemma classifyPixel_verdict mgr snapshot template x y st :
  classifyPixel mgr snapshot template x y st
  = match verdictAt mgr snapshot template x y with
    | NotSampled | Blank => st
    | Overpainted =>
        recordWrong (drawMult mgr) template x y (shredPixelAt template x y) st
    | Correct => recordPainted (shredPixelAt template x y) (incrementTotal st)
    | Wrong =>
        recordWrong (drawMult mgr) template x y (shredPixelAt template x y)
          (incrementTotal st)
    | Pending => incrementTotal st
    end.
Proof.
  unfold verdictAt. destruct (isSampled mgr template x y) eqn:Hs; cbn [negb].
  - rewrite classifyPixel_sampled by done. cbv zeta.
    by repeat case_match.
  - by apply classifyPixel_skipped.
Qed.

Lemma drawAllTemplates_fold mgr snapshot tileBlob blobs :
  (drawAllTemplates mgr (Some snapshot) tileBlob blobs).1
  = foldl (λ st tp, classifyPixel mgr snapshot tp.1 tp.2.1 tp.2.2 st)
      noProgress (passPositions blobs).
Proof.
  unfold drawAllTemplates, passPositions.
  generalize [DrawTile tileBlob (tileSize mgr * drawMult mgr)].
  generalize noProgress.
  induction blobs as [|t blobs IH]; intros st ops; [done|].
  cbn [foldl]. unfold drawOneTemplate at 2. cbn [fst snd].
  rewrite IH, bind_cons, foldl_app, foldl_fmap. f_equal.
  unfold classifyTemplate.
  by rewrite (forRange_nested (classifyPixel mgr snapshot t)).
Qed.

Lemma foldl_classifyPixel_counts mgr snapshot
    (l : list (TemplateTileBlob * (Z * Z))) st :
  let v tp := verdictAt mgr snapshot tp.1 tp.2.1 tp.2.2 in
  let st' := foldl (λ st tp, classifyPixel mgr snapshot tp.1 tp.2.1 tp.2.2 st)
               st l in
  totalPixelCount st'
  = totalPixelCount st
    + Z.of_nat (length (filter (λ tp, v tp ∈ [Correct; Wrong; Pending]) l))
  ∧ paintedPixelCount st'
    = paintedPixelCount st
      + Z.of_nat (length (filter (λ tp, v tp ∈ [Correct]) l))
  ∧ wrongPixelCount st'
    = wrongPixelCount st
      + Z.of_nat (length (filter (λ tp, v tp ∈ [Overpainted; Wrong]) l))
  ∧ wrongPixelPositions st'
    = wrongPixelPositions st
      ++ ((λ tp, wrongPosition (drawMult mgr) tp.1 tp.2.1 tp.2.2)
            <$> filter (λ tp, v tp ∈ [Overpainted; Wrong]) l).
Proof.
  cbv zeta. revert st. induction l as [|[t p] l IH]; intros st.
  - simpl. rewrite app_nil_r. repeat split; lia.
  - cbn [foldl fst snd].
    destruct (IH (classifyPixel mgr snapshot t p.1 p.2 st))
      as (-> & -> & -> & ->). clear IH.
    rewrite classifyPixel_verdict, !filter_cons. cbn [fst snd].
    destruct (verdictAt mgr snapshot t p.1 p.2) eqn:Hv;
      repeat (first
        [rewrite decide_True by (apply (bool_decide_unpack _); by compute)
        |rewrite decide_False by (apply (bool_decide_unpack _); by compute)]);
      cbn [length fmap list_fmap totalPixelCount paintedPixelCount
           wrongPixelCount wrongPixelPositions recordWrong recordPainted
           incrementTotal fst snd];
      rewrite <- ?app_assoc; repeat split; try done; try lia.
Qed.

Lemma countOf_increment key key' (counts : gmap string Z) :
  countOf key' (increment key counts)
  = countOf key' counts + (if decide (key = key') then 1 else 0).
Proof.
  unfold countOf. destruct (decide (key = key')) as [->|Hne].
  - by rewrite lookup_increment.
  - rewrite lookup_increment_ne by done. lia.
Qed.

Lemma positionsWith_cons vs mgr snapshot template x y l :
  positionsWith vs mgr snapshot ((template, (x, y)) :: l)
  = if decide (verdictAt mgr snapshot template x y ∈ vs)
    then (template, (x, y)) :: positionsWith vs mgr snapshot l
    else positionsWith vs mgr snapshot l.
Proof. unfold positionsWith. by rewrite filter_cons. Qed.

Lemma positionsWith_app vs mgr snapshot l1 l2 :
  positionsWith vs mgr snapshot (l1 ++ l2)
  = positionsWith vs mgr snapshot l1 ++ positionsWith vs mgr snapshot l2.
Proof. apply filter_app. Qed.

Lemma ofColor_cons key tp l :
  ofColor key (tp :: l)
  = if decide (shredKeyAt tp = key) then tp :: ofColor key l
    else ofColor key l.
Proof. unfold ofColor. by rewrite filter_cons. Qed.

Lemma ofColor_app key l1 l2 :
  ofColor key (l1 ++ l2) = ofColor key l1 ++ ofColor key l2.
Proof. apply filter_app. Qed.

Lemma foldl_classifyPixel_colors mgr snapshot l st key :
  let st' := foldl (λ st tp, classifyPixel mgr snapshot tp.1 tp.2.1 tp.2.2 st)
               st l in
  countOf key (paintedPixelColorCounts st')
  = countOf key (paintedPixelColorCounts st)
    + Z.of_nat (length (ofColor key (positionsWith [Correct] mgr snapshot l)))
  ∧ countOf key (wrongPixelColorCounts st')
    = countOf key (wrongPixelColorCounts st)
      + Z.of_nat (length (ofColor key
                            (positionsWith [Overpainted; Wrong]
                               mgr snapshot l))).
Proof.
  cbv zeta. revert st. induction l as [|[t [x y]] l IH]; intros st.
  - simpl. lia.
  - cbn [foldl fst snd].
    destruct (IH (classifyPixel mgr snapshot t x y st)) as (-> & ->).
    clear IH. rewrite classifyPixel_verdict, !positionsWith_cons.
    destruct (verdictAt mgr snapshot t x y) eqn:Hv;
      repeat (first
        [rewrite decide_True by (apply (bool_decide_unpack _); by compute)
        |rewrite decide_False by (apply (bool_decide_unpack _); by compute)]);
      rewrite ?ofColor_cons;
      cbn [paintedPixelColorCounts wrongPixelColorCounts recordWrong
           recordPainted incrementTotal];
      rewrite ?countOf_increment; unfold shredKeyAt; cbn [fst snd];
      destruct (decide (Pixel.getColorKey (shredPixelAt t x y) = key));
      cbn [length]; lia.
Qed.

(** The record of a pass, from the positions of the pass. *)
Lemma pass_record mgr snapshot tileBlob blobs :
  let progress := (drawAllTemplates mgr (Some snapshot) tileBlob blobs).1 in
  let l := passPositions blobs in
  totalPixelCount progress
  = Z.of_nat (length (positionsWith [Correct; Wrong; Pending] mgr snapshot l))
  ∧ paintedPixelCount progress
    = Z.of_nat (length (positionsWith [Correct] mgr snapshot l))
  ∧ wrongPixelCount progress
    = Z.of_nat (length (positionsWith [Overpainted; Wrong] mgr snapshot l))
  ∧ wrongPixelPositions progress
    = entryOf mgr <$> positionsWith [Overpainted; Wrong] mgr snapshot l
  ∧ (∀ key, countOf key (paintedPixelColorCounts progress)
            = Z.of_nat (length (ofColor key
                                  (positionsWith [Correct] mgr snapshot l))))
  ∧ (∀ key, countOf key (wrongPixelColorCounts progress)
            = Z.of_nat (length (ofColor key
                                  (positionsWith [Overpainted; Wrong]
                                     mgr snapshot l)))).
Proof.
  cbv zeta. rewrite drawAllTemplates_fold.
  destruct (foldl_classifyPixel_counts mgr snapshot (passPositions blobs)
              noProgress) as (-> & -> & -> & ->).
  repeat split; try done.
  - intros key.
    destruct (foldl_classifyPixel_colors mgr snapshot (passPositions blobs)
                noProgress key) as [-> _].
    by unfold countOf.
  - intros key.
    destruct (foldl_classifyPixel_colors mgr snapshot (passPositions blobs)
                noProgress key) as [_ ->].
    by unfold countOf.
Qed.

(** What one position adds to the counts of the positions around it. *)
Lemma positionsWith_insert vs mgr snapshot before after template x y :
  positionsWith vs mgr snapshot (before ++ (template, (x, y)) :: after)
  = positionsWith vs mgr snapshot before
    ++ (if decide (verdictAt mgr snapshot template x y ∈ vs)
        then [(template, (x, y))] else [])
    ++ positionsWith vs mgr snapshot after.
Proof.
  rewrite positionsWith_app, positionsWith_cons.
  by destruct (decide (verdictAt mgr snapshot template x y ∈ vs)).
Qed.

Lemma verdict_overpainted mgr snapshot template x y :
  isSampled mgr template x y = true →
  Pixel.isUnpainted (shredPixelAt template x y) = true →
  Pixel.isPainted (groundPixelAt mgr snapshot template x y) = true →
  isWPlaceColor mgr
    (Pixel.getColorKey (groundPixelAt mgr snapshot template x y)) = true →
  verdictAt mgr snapshot template x y = Overpainted.
Proof. intros Hs Hu Hg Hw. unfold verdictAt. by rewrite Hs, Hu, Hg, Hw. Qed.

Lemma verdict_correct mgr snapshot template x y :
  isSampled mgr template x y = true →
  Pixel.isPainted (shredPixelAt template x y) = true →
  Pixel.isPainted (groundPixelAt mgr snapshot template x y) = true →
  Pixel.equalsRGB (groundPixelAt mgr snapshot template x y)
    (shredPixelAt template x y) = true →
  verdictAt mgr snapshot template x y = Correct.
Proof.
  intros Hs Hp Hg He. unfold verdictAt.
  by rewrite Hs, (isPainted_not_unpainted _ Hp), Hg, He.
Qed.

Lemma verdict_wrong mgr snapshot template x y :
  isSampled mgr template x y = true →
  Pixel.isPainted (shredPixelAt template x y) = true →
  Pixel.isPainted (groundPixelAt mgr snapshot template x y) = true →
  Pixel.equalsRGB (groundPixelAt mgr snapshot template x y)
    (shredPixelAt template x y) = false →
  verdictAt mgr snapshot template x y = Wrong.
Proof.
  intros Hs Hp Hg He. unfold verdictAt.
  by rewrite Hs, (isPainted_not_unpainted _ Hp), Hg, He.
Qed.

Lemma verdict_pending mgr snapshot template x y :
  isSampled mgr template x y = true →
  Pixel.isPainted (shredPixelAt template x y) = true →
  Pixel.isUnpainted (groundPixelAt mgr snapshot template x y) = true →
  verdictAt mgr snapshot template x y = Pending.
Proof.
  intros Hs Hp Hg. unfold verdictAt.
  by rewrite Hs, (isPainted_not_unpainted _ Hp),
    (isUnpainted_not_painted _ Hg).
Qed.

(** C1, as the code has it: in a pass, a sampled position where the
    template pixel is unpainted and the snapshot pixel is painted with a
    color key of the active template's allowed set adds, to what the
    other positions of the pass give, one wrong pixel, counted under the
    color key of the template pixel, and one entry of
    [wrongPixelPositions], at its place in the order of the pass; the
    total, the painted count and the painted colors are what the other
    positions give. *)
Theorem unpainted_template_pixel_over_painted_ground
    mgr snapshot tileBlob blobs before after template x y :
  let shred := shredPixelAt template x y in
  let ground := groundPixelAt mgr snapshot template x y in
  let progress := (drawAllTemplates mgr (Some snapshot) tileBlob blobs).1 in
  let others := before ++ after in
  let wrongs := positionsWith [Overpainted; Wrong] mgr snapshot in
  passPositions blobs = before ++ (template, (x, y)) :: after →
  isSampled mgr template x y = true →
  Pixel.isUnpainted shred = true →
  Pixel.isPainted ground = true →
  isWPlaceColor mgr (Pixel.getColorKey ground) = true →
  wrongPixelCount progress = Z.of_nat (length (wrongs others)) + 1
  ∧ countOf (Pixel.getColorKey shred) (wrongPixelColorCounts progress)
    = Z.of_nat (length (ofColor (Pixel.getColorKey shred) (wrongs others)))
      + 1
  ∧ (∀ key, key ≠ Pixel.getColorKey shred →
       countOf key (wrongPixelColorCounts progress)
       = Z.of_nat (length (ofColor key (wrongs others))))
  ∧ wrongPixelPositions progress
    = (entryOf mgr <$> wrongs before)
      ++ [wrongPosition (drawMult mgr) template x y]
      ++ (entryOf mgr <$> wrongs after)
  ∧ totalPixelCount progress
    = Z.of_nat (length (positionsWith [Correct; Wrong; Pending]
                          mgr snapshot others))
  ∧ paintedPixelCount progress
    = Z.of_nat (length (positionsWith [Correct] mgr snapshot others))
  ∧ (∀ key, countOf key (paintedPixelColorCounts progress)
            = Z.of_nat (length (ofColor key
                                  (positionsWith [Correct]
                                     mgr snapshot others)))).
Proof.
  cbv zeta. intros Hsplit Hs Hu Hg Hw.
  pose proof (verdict_overpainted _ _ _ _ _ Hs Hu Hg Hw) as Hv.
  destruct (pass_record mgr snapshot tileBlob blobs)
    as (Ht & Hp & Hwc & Hpos & Hpc & Hwcol).
  cbv zeta in Ht, Hp, Hwc, Hpos, Hpc, Hwcol.
  rewrite Hsplit in Ht, Hp, Hwc, Hpos, Hpc, Hwcol.
  rewrite Ht, Hp, Hwc, Hpos. setoid_rewrite Hpc. setoid_rewrite Hwcol.
  rewrite !positionsWith_insert, Hv, !positionsWith_app.
  repeat (first
    [rewrite decide_True by (apply (bool_decide_unpack _); by compute)
    |rewrite decide_False by (apply (bool_decide_unpack _); by compute)]).
  cbn [app].
  split; [rewrite !length_app; cbn [length]; lia|].
  split.
  { rewrite !ofColor_app, ofColor_cons. unfold shredKeyAt. cbn [fst snd].
    rewrite decide_True by done. rewrite !length_app. cbn [length]. lia. }
  split.
  { intros key Hne. rewrite !ofColor_app, ofColor_cons.
    unfold shredKeyAt. cbn [fst snd].
    by rewrite decide_False by (intros E; by apply Hne). }
  split; [by rewrite fmap_app, fmap_cons|].
  done.
Qed.

(** C3: in a pass, a sampled position where the template pixel is
    required (alpha at least 64) adds one to the total that the other
    positions of the pass give.  When the snapshot pixel is painted and
    equal by RGB, it also adds one to the painted count and one to the
    painted count of the color key of the pixel, and nothing to the
    wrong pixels; when the snapshot pixel is unpainted, it adds nothing
    to the painted and the wrong pixels. *)
Theorem required_template_pixel
    mgr snapshot tileBlob blobs before after template x y :
  let shred := shredPixelAt template x y in
  let ground := groundPixelAt mgr snapshot template x y in
  let progress := (drawAllTemplates mgr (Some snapshot) tileBlob blobs).1 in
  let others := before ++ after in
  let required := positionsWith [Correct; Wrong; Pending] mgr snapshot in
  let corrects := positionsWith [Correct] mgr snapshot in
  let wrongs := positionsWith [Overpainted; Wrong] mgr snapshot in
  passPositions blobs = before ++ (template, (x, y)) :: after →
  isSampled mgr template x y = true →
  Pixel.isPainted shred = true →
  (Pixel.isPainted ground = true → Pixel.equalsRGB ground shred = true →
     paintedPixelCount progress = Z.of_nat (length (corrects others)) + 1
     ∧ countOf (Pixel.getColorKey shred) (paintedPixelColorCounts progress)
       = Z.of_nat (length (ofColor (Pixel.getColorKey shred)
                             (corrects others))) + 1
     ∧ (∀ key, key ≠ Pixel.getColorKey shred →
          countOf key (paintedPixelColorCounts progress)
          = Z.of_nat (length (ofColor key (corrects others))))
     ∧ totalPixelCount progress = Z.of_nat (length (required others)) + 1
     ∧ wrongPixelCount progress = Z.of_nat (length (wrongs others))
     ∧ wrongPixelPositions progress = entryOf mgr <$> wrongs others
     ∧ (∀ key, countOf key (wrongPixelColorCounts progress)
               = Z.of_nat (length (ofColor key (wrongs others)))))
  ∧ (Pixel.isUnpainted ground = true →
     paintedPixelCount progress = Z.of_nat (length (corrects others))
     ∧ wrongPixelCount progress = Z.of_nat (length (wrongs others))
     ∧ totalPixelCount progress = Z.of_nat (length (required others)) + 1
     ∧ (∀ key, countOf key (paintedPixelColorCounts progress)
               = Z.of_nat (length (ofColor key (corrects others))))
     ∧ (∀ key, countOf key (wrongPixelColorCounts progress)
               = Z.of_nat (length (ofColor key (wrongs others))))
     ∧ wrongPixelPositions progress = entryOf mgr <$> wrongs others).
Proof.
  cbv zeta. intros Hsplit Hs Hp.
  destruct (pass_record mgr snapshot tileBlob blobs)
    as (Ht & Hpc & Hwc & Hpos & Hpcol & Hwcol).
  cbv zeta in Ht, Hpc, Hwc, Hpos, Hpcol, Hwcol.
  rewrite Hsplit in Ht, Hpc, Hwc, Hpos, Hpcol, Hwcol.
  rewrite Ht, Hpc, Hwc, Hpos. setoid_rewrite Hpcol. setoid_rewrite Hwcol.
  rewrite !positionsWith_insert, !positionsWith_app. split.
  - intros Hg He.
    rewrite (verdict_correct _ _ _ _ _ Hs Hp Hg He).
    repeat (first
      [rewrite decide_True by (apply (bool_decide_unpack _); by compute)
      |rewrite decide_False by (apply (bool_decide_unpack _); by compute)]).
    cbn [app].
    split; [rewrite !length_app; cbn [length]; lia|].
    split.
    { rewrite !ofColor_app, ofColor_cons. unfold shredKeyAt. cbn [fst snd].
      rewrite decide_True by done. rewrite !length_app. cbn [length]. lia. }
    split.
    { intros key Hne. rewrite !ofColor_app, ofColor_cons.
      unfold shredKeyAt. cbn [fst snd].
      by rewrite decide_False by (intros E; by apply Hne). }
    split; [rewrite !length_app; cbn [length]; lia|].
    done.
  - intros Hg.
    rewrite (verdict_pending _ _ _ _ _ Hs Hp Hg).
    repeat (first
      [rewrite decide_True by (apply (bool_decide_unpack _); by compute)
      |rewrite decide_False by (apply (bool_decide_unpack _); by compute)]).
    cbn [app].
    split; [done|]. split; [done|].
    split; [rewrite !length_app; cbn [length]; lia|].
    done.
Qed.

(** C5: in a pass, a sampled position where a required template pixel
    lies over a snapshot pixel painted in another color adds exactly one
    entry to [wrongPixelPositions], at its place among the entries of
    the other positions; the tile of the entry is the tile of the
    fragment, and its [px] and [py] are the pixel offset of the
    fragment plus the floor of the local offset divided by the draw
    multiplier. *)
Theorem wrong_required_pixel_position
    mgr snapshot tileBlob blobs before after template x y :
  let shred := shredPixelAt template x y in
  let ground := groundPixelAt mgr snapshot template x y in
  let progress := (drawAllTemplates mgr (Some snapshot) tileBlob blobs).1 in
  let others := before ++ after in
  let wrongs := positionsWith [Overpainted; Wrong] mgr snapshot in
  0 < drawMult mgr →
  passPositions blobs = before ++ (template, (x, y)) :: after →
  isSampled mgr template x y = true →
  Pixel.isPainted shred = true →
  Pixel.isPainted ground = true →
  Pixel.equalsRGB ground shred = false →
  wrongPixelPositions progress
  = (entryOf mgr <$> wrongs before)
    ++ [{| tx := NumberOf (tileCoords template).1;
           ty := NumberOf (tileCoords template).2;
           px := JS.add (NumberOf (pixelCoords template).1)
                   (Some (x `div` drawMult mgr));
           py := JS.add (NumberOf (pixelCoords template).2)
                   (Some (y `div` drawMult mgr)) |}]
    ++ (entryOf mgr <$> wrongs after)
  ∧ length (wrongPixelPositions progress) = S (length (wrongs others))
  ∧ wrongPixelCount progress = Z.of_nat (length (wrongs others)) + 1.
Proof.
  cbv zeta. intros Hdm Hsplit Hs Hp Hg He.
  destruct (pass_record mgr snapshot tileBlob blobs)
    as (_ & _ & Hwc & Hpos & _ & _).
  cbv zeta in Hwc, Hpos. rewrite Hsplit in Hwc, Hpos.
  rewrite Hwc, Hpos.
  rewrite !positionsWith_insert, !positionsWith_app.
  rewrite (verdict_wrong _ _ _ _ _ Hs Hp Hg He).
  rewrite decide_True by (apply (bool_decide_unpack _); by compute).
  cbn [app]. rewrite fmap_app, fmap_cons.
  split.
  - f_equal. f_equal. unfold entryOf, wrongPosition. cbn [fst snd].
    apply isSampled_center, isNotCenter_false in Hs as [Hx Hy].
    by rewrite !center_floor_div.
  - rewrite !length_app, !length_fmap. cbn [length].
    rewrite !length_fmap. split; lia.
Qed.

Lemma elem_of_passPositions blobs template x y :
  (template, (x, y)) ∈ passPositions blobs
  ↔ template ∈ blobs
    ∧ 0 ≤ x < width (bitmap template) ∧ 0 ≤ y < height (bitmap template).
Proof.
  unfold passPositions. rewrite list_elem_of_bind. split.
  - intros (t & Hin & Ht). apply list_elem_of_fmap in Hin as ([x' y'] & E & Hin).
    injection E as -> -> ->. by apply elem_of_loopPositions in Hin.
  - intros [Ht Hxy]. exists template. split; [|done].
    apply list_elem_of_fmap. exists (x, y). split; [done|].
    by apply elem_of_loopPositions.
Qed.







End PassCounters.

(** ** Keys, prefixes and the tile matcher *)

Section Strings.

Lemma string_app_cons c (s t : string) :
  String c s +:+ t = String c (s +:+ t).
Proof. reflexivity. Qed.

Lemma string_app_nil_l (t : string) : EmptyString +:+ t = t.
Proof. reflexivity. Qed.

Lemma startsWith_app_same (a s q : string) :
  JS.startsWith (a +:+ s) (a +:+ q) = JS.startsWith s q.
Proof.
  induction a as [|c a IH]; [reflexivity|].
  rewrite !string_app_cons. simpl. by rewrite decide_True.
Qed.

Lemma startsWith_app (q t : string) : JS.startsWith (q +:+ t) q = true.
Proof.
  induction q as [|c q IH]; [reflexivity|].
  rewrite string_app_cons. simpl. by rewrite decide_True.
Qed.

Lemma string_app_nil_r (s : string) : s +:+ EmptyString = s.
Proof.
  induction s as [|c s IH]; [reflexivity|]. by rewrite string_app_cons, IH.
Qed.

Lemma startsWith_refl (q : string) : JS.startsWith q q = true.
Proof. rewrite <- (string_app_nil_r q) at 1. apply startsWith_app. Qed.

Lemma split_not_nil c s : JS.split c s ≠ [].
Proof.
  destruct s as [|a s]; simpl; [done|].
  destruct (decide (a = c)); [done|]. by destruct (JS.split c s).
Qed.

Lemma join_cons_cons c x y l :
  JS.join c (x :: y :: l) = x +:+ String c (JS.join c (y :: l)).
Proof. reflexivity. Qed.

Lemma join_String_head c a h t :
  JS.join c (String a h :: t) = String a (JS.join c (h :: t)).
Proof. by destruct t. Qed.

Lemma join_split c s : JS.join c (JS.split c s) = s.
Proof.
  induction s as [|a s IH]; simpl; [done|].
  pose proof (split_not_nil c s).
  destruct (JS.split c s) as [|h t] eqn:Hs; [done|].
  destruct (decide (a = c)) as [->|Hne].
  - by rewrite join_cons_cons, IH.
  - by rewrite join_String_head, IH.
Qed.

Lemma split_no_separator c s :
  Forall (λ x, JS.includes x c = false) (JS.split c s).
Proof.
  induction s as [|a s IH]; simpl; [by repeat constructor|].
  destruct (decide (a = c)) as [->|Hne].
  - by constructor.
  - pose proof (split_not_nil c s).
    destruct (JS.split c s) as [|h t]; [done|].
    inversion IH as [|?? Hh Ht]; subst. constructor; [|done].
    simpl. by rewrite decide_False.
Qed.

Lemma join_cons_app c x l : ∃ t, JS.join c (x :: l) = x +:+ t.
Proof.
  destruct l as [|y l]; cbn [JS.join].
  - exists EmptyString. by rewrite string_app_nil_r.
  - by eexists.
Qed.

Lemma startsWith_join_take c l n :
  JS.startsWith (JS.join c l) (JS.join c (take n l)) = true.
Proof.
  revert n. induction l as [|x l IH]; intros n.
  - by rewrite take_nil.
  - destruct n as [|n]; [done|]. rewrite firstn_cons.
    destruct l as [|y l].
    + rewrite take_nil. apply startsWith_refl.
    + destruct n as [|n].
      * cbn [take JS.join]. apply startsWith_app.
      * specialize (IH (S n)). rewrite firstn_cons in *.
        cbn [JS.join] in *. rewrite startsWith_app_same. simpl.
        by rewrite decide_True.
Qed.

(** A key starts with its own tile prefix. *)
Lemma startsWith_tilePrefixOfKey k :
  JS.startsWith k (TemplateManager.tilePrefixOfKey k) = true.
Proof.
  unfold TemplateManager.tilePrefixOfKey.
  rewrite <- (join_split "," k) at 1. apply startsWith_join_take.
Qed.

Lemma startsWith_field c (X X' R R' : string) :
  JS.includes X c = false → JS.includes X' c = false →
  JS.startsWith (X +:+ String c R) (X' +:+ String c R') = true →
  X = X' ∧ JS.startsWith R R' = true.
Proof.
  revert X. induction X' as [|a' X' IH]; intros X HX HX'; simpl.
  - destruct X as [|a X]; simpl; [by rewrite decide_True|].
    simpl in HX. destruct (decide (a = c)) as [|Hne]; [done|].
    by rewrite decide_False.
  - simpl in HX'. destruct (decide (a' = c)) as [|Hne']; [done|].
    destruct X as [|a X]; simpl.
    + by rewrite decide_False.
    + simpl in HX. destruct (decide (a = c)); [done|].
      destruct (decide (a' = a)) as [->|]; [|done].
      intros Hs. destruct (IH X HX HX' Hs) as [-> ?]. done.
Qed.

Lemma startsWith_same_length (Y T Y' : string) :
  String.length Y = String.length Y' →
  JS.startsWith (Y +:+ T) Y' = true → Y = Y'.
Proof.
  revert Y. induction Y' as [|a' Y' IH]; intros Y Hl; simpl.
  - by destruct Y.
  - destruct Y as [|a Y]; [done|]. simpl in *.
    destruct (decide (a' = a)) as [->|]; [|done].
    intros Hs. f_equal. apply IH; [lia|done].
Qed.

(** For a key and a tile in the address format, the key starts with the
    tile exactly when the tile is the key's tile prefix. *)
Lemma startsWith_iff_tilePrefix n k q :
  isTileKey n k = true → isTileCoords n q = true →
  JS.startsWith k q = true ↔ TemplateManager.tilePrefixOfKey k = q.
Proof.
  unfold isTileKey, isTileCoords, TemplateManager.tilePrefixOfKey.
  intros Hk Hq. split; [|intros <-; apply startsWith_tilePrefixOfKey].
  pose proof (join_split "," k) as Jk. pose proof (join_split "," q) as Jq.
  pose proof (split_no_separator "," k) as Nk.
  pose proof (split_no_separator "," q) as Nq.
  destruct (JS.split "," k) as [|X [|Y [|P [|Q [|??]]]]]; try done.
  destruct (JS.split "," q) as [|X' [|Y' [|??]]]; try done.
  apply bool_decide_eq_true in Hk as [_ HY], Hq as [_ HY'].
  rewrite <- Jk, <- Jq. cbn [JS.join take].
  inversion Nk as [|?? HX NkY]; subst. inversion Nq as [|?? HX' NqY]; subst.
  intros Hs. apply startsWith_field in Hs as [-> Hs]; [|done..].
  apply startsWith_same_length in Hs as ->; [done|lia].
Qed.

End Strings.

Section Matcher.
Import TemplateArray TemplateManager.

Lemma scanChunkedKeys_true ch q :
  scanChunkedKeys ch q = true ↔ ∃ k, k ∈ ch.*1 ∧ JS.startsWith k q = true.
Proof.
  unfold scanChunkedKeys. rewrite existsb_exists.
  setoid_rewrite <- list_elem_of_In. done.
Qed.

Lemma elem_of_tilePrefixesOfKeys ch q :
  q ∈ tilePrefixesOfKeys ch ↔ ∃ k, k ∈ ch.*1 ∧ tilePrefixOfKey k = q.
Proof.
  unfold tilePrefixesOfKeys. rewrite elem_of_list_to_set, list_elem_of_fmap.
  split; intros (k & ? & ?); by exists k.
Qed.

(** A tile of the index is the start of a key, whatever the format. *)
Lemma index_implies_scan ch q :
  q ∈ tilePrefixesOfKeys ch → scanChunkedKeys ch q = true.
Proof.
  rewrite elem_of_tilePrefixesOfKeys, scanChunkedKeys_true.
  intros (k & Hk & <-). exists k. split; [done|].
  apply startsWith_tilePrefixOfKey.
Qed.

Lemma index_iff_scan n ch q :
  forallb (isTileKey n) (ch.*1) = true → isTileCoords n q = true →
  q ∈ tilePrefixesOfKeys ch ↔ scanChunkedKeys ch q = true.
Proof.
  intros Hks Hq. split; [apply index_implies_scan|].
  rewrite elem_of_tilePrefixesOfKeys, scanChunkedKeys_true.
  intros (k & Hk & Hs). exists k. split; [done|].
  apply (startsWith_iff_tilePrefix n); [|done..].
  rewrite forallb_forall in Hks. by apply Hks, list_elem_of_In.
Qed.

(** C7: for a template whose index [tilePrefixes] is the set of the
    tile prefixes of the keys of [chunked], and a tile and keys in the
    address format with tile fields of one width, the test through the
    index and the scan of the keys give the same answer, and
    [isAnyTemplateInTile] takes that answer for the template whichever
    path it follows. *)
Theorem prefix_index_agrees_with_key_scan (n : nat) (template : Template)
    (ch : list (string * ImageBitmap)) (q : string) :
  chunked template = Some ch →
  tilePrefixes template = Some (tilePrefixesOfKeys ch) →
  forallb (isTileKey n) (ch.*1) = true →
  isTileCoords n q = true →
  bool_decide (q ∈ tilePrefixesOfKeys ch) = scanChunkedKeys ch q
  ∧ isTemplateInTile template q = scanChunkedKeys ch q.
Proof.
  intros Hch Hps Hks Hq.
  assert (bool_decide (q ∈ tilePrefixesOfKeys ch) = scanChunkedKeys ch q) as Heq.
  { destruct (scanChunkedKeys ch q) eqn:Hscan.
    - apply bool_decide_eq_true. by apply (index_iff_scan n).
    - apply bool_decide_eq_false. rewrite (index_iff_scan n) by done.
      congruence. }
  split; [done|]. unfold isTemplateInTile. rewrite Hch, Hps.
  destruct (bool_decide (0 < size (tilePrefixesOfKeys ch))%nat) eqn:Hsize;
    [exact Heq|reflexivity].
Qed.

End Matcher.

(** ** A tile that no template touches *)

Section NoFragment.
Context `{Externals}.
Import TemplateArray TemplateManager.

Lemma elem_of_insertByPriority (t a : Template) l :
  t ∈ insertByPriority a l ↔ t = a ∨ t ∈ l.
Proof.
  induction l as [|b l IH]; simpl.
  - rewrite list_elem_of_singleton, elem_of_nil. tauto.
  - destruct (decide (sortID a - sortID b ≤ 0)).
    + by rewrite elem_of_cons.
    + rewrite !elem_of_cons, IH. tauto.
Qed.

Lemma elem_of_sortByPriority (t : Template) l :
  t ∈ sortByPriority l ↔ t ∈ l.
Proof.
  unfold sortByPriority. induction l as [|a l IH]; simpl; [done|].
  by rewrite elem_of_insertByPriority, elem_of_cons, IH.
Qed.

Lemma forallb_sortByPriority (P : Template → bool) l :
  forallb P l = true → forallb P (sortByPriority l) = true.
Proof.
  rewrite !forallb_forall. intros Hl t Ht. apply Hl.
  by apply list_elem_of_In, elem_of_sortByPriority, list_elem_of_In.
Qed.

Lemma relevantBlob_none ch q :
  scanChunkedKeys ch q = false → relevantBlob ch q = None.
Proof.
  intros Hscan. unfold relevantBlob.
  assert (filter (λ tile, JS.startsWith tile.1 q = true) ch = []) as ->; [|done].
  unfold scanChunkedKeys in Hscan.
  induction ch as [|[k bm] ch IH]; [done|].
  simpl in Hscan. apply orb_false_iff in Hscan as [Hk Hch].
  rewrite filter_cons. simpl. rewrite decide_False by congruence. by apply IH.
Qed.

Lemma getRelevantTemplateTileBlobs_none templates q :
  forallb (noFragmentIn q) templates = true →
  forallb isChunked templates = true →
  getRelevantTemplateTileBlobs templates q = Some [].
Proof.
  induction templates as [|t ts IH]; simpl; [done|].
  intros [Ht Hts]%andb_prop [Hc Hcs]%andb_prop.
  unfold noFragmentIn in Ht. unfold isChunked in Hc.
  apply bool_decide_eq_true in Hc as [ch Hch]. rewrite Hch in *.
  rewrite IH by done. apply negb_true_iff in Ht.
  by rewrite relevantBlob_none.
Qed.

Lemma isTemplateInTile_none t q :
  noFragmentIn q t = true → prefixesDerived t = true →
  isTemplateInTile t q = false.
Proof.
  unfold noFragmentIn, prefixesDerived, isTemplateInTile.
  destruct (chunked t) as [ch|]; [|done].
  intros Hscan%negb_true_iff Hps.
  destruct (tilePrefixes t) as [ps|]; [|done].
  apply bool_decide_eq_true in Hps.
  case_bool_decide; [|done]. apply bool_decide_eq_false. intros Hq.
  apply Hps, index_implies_scan in Hq. congruence.
Qed.

Lemma isAnyTemplateInTile_none templates q :
  forallb (noFragmentIn q) templates = true →
  forallb prefixesDerived templates = true →
  isAnyTemplateInTile templates q = false.
Proof.
  unfold isAnyTemplateInTile.
  induction templates as [|t ts IH]; simpl; [done|].
  intros [Ht Hts]%andb_prop [Hp Hps]%andb_prop.
  by rewrite isTemplateInTile_none, IH.
Qed.

(** C8: for a tile in which no template has a fragment, the index of
    each template being derived from its keys, the tile matcher gives
    the empty list without throwing (every template being chunked), and
    [drawTemplateOnTile] resolves to the blob it was given and leaves
    the recorded progress as it was. *)
Theorem no_fragment_leaves_tile_untouched
    (mgr : TemplateManager) (tileBlob : Blob) (tc : Z * Z)
    (snapshot : option (list Z)) (host : HostCalls) :
  let q := formatTileCoords tc in
  forallb (noFragmentIn q) (templatesArray mgr) = true →
  forallb prefixesDerived (templatesArray mgr) = true →
  (forallb isChunked (templatesArray mgr) = true →
     getRelevantTemplateTileBlobs (templatesArray mgr) q = Some []
     ∧ getRelevantTemplateTileBlobs
         (sortByPriority (templatesArray mgr)) q = Some [])
  ∧ ∃ mgr',
      drawTemplateOnTile mgr tileBlob tc snapshot host
      = Some (InputBlob tileBlob, mgr')
      ∧ tileProgress mgr' = tileProgress mgr.
Proof.
  intros q Hno Hps. split.
  - intros Hch. split; apply getRelevantTemplateTileBlobs_none;
      auto using forallb_sortByPriority.
  - unfold drawTemplateOnTile.
    destruct (templatesShouldBeDrawn mgr); simpl; [|by eexists].
    fold q. rewrite isAnyTemplateInTile_none
      by auto using forallb_sortByPriority.
    simpl. by eexists.
Qed.

(** Without a snapshot no fragment is classified: the counters stay as
    they were, and every fragment is still drawn on the tile. *)
Lemma foldl_drawOneTemplate_no_snapshot mgr st ops blobs :
  foldl (drawOneTemplate mgr None) (st, ops) blobs
  = (st, ops ++ (overlayOp mgr <$> blobs)).
Proof.
  revert ops. induction blobs as [|b blobs IH]; intros ops; simpl.
  - by rewrite app_nil_r.
  - unfold drawOneTemplate at 2. simpl. rewrite IH.
    by rewrite <- app_assoc.
Qed.

Lemma drawAllTemplates_no_snapshot mgr tileBlob blobs :
  drawAllTemplates mgr None tileBlob blobs
  = (noProgress,
     DrawTile tileBlob (tileSize mgr * drawMult mgr)
       :: (overlayOp mgr <$> blobs)).
Proof. unfold drawAllTemplates. by rewrite foldl_drawOneTemplate_no_snapshot. Qed.

End NoFragment.

(** ** The palette filter *)

Section Filter.
Context `{Externals}.
Import TemplateManager.

Lemma arraySet_lookup_ne (j v : Z) (d : list Z) (i : nat) :
  i ≠ Z.to_nat j → arraySet j v d !! i = d !! i.
Proof.
  intros Hne. unfold arraySet. destruct (decide (0 ≤ j)); [|done].
  by apply list_lookup_insert_ne.
Qed.

Lemma arraySet_lookup_eq (j v : Z) (d : list Z) :
  0 ≤ j → is_Some (d !! Z.to_nat j) → arraySet j v d !! Z.to_nat j = Some v.
Proof.
  intros Hj Hd. unfold arraySet. rewrite decide_True by done.
  apply list_lookup_insert_eq. by apply lookup_lt_is_Some.
Qed.

Lemma filterPixel_lookup_ne mgr w x y (d : list Z) (i : nat) :
  i ≠ Z.to_nat ((y * w + x) * 4 + 3) →
  filterPixel mgr w x y d !! i = d !! i.
Proof.
  intros Hne. unfold filterPixel.
  repeat case_match; auto using arraySet_lookup_ne.
Qed.

Lemma foldl_filterPixel_lookup mgr w (l : list (Z * Z)) (d : list Z) (i : nat) :
  Forall (λ p, i ≠ Z.to_nat ((p.2 * w + p.1) * 4 + 3)) l →
  foldl (λ d p, filterPixel mgr w p.1 p.2 d) d l !! i = d !! i.
Proof.
  intros Hl. revert d. induction Hl as [|p l Hp Hl IH]; intros d; [done|].
  simpl. by rewrite IH, filterPixel_lookup_ne.
Qed.

Lemma pixel_index_other w x y x' y' j :
  0 ≤ x < w → 0 ≤ x' < w → 0 ≤ y → 0 ≤ y' → 0 ≤ j ≤ 3 →
  (x', y') ≠ (x, y) →
  Z.to_nat ((y * w + x) * 4 + j) ≠ Z.to_nat ((y' * w + x') * 4 + 3).
Proof.
  intros Hx Hx' Hy Hy' Hj Hne.
  assert (y * w + x ≠ y' * w + x') as Hidx.
  { intros E. assert (y = y') as -> by nia.
    assert (x = x') as -> by lia. done. }
  assert (0 ≤ y * w + x) by nia. assert (0 ≤ y' * w + x') by nia. lia.
Qed.

Lemma getFromData_lookups (d : list Z) (idx : Z) :
  0 ≤ idx →
  Pixel.getFromData d (Some idx)
  = Pixel.mk (d !! Z.to_nat idx) (d !! Z.to_nat (idx + 1))
      (d !! Z.to_nat (idx + 2)) (d !! Z.to_nat (idx + 3)).
Proof.
  intros Hidx. unfold Pixel.getFromData, JS.at_index. simpl.
  by rewrite !decide_True by lia.
Qed.

Lemma getFromData_ext (d1 d2 : list Z) (idx : Z) :
  0 ≤ idx →
  (∀ j, 0 ≤ j ≤ 3 → d1 !! Z.to_nat (idx + j) = d2 !! Z.to_nat (idx + j)) →
  Pixel.getFromData d1 (Some idx) = Pixel.getFromData d2 (Some idx).
Proof.
  intros Hidx Hj. rewrite !getFromData_lookups by done.
  rewrite <- (Z.add_0_r idx) at 1 5.
  by rewrite !Hj by lia.
Qed.

(** The body of the filter loops at a center pixel that is not fully
    transparent: the alpha byte goes to zero when the color key is
    outside the allowed set or its palette entry is disabled, and the
    array is left as it is otherwise. *)
Lemma filterPixel_center mgr w x y (d : list Z) a :
  let idx := (y * w + x) * 4 in
  let pixel := Pixel.getFromData d (Some idx) in
  let key := Pixel.getColorKey pixel in
  isNotCenter (drawMult mgr) x y = false →
  Pixel.alpha pixel = Some a → 1 ≤ a →
  filterPixel mgr w x y d
  = if negb (inWplacePalette mgr key) || isDisabled mgr key
    then arraySet (idx + 3) 0 d else d.
Proof.
  intros idx pixel key Hc Ha Hge. unfold filterPixel.
  rewrite Hc. fold idx pixel key. rewrite Ha. simpl.
  rewrite bool_decide_eq_false_2 by lia.
  unfold inWplacePalette, isDisabled.
  destruct (head (templatesArray mgr) ≫= allowedColorsSet) as [allowed|].
  - case_bool_decide; simpl; [|done].
    by destruct (paletteOf (head (templatesArray mgr)) !! key).
  - simpl. by destruct (paletteOf (head (templatesArray mgr)) !! key).
Qed.

Lemma sampledPositions_range dm w h p :
  p ∈ sampledPositions dm w h → 0 ≤ p.1 < w ∧ 0 ≤ p.2 < h.
Proof.
  destruct p as [x y]. unfold sampledPositions.
  rewrite list_elem_of_filter, elem_of_loopPositions. tauto.
Qed.

(** C6, as the code has it: in the filtered copy of a fragment's bitmap,
    a center pixel with alpha at least 1 keeps its color; its alpha is
    zero when its color key is outside the allowed set of the active
    template, whatever the palette says of "other", or when the palette
    entry of its key has [enabled === false], and is unchanged
    otherwise.  When some palette entry is disabled, this filtered copy
    is what is drawn for the fragment. *)
Theorem filtered_center_pixel mgr (template : TemplateTileBlob) x y a :
  let bm := bitmap template in
  let idx := (y * width bm + x) * 4 in
  let pixel := Pixel.getFromData (data bm) (Some idx) in
  let key := Pixel.getColorKey pixel in
  0 ≤ x < width bm → 0 ≤ y < height bm →
  isNotCenter (drawMult mgr) x y = false →
  Pixel.alpha pixel = Some a → 1 ≤ a →
  Pixel.getFromData (filterTemplate mgr bm) (Some idx)
  = Pixel.mk (Pixel.red pixel) (Pixel.green pixel) (Pixel.blue pixel)
      (Some (if negb (inWplacePalette mgr key) || isDisabled mgr key
             then 0 else a))
  ∧ (hasDisabled (paletteOf (head (templatesArray mgr))) = true →
     overlayOp mgr template
     = DrawFiltered (width bm) (height bm) (filterTemplate mgr bm)
         (JS.mul (NumberOf (pixelCoords template).1) (Some (drawMult mgr)))
         (JS.mul (NumberOf (pixelCoords template).2) (Some (drawMult mgr)))).
Proof.
  intros bm idx pixel key Hx Hy Hc Ha Hge.
  split; [|by unfold overlayOp; intros ->].
  assert (0 ≤ idx) as Hidx by (unfold idx; nia).
  rewrite filterTemplate_sampled.
  set (L := sampledPositions (drawMult mgr) (width bm) (height bm)).
  assert ((x, y) ∈ L) as Hin.
  { unfold L, sampledPositions.
    rewrite list_elem_of_filter, elem_of_loopPositions. done. }
  assert (NoDup L) as Hnd by apply NoDup_filter, NoDup_loopPositions.
  destruct (list_elem_of_split _ _ Hin) as (L1 & L2 & HL).
  rewrite HL in Hnd. apply NoDup_app in Hnd as (_ & Hnot1 & Hnd2).
  apply NoDup_cons in Hnd2 as [Hnot2 _].
  assert (∀ l j, l ⊆ L → (x, y) ∉ l → 0 ≤ j ≤ 3 →
            Forall (λ p, Z.to_nat (idx + j)
                         ≠ Z.to_nat ((p.2 * width bm + p.1) * 4 + 3)) l)
    as Hother.
  { intros l j Hsub Hnot Hj. apply Forall_forall. intros [x' y'] Hp.
    pose proof (sampledPositions_range _ _ _ _ (Hsub _ Hp)) as [Hx' Hy'].
    simpl in *. apply pixel_index_other; try lia.
    intros [= -> ->]. done. }
  assert (L1 ⊆ L) as Hsub1.
  { intros p Hp. rewrite HL. apply elem_of_app. by left. }
  assert (L2 ⊆ L) as Hsub2.
  { intros p Hp. rewrite HL. apply elem_of_app. right. by right. }
  assert ((x, y) ∉ L1) as Hnot1'.
  { intros Hp. apply (Hnot1 _ Hp). by left. }
  rewrite HL, foldl_app. cbn [foldl fst snd].
  set (d1 := foldl (λ d p, filterPixel mgr (width bm) p.1 p.2 d) (data bm) L1).
  assert (Pixel.getFromData d1 (Some idx) = pixel) as Hd1.
  { apply getFromData_ext; [done|]. intros j Hj.
    apply foldl_filterPixel_lookup, Hother; done. }
  set (d2 := filterPixel mgr (width bm) x y d1).
  assert (Pixel.getFromData d2 (Some idx)
          = Pixel.mk (Pixel.red pixel) (Pixel.green pixel) (Pixel.blue pixel)
              (Some (if negb (inWplacePalette mgr key) || isDisabled mgr key
                     then 0 else a))) as Hd2.
  { unfold d2. rewrite (filterPixel_center _ _ _ _ _ a); fold idx;
      rewrite ?Hd1; [|done..]. fold key.
    rewrite <- Hd1 at 1 2 3. rewrite <- Hd1 in Ha.
    rewrite getFromData_lookups in Ha |- * by done. simpl in Ha.
    destruct (negb (inWplacePalette mgr key) || isDisabled mgr key).
    - rewrite getFromData_lookups by done. simpl.
      rewrite !arraySet_lookup_ne by lia.
      by rewrite arraySet_lookup_eq by (by rewrite ?Ha; try lia).
    - rewrite getFromData_lookups by done. simpl. by rewrite Ha. }
  rewrite <- Hd2. apply getFromData_ext; [done|]. intros j Hj.
  apply foldl_filterPixel_lookup, Hother; done.
Qed.

End Filter.

(** ** The pass as a whole *)

Section WholePass.
Context `{Externals}.
Import TemplateArray TemplateManager.

(** What a pass leaves in the recorded progress: nothing new, or the
    counters of the loop over the fragments under the key of the tile. *)
Lemma drawTemplateOnTile_recorded mgr tileBlob tc snapshot host out mgr' :
  drawTemplateOnTile mgr tileBlob tc snapshot host = Some (out, mgr') →
  tileProgress mgr' = tileProgress mgr
  ∨ ∃ blobs,
      getRelevantTemplateTileBlobs (sortByPriority (templatesArray mgr))
        (formatTileCoords tc) = Some blobs
      ∧ blobs ≠ []
      ∧ tileProgress mgr'
        = TileProgressManager.set (formatTileCoords tc)
            (drawAllTemplates
               (setTemplatesArray (sortByPriority (templatesArray mgr)) mgr)
               snapshot tileBlob blobs).1
            (tileProgress mgr).
Proof.
  unfold drawTemplateOnTile.
  destruct (templatesShouldBeDrawn mgr); simpl; [|intros [= _ <-]; by left].
  destruct (isAnyTemplateInTile _ _); simpl; [|intros [= _ <-]; by left].
  destruct (getRelevantTemplateTileBlobs _ _) as [blobs|] eqn:Hblobs; [|done].
  destruct (tileDecodes host); simpl; [|done].
  destruct (drawAllTemplates _ snapshot tileBlob blobs) as [progress ops] eqn:Hd.
  destruct (statusDisplays host); simpl; [|done].
  destruct (canvasConverts host); simpl; [|done].
  intros [= _ <-]. case_bool_decide as Hcount; [|by left].
  right. exists blobs. rewrite Hd. simpl. split; [done|]. split; [|done].
  intros ->. simpl in Hcount. lia.
Qed.

(** A pass without a snapshot over a tile with fragments: every
    fragment is drawn, and the empty counters are stored for the tile. *)
Lemma drawTemplateOnTile_no_snapshot mgr tileBlob tc host blobs :
  let sorted := setTemplatesArray (sortByPriority (templatesArray mgr)) mgr in
  tileDecodes host = true → statusDisplays host = true →
  canvasConverts host = true →
  templatesShouldBeDrawn mgr = true →
  isAnyTemplateInTile (templatesArray sorted) (formatTileCoords tc) = true →
  getRelevantTemplateTileBlobs (templatesArray sorted) (formatTileCoords tc)
  = Some blobs →
  blobs ≠ [] →
  drawTemplateOnTile mgr tileBlob tc None host
  = Some (CanvasBlob (tileSize mgr * drawMult mgr)
            (DrawTile tileBlob (tileSize mgr * drawMult mgr)
               :: (overlayOp sorted <$> blobs)),
          setTileProgress
            (TileProgressManager.set (formatTileCoords tc) noProgress
               (tileProgress mgr)) sorted).
Proof.
  intros sorted Hdec Hdis Hcon Hdrawn Hany Hblobs Hne.
  unfold drawTemplateOnTile.
  rewrite Hdrawn. cbn [negb]. fold sorted. rewrite Hany. cbn [negb].
  rewrite Hblobs, Hdec, Hdis, Hcon, drawAllTemplates_no_snapshot.
  cbn [negb].
  rewrite bool_decide_eq_true_2; [done|].
  destruct blobs; [done|]. simpl. lia.
Qed.

(** A pass over a tile with fragments, when the calls outside the
    [try] blocks go through: every fragment is drawn, and the counters
    of the pass are stored for the tile. *)
Lemma drawTemplateOnTile_drawn mgr tileBlob tc snapshot host blobs :
  let sorted := setTemplatesArray (sortByPriority (templatesArray mgr)) mgr in
  let pass := drawAllTemplates sorted snapshot tileBlob blobs in
  tileDecodes host = true → statusDisplays host = true →
  canvasConverts host = true →
  templatesShouldBeDrawn mgr = true →
  isAnyTemplateInTile (templatesArray sorted) (formatTileCoords tc) = true →
  getRelevantTemplateTileBlobs (templatesArray sorted) (formatTileCoords tc)
  = Some blobs →
  blobs ≠ [] →
  drawTemplateOnTile mgr tileBlob tc snapshot host
  = Some (CanvasBlob (tileSize mgr * drawMult mgr) pass.2,
          setTileProgress
            (TileProgressManager.set (formatTileCoords tc) pass.1
               (tileProgress mgr)) sorted).
Proof.
  intros sorted pass Hdec Hdis Hcon Hdrawn Hany Hblobs Hne.
  unfold drawTemplateOnTile.
  rewrite Hdrawn. cbn [negb]. fold sorted. rewrite Hany. cbn [negb].
  rewrite Hblobs, Hdec, Hdis, Hcon. cbn [negb]. fold pass.
  destruct pass as [progress ops]. cbn [fst snd].
  rewrite bool_decide_eq_true_2; [done|].
  destruct blobs; [done|]. simpl. lia.
Qed.

End WholePass.

(** ** The statements on the inputs of the examples *)

Section Instances.
Import Examples TemplateArray TemplateManager.

Local Existing Instance Host.externals.

Lemma snapshotA_length : Z.of_nat (length snapshotA) = 3000 * 3000 * 4.
Proof.
  unfold snapshotA. rewrite !length_app, !length_replicate. simpl length. lia.
Qed.

Lemma groundA_left :
  groundPixelAt managerA snapshotA blobA 1 1
  = Pixel.mk (Some 10) (Some 20) (Some 30) (Some 255).
Proof. lazy. reflexivity. Qed.

Lemma groundA_right :
  groundPixelAt managerA snapshotA blobA 4 1
  = Pixel.mk (Some 70) (Some 80) (Some 90) (Some 255).
Proof. lazy. reflexivity. Qed.

Lemma groundB_center :
  groundPixelAt managerB snapshotA blobB 1 1
  = Pixel.mk (Some 10) (Some 20) (Some 30) (Some 255).
Proof. lazy. reflexivity. Qed.

Lemma groundC_center :
  groundPixelAt managerC snapshotA blobC 1 1
  = Pixel.mk (Some 0) (Some 0) (Some 0) (Some 0).
Proof. lazy. reflexivity. Qed.

(** The pass over the fragment of [templateA] and the snapshot counts
    what [progressA] holds. *)
Lemma pass_over_blobA :
  (drawAllTemplates managerA (Some snapshotA) tileBlob [blobA]).1 = progressA.
Proof.
  unfold drawAllTemplates. cbn [foldl]. unfold drawOneTemplate. cbn [fst snd].
  rewrite classifyTemplate_sampled.
  replace (sampledPositions (drawMult managerA) (width (bitmap blobA))
             (height (bitmap blobA))) with [(1, 1); (4, 1)]
    by (vm_compute; reflexivity).
  cbn [foldl fst snd].
  rewrite !classifyPixel_sampled by (vm_compute; reflexivity).
  cbv zeta. rewrite groundA_left, groundA_right. vm_compute. reflexivity.
Qed.

Lemma pass_over_blobB :
  (drawAllTemplates managerB (Some snapshotA) tileBlob [blobB]).1
  = {| totalPixelCount := 0;
       paintedPixelCount := 0;
       wrongPixelCount := 1;
       paintedPixelColorCounts := ∅;
       wrongPixelColorCounts := {[ "0,0,0" := 1 ]};
       wrongPixelPositions :=
         [{| tx := Some 1; ty := Some 2; px := Some 5; py := Some 1 |}] |}.
Proof.
  unfold drawAllTemplates. cbn [foldl]. unfold drawOneTemplate. cbn [fst snd].
  rewrite classifyTemplate_sampled.
  replace (sampledPositions (drawMult managerB) (width (bitmap blobB))
             (height (bitmap blobB))) with [(1, 1)]
    by (vm_compute; reflexivity).
  cbn [foldl fst snd].
  rewrite !classifyPixel_sampled by (vm_compute; reflexivity).
  cbv zeta. rewrite groundB_center. vm_compute. reflexivity.
Qed.

Lemma drawTemplateOnTile_managerB :
  drawTemplateOnTile managerB tileBlob (1, 2) (Some snapshotA) hostOK
  = Some (CanvasBlob (tileSize managerB * drawMult managerB)
            (drawAllTemplates managerB (Some snapshotA) tileBlob [blobB]).2,
          setTileProgress
            (TileProgressManager.set "0001,0002"
               (drawAllTemplates managerB (Some snapshotA) tileBlob [blobB]).1
               (tileProgress managerB)) managerB).
Proof.
  assert (setTemplatesArray (sortByPriority (templatesArray managerB))
            managerB = managerB) as Hsorted by reflexivity.
  assert (formatTileCoords (1, 2) = "0001,0002") as Hq
    by (vm_compute; reflexivity).
  pose proof (drawTemplateOnTile_drawn managerB tileBlob (1, 2)
                (Some snapshotA) hostOK [blobB]) as Hdrawn.
  cbv zeta in Hdrawn. rewrite Hsorted, Hq in Hdrawn.
  apply Hdrawn; try reflexivity; [vm_compute; reflexivity..|discriminate].
Qed.

(** C1, as the claim has it, fails: in the pass over a blank template
    pixel that lies over a snapshot pixel of the allowed color
    (10, 20, 30), the record of the pass, which [drawTemplateOnTile]
    stores for the tile, counts one wrong pixel under the color key of
    the template pixel, "0,0,0", and nothing under the color key of the
    snapshot pixel. *)
Lemma blank_pixel_records_template_color :
  let shred := shredPixelAt blobB 1 1 in
  let ground := groundPixelAt managerB snapshotA blobB 1 1 in
  let progress :=
    (drawAllTemplates managerB (Some snapshotA) tileBlob [blobB]).1 in
  (blobB, (1, 1)) ∈ passPositions [blobB]
  ∧ isSampled managerB blobB 1 1 = true
  ∧ Pixel.isUnpainted shred = true
  ∧ Pixel.isPainted ground = true
  ∧ isWPlaceColor managerB (Pixel.getColorKey ground) = true
  ∧ Pixel.getColorKey ground = "10,20,30"
  ∧ wrongPixelCount progress = 1
  ∧ wrongPixelColorCounts progress !! Pixel.getColorKey ground = None
  ∧ wrongPixelColorCounts progress !! "0,0,0" = Some 1
  ∧ ∃ out mgr',
      drawTemplateOnTile managerB tileBlob (1, 2) (Some snapshotA) hostOK
      = Some (out, mgr')
      ∧ TileProgressManager.get "0001,0002" (tileProgress mgr')
        = Some progress.
Proof.
  cbv zeta. rewrite groundB_center.
  split; [apply elem_of_passPositions; split; [left|vm_compute; done]|].
  split; [vm_compute; reflexivity|]. split; [vm_compute; reflexivity|].
  split; [vm_compute; reflexivity|]. split; [vm_compute; reflexivity|].
  split; [vm_compute; reflexivity|].
  split; [rewrite pass_over_blobB; reflexivity|].
  split; [rewrite pass_over_blobB; vm_compute; reflexivity|].
  split; [rewrite pass_over_blobB; vm_compute; reflexivity|].
  eexists _, _. split; [exact drawTemplateOnTile_managerB|].
  apply get_set_eq.
Qed.

Lemma unpainted_template_pixel_over_painted_ground_witness :
  let before := take 4 (passPositions [blobB]) in
  let after := drop 5 (passPositions [blobB]) in
  let shred := shredPixelAt blobB 1 1 in
  let ground := groundPixelAt managerB snapshotA blobB 1 1 in
  let progress :=
    (drawAllTemplates managerB (Some snapshotA) tileBlob [blobB]).1 in
  let wrongs := positionsWith [Overpainted; Wrong] managerB snapshotA in
  (passPositions [blobB] = before ++ (blobB, (1, 1)) :: after
   ∧ isSampled managerB blobB 1 1 = true
   ∧ Pixel.isUnpainted shred = true
   ∧ Pixel.isPainted ground = true
   ∧ isWPlaceColor managerB (Pixel.getColorKey ground) = true)
  ∧ wrongPixelCount progress
    = Z.of_nat (length (wrongs (before ++ after))) + 1
  ∧ countOf (Pixel.getColorKey shred) (wrongPixelColorCounts progress)
    = Z.of_nat (length (ofColor (Pixel.getColorKey shred)
                          (wrongs (before ++ after)))) + 1
  ∧ wrongPixelPositions progress
    = (entryOf managerB <$> wrongs before)
      ++ [wrongPosition (drawMult managerB) blobB 1 1]
      ++ (entryOf managerB <$> wrongs after)
  ∧ totalPixelCount progress
    = Z.of_nat (length (positionsWith [Correct; Wrong; Pending]
                          managerB snapshotA (before ++ after))).
Proof.
  cbv zeta.
  assert (passPositions [blobB]
          = take 4 (passPositions [blobB])
            ++ (blobB, (1, 1)) :: drop 5 (passPositions [blobB])) as Hsplit
    by (vm_compute; reflexivity).
  assert (isSampled managerB blobB 1 1 = true) as Hs
    by (vm_compute; reflexivity).
  assert (Pixel.isUnpainted (shredPixelAt blobB 1 1) = true) as Hu
    by (vm_compute; reflexivity).
  assert (Pixel.isPainted (groundPixelAt managerB snapshotA blobB 1 1) = true)
    as Hp by (rewrite groundB_center; vm_compute; reflexivity).
  assert (isWPlaceColor managerB
            (Pixel.getColorKey (groundPixelAt managerB snapshotA blobB 1 1))
          = true) as Hw
    by (rewrite groundB_center; vm_compute; reflexivity).
  split; [exact (conj Hsplit (conj Hs (conj Hu (conj Hp Hw))))|].
  destruct (unpainted_template_pixel_over_painted_ground
              managerB snapshotA tileBlob [blobB] _ _ blobB 1 1
              Hsplit Hs Hu Hp Hw)
    as (Hcount & Hcolor & _ & Hpos & Htotal & _).
  exact (conj Hcount (conj Hcolor (conj Hpos Htotal))).
Defined.

(** C2 fails on the code: when the snapshot cannot be read and a fragment
    lies in the tile, the pass draws the overlay and then stores the
    empty counters for the tile, in place of the record that the tile
    had. *)
Theorem snapshot_failure_overwrites_record :
  ∃ mgr',
    drawTemplateOnTile managerWithRecord tileBlob (1, 2) None hostOK
    = Some (CanvasBlob 3000
              [DrawTile tileBlob 3000;
               DrawBitmap (bitmap blobA) (Some 15) (Some 3)], mgr')
    ∧ TileProgressManager.get "0001,0002" (tileProgress managerWithRecord)
      = Some progressA
    ∧ TileProgressManager.get "0001,0002" (tileProgress mgr')
      = Some noProgress
    ∧ TileProgressManager.computeTotalProgress (tileProgress mgr')
      ≠ TileProgressManager.computeTotalProgress
          (tileProgress managerWithRecord).
Proof.
  eexists. split; [vm_compute; reflexivity|].
  split; [vm_compute; reflexivity|].
  split; [vm_compute; reflexivity|].
  vm_compute. discriminate.
Qed.

Lemma required_template_pixel_witness :
  let before := take 7 (passPositions [blobA]) in
  let after := drop 8 (passPositions [blobA]) in
  let progress :=
    (drawAllTemplates managerA (Some snapshotA) tileBlob [blobA]).1 in
  let before' := take 4 (passPositions [blobC]) in
  let after' := drop 5 (passPositions [blobC]) in
  let progress' :=
    (drawAllTemplates managerC (Some snapshotA) tileBlob [blobC]).1 in
  (passPositions [blobA] = before ++ (blobA, (1, 1)) :: after
   ∧ isSampled managerA blobA 1 1 = true
   ∧ Pixel.isPainted (shredPixelAt blobA 1 1) = true
   ∧ Pixel.isPainted (groundPixelAt managerA snapshotA blobA 1 1) = true
   ∧ Pixel.equalsRGB (groundPixelAt managerA snapshotA blobA 1 1)
       (shredPixelAt blobA 1 1) = true)
  ∧ (paintedPixelCount progress
     = Z.of_nat (length (positionsWith [Correct] managerA snapshotA
                           (before ++ after))) + 1
     ∧ countOf "10,20,30" (paintedPixelColorCounts progress)
       = Z.of_nat (length (ofColor "10,20,30"
                             (positionsWith [Correct] managerA snapshotA
                                (before ++ after)))) + 1
     ∧ totalPixelCount progress
       = Z.of_nat (length (positionsWith [Correct; Wrong; Pending]
                             managerA snapshotA (before ++ after))) + 1)
  ∧ (passPositions [blobC] = before' ++ (blobC, (1, 1)) :: after'
     ∧ isSampled managerC blobC 1 1 = true
     ∧ Pixel.isPainted (shredPixelAt blobC 1 1) = true
     ∧ Pixel.isUnpainted (groundPixelAt managerC snapshotA blobC 1 1) = true)
  ∧ (paintedPixelCount progress'
     = Z.of_nat (length (positionsWith [Correct] managerC snapshotA
                           (before' ++ after')))
     ∧ wrongPixelCount progress'
       = Z.of_nat (length (positionsWith [Overpainted; Wrong]
                             managerC snapshotA (before' ++ after')))
     ∧ totalPixelCount progress'
       = Z.of_nat (length (positionsWith [Correct; Wrong; Pending]
                             managerC snapshotA (before' ++ after'))) + 1).
Proof.
  cbv zeta.
  assert (passPositions [blobA]
          = take 7 (passPositions [blobA])
            ++ (blobA, (1, 1)) :: drop 8 (passPositions [blobA])) as Hsplit
    by (vm_compute; reflexivity).
  assert (isSampled managerA blobA 1 1 = true) as Hs
    by (vm_compute; reflexivity).
  assert (Pixel.isPainted (shredPixelAt blobA 1 1) = true) as Hp
    by (vm_compute; reflexivity).
  assert (Pixel.isPainted (groundPixelAt managerA snapshotA blobA 1 1) = true)
    as Hg by (rewrite groundA_left; vm_compute; reflexivity).
  assert (Pixel.equalsRGB (groundPixelAt managerA snapshotA blobA 1 1)
            (shredPixelAt blobA 1 1) = true) as He
    by (rewrite groundA_left; vm_compute; reflexivity).
  assert (passPositions [blobC]
          = take 4 (passPositions [blobC])
            ++ (blobC, (1, 1)) :: drop 5 (passPositions [blobC])) as Hsplit'
    by (vm_compute; reflexivity).
  assert (isSampled managerC blobC 1 1 = true) as Hs'
    by (vm_compute; reflexivity).
  assert (Pixel.isPainted (shredPixelAt blobC 1 1) = true) as Hp'
    by (vm_compute; reflexivity).
  assert (Pixel.isUnpainted (groundPixelAt managerC snapshotA blobC 1 1)
          = true) as Hg'
    by (rewrite groundC_center; vm_compute; reflexivity).
  split; [exact (conj Hsplit (conj Hs (conj Hp (conj Hg He))))|].
  destruct (required_template_pixel
              managerA snapshotA tileBlob [blobA] _ _ blobA 1 1
              Hsplit Hs Hp) as [Hpainted _].
  destruct (Hpainted Hg He) as (H1 & H2 & _ & H3 & _).
  split; [exact (conj H1 (conj H2 H3))|].
  split; [exact (conj Hsplit' (conj Hs' (conj Hp' Hg')))|].
  destruct (required_template_pixel
              managerC snapshotA tileBlob [blobC] _ _ blobC 1 1
              Hsplit' Hs' Hp') as [_ Hpending].
  destruct (Hpending Hg') as (H1' & H2' & H3' & _).
  exact (conj H1' (conj H2' H3')).
Defined.


Lemma wrong_required_pixel_position_witness :
  let before := take 10 (passPositions [blobA]) in
  let after := drop 11 (passPositions [blobA]) in
  let progress :=
    (drawAllTemplates managerA (Some snapshotA) tileBlob [blobA]).1 in
  let wrongs := positionsWith [Overpainted; Wrong] managerA snapshotA in
  (0 < drawMult managerA
   ∧ passPositions [blobA] = before ++ (blobA, (4, 1)) :: after
   ∧ isSampled managerA blobA 4 1 = true
   ∧ Pixel.isPainted (shredPixelAt blobA 4 1) = true
   ∧ Pixel.isPainted (groundPixelAt managerA snapshotA blobA 4 1) = true
   ∧ Pixel.equalsRGB (groundPixelAt managerA snapshotA blobA 4 1)
       (shredPixelAt blobA 4 1) = false)
  ∧ wrongPixelPositions progress
    = (entryOf managerA <$> wrongs before)
      ++ [{| tx := Some 1; ty := Some 2; px := Some 6; py := Some 1 |}]
      ++ (entryOf managerA <$> wrongs after)
  ∧ length (wrongPixelPositions progress)
    = S (length (wrongs (before ++ after)))
  ∧ wrongPixelCount progress
    = Z.of_nat (length (wrongs (before ++ after))) + 1
  ∧ wrongPixelPositions progress
    = [{| tx := Some 1; ty := Some 2; px := Some 6; py := Some 1 |}].
Proof.
  cbv zeta.
  assert (0 < drawMult managerA) as Hdm by (vm_compute; reflexivity).
  assert (passPositions [blobA]
          = take 10 (passPositions [blobA])
            ++ (blobA, (4, 1)) :: drop 11 (passPositions [blobA])) as Hsplit
    by (vm_compute; reflexivity).
  assert (isSampled managerA blobA 4 1 = true) as Hs
    by (vm_compute; reflexivity).
  assert (Pixel.isPainted (shredPixelAt blobA 4 1) = true) as Hp
    by (vm_compute; reflexivity).
  assert (Pixel.isPainted (groundPixelAt managerA snapshotA blobA 4 1) = true)
    as Hg by (rewrite groundA_right; vm_compute; reflexivity).
  assert (Pixel.equalsRGB (groundPixelAt managerA snapshotA blobA 4 1)
            (shredPixelAt blobA 4 1) = false) as He
    by (rewrite groundA_right; vm_compute; reflexivity).
  split; [exact (conj Hdm (conj Hsplit (conj Hs (conj Hp (conj Hg He)))))|].
  destruct (wrong_required_pixel_position
              managerA snapshotA tileBlob [blobA] _ _ blobA 4 1
              Hdm Hsplit Hs Hp Hg He)
    as (Hpos & Hlen & Hcount).
  split; [exact Hpos|]. split; [exact Hlen|]. split; [exact Hcount|].
  rewrite pass_over_blobA. reflexivity.
Defined.

(** C6, as the claim has it, fails: with "other" enabled in the palette,
    a center pixel whose color key is outside the allowed set is still
    hidden in the filtered copy that is drawn. *)
Lemma enabled_other_bucket_does_not_show_pixel :
  let pixel := Pixel.getFromData (data (bitmap blobC)) (Some 16) in
  isNotCenter (drawMult managerC) 1 1 = false
  ∧ Pixel.alpha pixel = Some 255
  ∧ Pixel.getColorKey pixel = "9,9,9"
  ∧ inWplacePalette managerC (Pixel.getColorKey pixel) = false
  ∧ paletteOf (head (templatesArray managerC)) !! "other"
    = Some {| count := 1; enabled := true |}
  ∧ hasDisabled (paletteOf (head (templatesArray managerC))) = true
  ∧ Pixel.alpha
      (Pixel.getFromData (filterTemplate managerC (bitmap blobC)) (Some 16))
    = Some 0
  ∧ overlayOp managerC blobC
    = DrawFiltered 3 3 (replicate 16 0 ++ [9; 9; 9; 0] ++ replicate 16 0)
        (Some 0) (Some 0).
Proof. vm_compute. done. Qed.

Lemma filtered_center_pixel_witness :
  let pixel := Pixel.getFromData (data (bitmap blobD)) (Some 16) in
  (0 ≤ 1 < width (bitmap blobD)
   ∧ 0 ≤ 1 < height (bitmap blobD)
   ∧ isNotCenter (drawMult managerD) 1 1 = false
   ∧ Pixel.alpha pixel = Some 255
   ∧ 1 ≤ 255)
  ∧ isDisabled managerD (Pixel.getColorKey pixel) = true
  ∧ Pixel.getFromData (filterTemplate managerD (bitmap blobD)) (Some 16)
    = Pixel.mk (Some 1) (Some 2) (Some 3) (Some 0)
  ∧ overlayOp managerD blobD
    = DrawFiltered 3 3 (filterTemplate managerD (bitmap blobD))
        (Some 0) (Some 0).
Proof.
  cbv zeta.
  assert (0 ≤ 1 < width (bitmap blobD)) as Hx by (vm_compute; done).
  assert (0 ≤ 1 < height (bitmap blobD)) as Hy by (vm_compute; done).
  assert (isNotCenter (drawMult managerD) 1 1 = false) as Hc
    by (vm_compute; reflexivity).
  assert (Pixel.alpha
            (Pixel.getFromData (data (bitmap blobD))
               (Some ((1 * width (bitmap blobD) + 1) * 4))) = Some 255) as Ha
    by (vm_compute; reflexivity).
  assert (1 ≤ 255) as Hge by lia.
  split; [exact (conj Hx (conj Hy (conj Hc (conj Ha Hge))))|].
  split; [vm_compute; reflexivity|].
  destruct (filtered_center_pixel managerD blobD 1 1 255 Hx Hy Hc Ha Hge)
    as [Hpix Hop].
  split.
  - etransitivity; [exact Hpix|]. vm_compute. reflexivity.
  - etransitivity; [apply Hop; vm_compute; reflexivity|].
    vm_compute. reflexivity.
Defined.

(** Outside the address format the index and the scan can differ: a key
    whose tile field is wider than the tile's starts with the tile and
    has another tile prefix.  The one width of the tile fields, in
    [isTileKey] and [isTileCoords], is what C7 rests on. *)
Remark index_and_scan_differ_outside_the_format :
  let ch := [("1,25,3,4", block [10; 20; 30; 255])] in
  scanChunkedKeys ch "1,2" = true
  ∧ bool_decide ("1,2" ∈ tilePrefixesOfKeys ch) = false
  ∧ (∀ n, isTileKey n "1,25,3,4" = false).
Proof.
  cbv zeta. split; [vm_compute; reflexivity|].
  split; [vm_compute; reflexivity|].
  intros n. unfold isTileKey.
  replace (JS.split "," "1,25,3,4") with ["1"; "25"; "3"; "4"]
    by (vm_compute; reflexivity).
  apply bool_decide_eq_false. simpl. lia.
Qed.

Lemma prefix_index_agrees_with_key_scan_witness :
  (chunked templateE = Some tilesE
   ∧ tilePrefixes templateE = Some (tilePrefixesOfKeys tilesE)
   ∧ forallb (isTileKey 4) (tilesE.*1) = true
   ∧ isTileCoords 4 "1231,0047" = true)
  ∧ scanChunkedKeys tilesE "1231,0047" = true
  ∧ bool_decide ("1231,0047" ∈ tilePrefixesOfKeys tilesE)
    = scanChunkedKeys tilesE "1231,0047"
  ∧ isTemplateInTile templateE "1231,0047"
    = scanChunkedKeys tilesE "1231,0047".
Proof.
  assert (chunked templateE = Some tilesE) as Hch by reflexivity.
  assert (tilePrefixes templateE = Some (tilePrefixesOfKeys tilesE)) as Hps
    by reflexivity.
  assert (forallb (isTileKey 4) (tilesE.*1) = true) as Hks
    by (vm_compute; reflexivity).
  assert (isTileCoords 4 "1231,0047" = true) as Hq
    by (vm_compute; reflexivity).
  split; [exact (conj Hch (conj Hps (conj Hks Hq)))|].
  split; [vm_compute; reflexivity|].
  exact (prefix_index_agrees_with_key_scan
           4 templateE tilesE "1231,0047" Hch Hps Hks Hq).
Defined.

Lemma no_fragment_leaves_tile_untouched_witness :
  (formatTileCoords (5, 6) = "0005,0006"
   ∧ forallb (noFragmentIn (formatTileCoords (5, 6)))
       (templatesArray managerWithRecord) = true
   ∧ forallb prefixesDerived (templatesArray managerWithRecord) = true
   ∧ forallb isChunked (templatesArray managerWithRecord) = true)
  ∧ getRelevantTemplateTileBlobs (templatesArray managerWithRecord)
      (formatTileCoords (5, 6)) = Some []
  ∧ ∃ mgr',
      drawTemplateOnTile managerWithRecord tileBlob (5, 6) (Some snapshotA)
        hostOK
      = Some (InputBlob tileBlob, mgr')
      ∧ tileProgress mgr' = tileProgress managerWithRecord.
Proof.
  assert (forallb (noFragmentIn (formatTileCoords (5, 6)))
            (templatesArray managerWithRecord) = true) as Hno
    by (vm_compute; reflexivity).
  assert (forallb prefixesDerived (templatesArray managerWithRecord) = true)
    as Hps by (vm_compute; reflexivity).
  assert (forallb isChunked (templatesArray managerWithRecord) = true)
    as Hch by (vm_compute; reflexivity).
  split; [exact (conj eq_refl (conj Hno (conj Hps Hch)))|].
  destruct (no_fragment_leaves_tile_untouched
              managerWithRecord tileBlob (5, 6) (Some snapshotA) hostOK
              Hno Hps)
    as [Hmatch Hdraw].
  exact (conj (proj1 (Hmatch Hch)) Hdraw).
Defined.

Lemma totals_of_two_tiles_witness :
  "0001,0002" ≠ "0001,0003"
  ∧ TileProgressManager.computeTotalProgress
      (TileProgressManager.set "0001,0003" progressB
         (TileProgressManager.set "0001,0002" progressA
            TileProgressManager.empty))
    = {| TileProgressManager.aggregateTotalPixelCount := 2 + 5;
         TileProgressManager.aggregatePaintedPixelCount := 1 + 3;
         TileProgressManager.aggregateWrongPixelCount := 1 + 2;
         TileProgressManager.aggregateWrongPixelPositions :=
           wrongPixelPositions progressA ++ wrongPixelPositions progressB |}.
Proof.
  assert ("0001,0002" ≠ "0001,0003") as Hne by discriminate.
  split; [exact Hne|].
  exact (totals_of_two_tiles "0001,0002" "0001,0003" progressA progressB Hne).
Defined.

End Instances.

(** * Further properties of the code *)

(** ** Pixels and color keys *)

Section PixelFacts.

(** X1: a pixel read where its four bytes lie inside the array has its
    four channels, and is painted or unpainted and not both; a pixel
    whose alpha byte lies past the end of the array, or read at [NaN],
    is neither painted nor unpainted. *)
Theorem pixel_read_inside_or_outside (data : list Z) :
  (∀ i, 0 ≤ i → i + 3 < Z.of_nat (length data) →
     ∃ r g b a,
       Pixel.getFromData data (Some i)
       = Pixel.mk (Some r) (Some g) (Some b) (Some a)
       ∧ Pixel.isPainted (Pixel.getFromData data (Some i))
         = negb (Pixel.isUnpainted (Pixel.getFromData data (Some i))))
  ∧ (∀ i, Z.of_nat (length data) ≤ i + 3 →
       Pixel.isPainted (Pixel.getFromData data (Some i)) = false
       ∧ Pixel.isUnpainted (Pixel.getFromData data (Some i)) = false)
  ∧ Pixel.isPainted (Pixel.getFromData data None) = false
  ∧ Pixel.isUnpainted (Pixel.getFromData data None) = false.
Proof.
  split; [|split; [|done]].
  - intros i Hi Hlen. rewrite getFromData_lookups by done.
    destruct (lookup_lt_is_Some_2 data (Z.to_nat i)) as [r Hr]; [lia|].
    destruct (lookup_lt_is_Some_2 data (Z.to_nat (i + 1))) as [g Hg]; [lia|].
    destruct (lookup_lt_is_Some_2 data (Z.to_nat (i + 2))) as [b Hb]; [lia|].
    destruct (lookup_lt_is_Some_2 data (Z.to_nat (i + 3))) as [a Ha]; [lia|].
    exists r, g, b, a. rewrite Hr, Hg, Hb, Ha. split; [done|].
    unfold Pixel.isPainted, Pixel.isUnpainted. simpl.
    repeat case_bool_decide; simpl; done || lia.
  - intros i Hlen.
    assert (Pixel.alpha (Pixel.getFromData data (Some i)) = None) as Ha.
    { unfold Pixel.getFromData, JS.at_index. simpl.
      case_decide; [|done]. apply lookup_ge_None. lia. }
    unfold Pixel.isPainted, Pixel.isUnpainted. by rewrite Ha.
Qed.

Lemma pretty_N_go_excludes (c : ascii) (x : N) (s : string) :
  (∀ d, pretty_N_char d ≠ c) →
  JS.includes s c = false → JS.includes (pretty_N_go x s) c = false.
Proof.
  intros Hc. revert s. induction (N.lt_wf_0 x) as [x _ IH]; intros s Hs.
  destruct (decide (x = 0)%N) as [->|Hx]; [by rewrite pretty_N_go_0|].
  rewrite pretty_N_go_step by lia. apply IH; [apply N.div_lt; lia|].
  simpl. by rewrite decide_False by apply Hc.
Qed.

Lemma pretty_Z_excludes (c : ascii) (z : Z) :
  (∀ d, pretty_N_char d ≠ c) → c ≠ "-"%char →
  JS.includes (pretty z) c = false.
Proof.
  intros Hc Hdash.
  assert (∀ p : positive, JS.includes (pretty p) c = false) as Hpos.
  { intros p. unfold pretty, pretty_positive, pretty, pretty_N.
    rewrite decide_False by done. by apply pretty_N_go_excludes. }
  destruct z as [|p|p]; unfold pretty, pretty_Z.
  - simpl. rewrite decide_False; [done|]. apply (Hc 0%N).
  - apply Hpos.
  - change (JS.includes (String "-" (pretty p)) c = false).
    simpl. rewrite decide_False by done. apply Hpos.
Qed.

Lemma digit_not_comma d : pretty_N_char d ≠ ","%char.
Proof. unfold pretty_N_char. repeat case_match; discriminate. Qed.

Lemma digit_not_u d : pretty_N_char d ≠ "u"%char.
Proof. unfold pretty_N_char. repeat case_match; discriminate. Qed.

Lemma show_no_comma (v : option Z) : JS.includes (JS.show v) "," = false.
Proof.
  destruct v as [z|]; [|reflexivity].
  apply pretty_Z_excludes; [apply digit_not_comma|discriminate].
Qed.

Lemma show_inj (v w : option Z) : JS.show v = JS.show w → v = w.
Proof.
  assert (∀ z : Z, pretty z ≠ "undefined") as Hne.
  { intros z Hz.
    pose proof (pretty_Z_excludes "u" z digit_not_u) as Hu.
    rewrite Hz in Hu. by specialize (Hu ltac:(discriminate)). }
  destruct v as [z|], w as [z'|]; simpl; intros Heq.
  - f_equal. by apply (inj pretty).
  - by destruct (Hne z).
  - by destruct (Hne z').
  - done.
Qed.

Lemma split_no_separator_id c (X : string) :
  JS.includes X c = false → JS.split c X = [X].
Proof.
  induction X as [|a X IH]; simpl; [done|].
  destruct (decide (a = c)); [done|]. intros HX. by rewrite IH.
Qed.

Lemma split_app_separator c (X R : string) :
  JS.includes X c = false →
  JS.split c (X +:+ String c R) = X :: JS.split c R.
Proof.
  induction X as [|a X IH].
  - intros _. rewrite string_app_nil_l. simpl. by rewrite decide_True.
  - simpl. destruct (decide (a = c)); [done|]. intros HX.
    by rewrite IH.
Qed.

Lemma split_getColorKey (p : Pixel.t) :
  JS.split "," (Pixel.getColorKey p)
  = [JS.show (Pixel.red p); JS.show (Pixel.green p); JS.show (Pixel.blue p)].
Proof.
  unfold Pixel.getColorKey.
  rewrite !(string_app_cons "," EmptyString), !string_app_nil_l.
  rewrite split_app_separator by apply show_no_comma.
  rewrite split_app_separator by apply show_no_comma.
  by rewrite split_no_separator_id by apply show_no_comma.
Qed.

(** X2: two pixels have the same color key exactly when they are equal
    by RGB: the key names one color, and the counts kept per key never
    mix two colors. *)
Theorem same_color_key_iff_equalsRGB (p q : Pixel.t) :
  Pixel.getColorKey p = Pixel.getColorKey q ↔ Pixel.equalsRGB p q = true.
Proof.
  unfold Pixel.equalsRGB. rewrite !andb_true_iff, !bool_decide_eq_true.
  split.
  - intros Hkey.
    pose proof (split_getColorKey p) as Hp. rewrite Hkey in Hp.
    rewrite split_getColorKey in Hp. injection Hp as Hr Hg Hb.
    auto using show_inj.
  - intros [[Hr Hg] Hb]. unfold Pixel.getColorKey. by rewrite Hr, Hg, Hb.
Qed.

End PixelFacts.

(** ** The recorded progress *)

Section AggregatorFacts.
Import TileProgressManager.

Lemma set_set k p p' (m : TileProgressManager.t) :
  set k p' (set k p m) = set k p' m.
Proof.
  induction m as [|[k0 v] m IH]; simpl.
  - by rewrite decide_True.
  - destruct (decide (k0 = k)) as [->|Hne]; simpl.
    + by rewrite decide_True.
    + rewrite decide_False by done. by rewrite IH.
Qed.

(** X3: a record stored under a key is what [get] then finds under it,
    [has] is true for it, the records under the other keys are as they
    were, and storing again under the key leaves only the last record. *)
Theorem record_then_lookup k k' p p' (m : TileProgressManager.t) :
  get k (set k p m) = Some p
  ∧ has k (set k p m) = true
  ∧ set k p' (set k p m) = set k p' m
  ∧ (k ≠ k' → get k' (set k p m) = get k' m
             ∧ has k' (set k p m) = has k' m).
Proof.
  split; [apply get_set_eq|].
  split; [unfold has; by rewrite get_set_eq|].
  split; [apply set_set|].
  intros Hne. unfold has. by rewrite get_set_ne.
Qed.

Lemma foldl_addProgress_sums acc (l : list TileProgress) :
  foldl addProgress acc l
  = {| aggregateTotalPixelCount :=
         aggregateTotalPixelCount acc + sumZ (totalPixelCount <$> l);
       aggregatePaintedPixelCount :=
         aggregatePaintedPixelCount acc + sumZ (paintedPixelCount <$> l);
       aggregateWrongPixelCount :=
         aggregateWrongPixelCount acc + sumZ (wrongPixelCount <$> l);
       aggregateWrongPixelPositions :=
         aggregateWrongPixelPositions acc
         ++ concat (wrongPixelPositions <$> l) |}.
Proof.
  revert acc. induction l as [|p l IH]; intros acc; csimpl.
  - destruct acc. simpl. f_equal; try lia. by rewrite app_nil_r.
  - rewrite IH. unfold addProgress. csimpl. f_equal; try lia.
    by rewrite <- app_assoc.
Qed.

(** X4: the totals over any number of recorded tiles are the sums of the
    three counts of the records, and the wrong positions are the lists
    of the records one after the other, in the order in which the tiles
    were first recorded. *)
Theorem totals_are_sums (m : TileProgressManager.t) :
  computeTotalProgress m
  = {| aggregateTotalPixelCount := sumZ (totalPixelCount <$> m.*2);
       aggregatePaintedPixelCount := sumZ (paintedPixelCount <$> m.*2);
       aggregateWrongPixelCount := sumZ (wrongPixelCount <$> m.*2);
       aggregateWrongPixelPositions :=
         concat (wrongPixelPositions <$> m.*2) |}.
Proof. unfold computeTotalProgress. by rewrite foldl_addProgress_sums. Qed.

Lemma set_existing k p p' (m : TileProgressManager.t) :
  get k m = Some p →
  ∃ m1 m2, m = m1 ++ (k, p) :: m2 ∧ get k m1 = None
           ∧ set k p' m = m1 ++ (k, p') :: m2.
Proof.
  induction m as [|[k0 v] m IH]; simpl; [done|].
  destruct (decide (k0 = k)) as [->|Hne].
  - intros [= ->]. by exists [], m.
  - intros Hm. destruct (IH Hm) as (m1 & m2 & -> & Hm1 & ->).
    exists ((k0, v) :: m1), m2. simpl. by rewrite decide_False.
Qed.

Lemma sumZ_app (l1 l2 : list Z) : sumZ (l1 ++ l2) = sumZ l1 + sumZ l2.
Proof. unfold sumZ. induction l1 as [|x l1 IH]; simpl; lia. Qed.

(** X5: recording a tile that already has a record replaces the record
    in place: the totals lose the counts of the old record and gain
    those of the new one, and the wrong positions of the other tiles
    stay where they were around the new list. *)
Theorem rerecord_replaces k p p' (m : TileProgressManager.t) :
  get k m = Some p →
  let before := computeTotalProgress m in
  let after := computeTotalProgress (set k p' m) in
  aggregateTotalPixelCount after
  = aggregateTotalPixelCount before - totalPixelCount p + totalPixelCount p'
  ∧ aggregatePaintedPixelCount after
    = aggregatePaintedPixelCount before - paintedPixelCount p
      + paintedPixelCount p'
  ∧ aggregateWrongPixelCount after
    = aggregateWrongPixelCount before - wrongPixelCount p
      + wrongPixelCount p'
  ∧ ∃ l1 l2,
      aggregateWrongPixelPositions before
      = l1 ++ wrongPixelPositions p ++ l2
      ∧ aggregateWrongPixelPositions after
        = l1 ++ wrongPixelPositions p' ++ l2.
Proof.
  intros Hget. destruct (set_existing k p p' m Hget) as (m1 & m2 & -> & _ & ->).
  cbv zeta. unfold computeTotalProgress. rewrite !foldl_addProgress_sums.
  cbn [aggregateTotalPixelCount
    aggregatePaintedPixelCount aggregateWrongPixelCount
    aggregateWrongPixelPositions].
  rewrite !fmap_app, !fmap_cons, !sumZ_app.
  cbn [sumZ foldr snd].
  repeat split; try lia.
  exists (concat (wrongPixelPositions <$> m1.*2)),
         (concat (wrongPixelPositions <$> m2.*2)).
  by rewrite !concat_app.
Qed.

Lemma length_concat_positions (l : list TileProgress) :
  Forall countsPositions l →
  sumZ (wrongPixelCount <$> l)
  = Z.of_nat (length (concat (wrongPixelPositions <$> l))).
Proof.
  induction 1 as [|p l Hp _ IH]; [done|].
  rewrite !fmap_cons. change (sumZ (?x :: ?l)) with (x + sumZ l).
  cbn [concat]. rewrite length_app, IH. unfold countsPositions in Hp. lia.
Qed.

Lemma Forall_set (P : TileProgress → Prop) k p (m : TileProgressManager.t) :
  P p → Forall P (m.*2) → Forall P ((set k p m).*2).
Proof.
  intros Hp. induction m as [|[k0 v] m IH]; simpl.
  - by constructor.
  - intros Hm. inversion Hm as [|?? Hv Hm']; subst.
    destruct (decide (k0 = k)); simpl; constructor; auto.
Qed.

Lemma addColorCounts_countOf color (counts aggregate : gmap string Z) :
  countOf color (addColorCounts counts aggregate)
  = countOf color aggregate + countOf color counts.
Proof.
  unfold addColorCounts.
  apply (map_fold_weak_ind
           (λ r m, countOf color r = countOf color aggregate + countOf color m)).
  - unfold countOf. rewrite lookup_empty. simpl. lia.
  - intros i x m r Hi IH. unfold addColorCount, countOf in *.
    destruct (decide (i = color)) as [->|Hne].
    + rewrite !lookup_insert_eq. rewrite Hi in IH. simpl in *. lia.
    + by rewrite !lookup_insert_ne.
Qed.

Lemma addColorCounts_dom (counts aggregate : gmap string Z) :
  dom (addColorCounts counts aggregate) = dom aggregate ∪ dom counts.
Proof.
  unfold addColorCounts.
  apply (map_fold_weak_ind (λ r m, dom r = dom aggregate ∪ dom m)).
  - by rewrite dom_empty_L, (right_id_L ∅ (∪)).
  - intros i x m r Hi IH. unfold addColorCount.
    rewrite !dom_insert_L, IH.
    by rewrite (assoc_L (∪)), (comm_L (∪) {[i]}), <- (assoc_L (∪)).
Qed.

Lemma foldl_addColorsProgress acc (l : list TileProgress) color :
  countOf color (aggregatePaintedPixelColorCounts (foldl addColorsProgress acc l))
  = countOf color (aggregatePaintedPixelColorCounts acc)
    + sumZ ((λ p, countOf color (paintedPixelColorCounts p)) <$> l)
  ∧ countOf color (aggregateWrongPixelColorCounts (foldl addColorsProgress acc l))
    = countOf color (aggregateWrongPixelColorCounts acc)
      + sumZ ((λ p, countOf color (wrongPixelColorCounts p)) <$> l).
Proof.
  revert acc. induction l as [|p l IH]; intros acc; [simpl; lia|].
  rewrite !fmap_cons. change (sumZ (?x :: ?l)) with (x + sumZ l).
  cbn [foldl]. destruct (IH (addColorsProgress acc p)) as [-> ->].
  unfold addColorsProgress.
  cbn [aggregatePaintedPixelColorCounts aggregateWrongPixelColorCounts].
  rewrite !addColorCounts_countOf. lia.
Qed.

Lemma foldl_addColorsProgress_dom acc (l : list TileProgress) :
  dom (aggregatePaintedPixelColorCounts (foldl addColorsProgress acc l))
  = dom (aggregatePaintedPixelColorCounts acc)
    ∪ ⋃ (dom ∘ paintedPixelColorCounts <$> l)
  ∧ dom (aggregateWrongPixelColorCounts (foldl addColorsProgress acc l))
    = dom (aggregateWrongPixelColorCounts acc)
      ∪ ⋃ (dom ∘ wrongPixelColorCounts <$> l).
Proof.
  revert acc. induction l as [|p l IH]; intros acc.
  - simpl. by rewrite !(right_id_L ∅ (∪)).
  - rewrite !fmap_cons, !union_list_cons. cbn [foldl].
    destruct (IH (addColorsProgress acc p)) as [-> ->].
    unfold addColorsProgress.
    cbn [aggregatePaintedPixelColorCounts aggregateWrongPixelColorCounts].
    by rewrite !addColorCounts_dom, <- !(assoc_L (∪)).
Qed.

(** X6: in the color totals, the count of a color is the sum of its
    counts over the recorded tiles, painted and wrong apart, and the
    colors listed are those that some record lists. *)
Theorem color_totals_are_sums (m : TileProgressManager.t) (color : string) :
  let totals := computeTotalColorsProgress m in
  countOf color (aggregatePaintedPixelColorCounts totals)
  = sumZ ((λ p, countOf color (paintedPixelColorCounts p)) <$> m.*2)
  ∧ countOf color (aggregateWrongPixelColorCounts totals)
    = sumZ ((λ p, countOf color (wrongPixelColorCounts p)) <$> m.*2)
  ∧ dom (aggregatePaintedPixelColorCounts totals)
    = ⋃ (dom ∘ paintedPixelColorCounts <$> m.*2)
  ∧ dom (aggregateWrongPixelColorCounts totals)
    = ⋃ (dom ∘ wrongPixelColorCounts <$> m.*2).
Proof.
  cbv zeta. unfold computeTotalColorsProgress.
  destruct (foldl_addColorsProgress
              {| aggregatePaintedPixelColorCounts := ∅;
                 aggregateWrongPixelColorCounts := ∅ |} (m.*2) color)
    as [-> ->].
  destruct (foldl_addColorsProgress_dom
              {| aggregatePaintedPixelColorCounts := ∅;
                 aggregateWrongPixelColorCounts := ∅ |} (m.*2))
    as [-> ->].
  cbn [aggregatePaintedPixelColorCounts aggregateWrongPixelColorCounts].
  unfold countOf at 1 3. rewrite !lookup_empty, !dom_empty_L.
  rewrite !(left_id_L ∅ (∪)). cbn [default]. repeat split; lia.
Qed.

End AggregatorFacts.

(** ** The order of the templates and the fragments of a tile *)

Section SortFacts.
Import TemplateArray.

Lemma insertByPriority_perm a l : insertByPriority a l ≡ₚ a :: l.
Proof.
  induction l as [|b l IH]; simpl; [done|].
  destruct (decide (sortID a - sortID b ≤ 0)); [done|].
  rewrite IH. apply Permutation_swap.
Qed.

Lemma sortByPriority_perm l : sortByPriority l ≡ₚ l.
Proof.
  unfold sortByPriority. induction l as [|a l IH]; simpl; [done|].
  by rewrite insertByPriority_perm, IH.
Qed.

Lemma insertByPriority_sorted a l :
  Sorted byPriority l → Sorted byPriority (insertByPriority a l).
Proof.
  induction 1 as [|b l Hl IH Hb]; simpl.
  - by repeat constructor.
  - destruct (decide (sortID a - sortID b ≤ 0)).
    + constructor; [by constructor|]. constructor. unfold byPriority. lia.
    + constructor; [done|].
      destruct Hb as [|c l Hbc]; simpl.
      * constructor. unfold byPriority. lia.
      * destruct (decide (sortID a - sortID c ≤ 0)); constructor;
          unfold byPriority in *; lia.
Qed.

Lemma sortByPriority_sorted l : Sorted byPriority (sortByPriority l).
Proof.
  unfold sortByPriority. induction l as [|a l IH]; simpl; [constructor|].
  by apply insertByPriority_sorted.
Qed.

Lemma insertByPriority_filter (s : Z) a l :
  filter (λ t, sortID t = s) (insertByPriority a l)
  = filter (λ t, sortID t = s) (a :: l).
Proof.
  induction l as [|b l IH]; simpl; [done|].
  destruct (decide (sortID a - sortID b ≤ 0)) as [|Hgt]; [done|].
  rewrite !filter_cons in *. rewrite IH.
  destruct (decide (sortID a = s)), (decide (sortID b = s)); try done. lia.
Qed.

Lemma sortByPriority_filter (s : Z) l :
  filter (λ t, sortID t = s) (sortByPriority l) = filter (λ t, sortID t = s) l.
Proof.
  unfold sortByPriority. induction l as [|a l IH]; simpl; [done|].
  rewrite insertByPriority_filter, !filter_cons. by rewrite IH.
Qed.

Lemma sortByPriority_of_sorted l : Sorted byPriority l → sortByPriority l = l.
Proof.
  unfold sortByPriority. induction 1 as [|a l Hl IH Ha]; simpl; [done|].
  rewrite IH. destruct Ha as [|b l Hab]; simpl; [done|].
  unfold byPriority in Hab. by rewrite decide_True by lia.
Qed.

(** X7: [sortByPriority] keeps the templates and puts them in the order
    of their [sortID], lowest first; templates of one [sortID] keep
    their order, and an array that is sorted, as the array of the
    manager is after the first pass, is left as it is. *)
Theorem sortByPriority_sorts (l : list Template) :
  sortByPriority l ≡ₚ l
  ∧ Sorted byPriority (sortByPriority l)
  ∧ (∀ s, filter (λ t, sortID t = s) (sortByPriority l)
          = filter (λ t, sortID t = s) l)
  ∧ sortByPriority (sortByPriority l) = sortByPriority l.
Proof.
  split; [apply sortByPriority_perm|].
  split; [apply sortByPriority_sorted|].
  split; [intros s; apply sortByPriority_filter|].
  apply sortByPriority_of_sorted, sortByPriority_sorted.
Qed.

End SortFacts.

Section FragmentFacts.
Import TemplateArray TemplateManager.

Lemma split_join c (l : list string) :
  l ≠ [] → Forall (λ x, JS.includes x c = false) l →
  JS.split c (JS.join c l) = l.
Proof.
  intros Hne Hl. induction Hl as [|x l Hx Hl IH]; [done|].
  destruct l as [|y l].
  - by apply split_no_separator_id.
  - rewrite join_cons_cons, split_app_separator by done.
    by rewrite IH.
Qed.

Lemma relevantBlob_head ch q :
  relevantBlob ch q
  = blobOfTile <$> head (filter (λ tile, JS.startsWith tile.1 q = true) ch).
Proof.
  unfold relevantBlob.
  by destruct (filter (λ tile, JS.startsWith tile.1 q = true) ch).
Qed.

Lemma relevantBlob_None_iff ch q :
  relevantBlob ch q = None ↔ scanChunkedKeys ch q = false.
Proof.
  rewrite relevantBlob_head. unfold scanChunkedKeys.
  induction ch as [|[k bm] ch IH]; simpl; [done|].
  rewrite filter_cons. simpl.
  destruct (decide (JS.startsWith k q = true)) as [Hk|Hk].
  - rewrite Hk. simpl. split; done.
  - apply not_true_is_false in Hk. by rewrite Hk.
Qed.

(** X8: the fragment that a template gives for a tile is made from the
    first key, in the order of the keys of [chunked], that starts with
    the tile, and there is none when no key does; the fragment of a key
    of four comma-free fields has the first two as its tile
    coordinates and the last two as its pixel coordinates. *)
Theorem fragment_is_first_matching_key (ch : list (string * ImageBitmap))
    (q : string) :
  (relevantBlob ch q = None ↔ scanChunkedKeys ch q = false)
  ∧ (∀ blob, relevantBlob ch q = Some blob ↔
       ∃ ch1 key bm ch2,
         ch = ch1 ++ (key, bm) :: ch2
         ∧ scanChunkedKeys ch1 q = false
         ∧ JS.startsWith key q = true
         ∧ blob = blobOfTile (key, bm))
  ∧ (∀ X Y P Q bm,
       Forall (λ x, JS.includes x "," = false) [X; Y; P; Q] →
       blobOfTile (JS.join "," [X; Y; P; Q], bm)
       = {| bitmap := bm;
            tileCoords := (Some X, Some Y);
            pixelCoords := (Some P, Some Q) |}).
Proof.
  split; [apply relevantBlob_None_iff|split].
  - intros blob. rewrite relevantBlob_head. unfold scanChunkedKeys.
    induction ch as [|[k bm] ch IH]; simpl.
    + split; [done|]. intros (ch1 & ? & ? & ? & Hch & _). by destruct ch1.
    + rewrite filter_cons. simpl.
      destruct (decide (JS.startsWith k q = true)) as [Hk|Hk].
      * simpl. split.
        -- intros [= <-]. by exists [], k, bm, ch.
        -- intros (ch1 & key & bm' & ch2 & Hch & Hno & Hs & ->).
           destruct ch1 as [|[k1 b1] ch1]; simplify_eq/=; [done|].
           rewrite Hk in Hno. done.
      * apply not_true_is_false in Hk. rewrite IH. split.
        -- intros (ch1 & key & bm' & ch2 & -> & Hno & Hs & ->).
           exists ((k, bm) :: ch1), key, bm', ch2. simpl. by rewrite Hk.
        -- intros (ch1 & key & bm' & ch2 & Hch & Hno & Hs & ->).
           destruct ch1 as [|[k1 b1] ch1]; simplify_eq/=; [congruence|].
           exists ch1, key, bm', ch2. rewrite Hk in Hno. done.
  - intros X Y P Q bm HF. unfold blobOfTile. simpl.
    change (String.append X (String "," (String.append Y (String ","
              (String.append P (String "," Q))))))
      with (JS.join "," [X; Y; P; Q]).
    by rewrite split_join.
Qed.

Lemma getRelevantTemplateTileBlobs_None templates q :
  getRelevantTemplateTileBlobs templates q = None
  ↔ Exists (λ t, chunked t = None) templates.
Proof.
  induction templates as [|t ts IH]; simpl.
  - split; [done|]. by inversion 1.
  - rewrite Exists_cons. destruct (chunked t) as [ch|]; [|by split; auto].
    destruct (getRelevantTemplateTileBlobs ts q) as [blobs|].
    + split; [done|]. intros [?|Hts]; [done|]. by apply IH in Hts.
    + split; [|done]. intros _. right. by apply IH.
Qed.

Lemma getRelevantTemplateTileBlobs_Some templates q blobs :
  getRelevantTemplateTileBlobs templates q = Some blobs →
  blobs = omap (λ t, chunked t ≫= λ ch, relevantBlob ch q) templates
  ∧ length blobs
    = length (filter (λ t, noFragmentIn q t = false) templates)
  ∧ (length blobs ≤ length templates)%nat.
Proof.
  revert blobs.
  induction templates as [|t ts IH]; intros blobs Hb; simpl in Hb.
  - injection Hb as <-. done.
  - destruct (chunked t) as [ch|] eqn:Hch; [|done].
    destruct (getRelevantTemplateTileBlobs ts q) as [blobs'|]; [|done].
    injection Hb as <-. destruct (IH blobs' eq_refl) as (Heq & Hlen & Hle).
    pose proof (relevantBlob_None_iff ch q) as Hnone.
    assert (noFragmentIn q t = negb (scanChunkedKeys ch q)) as Hnf.
    { unfold noFragmentIn. by rewrite Hch. }
    cbn [omap list_omap]. rewrite Hch. cbn [mbind option_bind].
    fold (omap (λ t, chunked t ≫= λ ch, relevantBlob ch q) ts).
    rewrite <- Heq. rewrite filter_cons.
    destruct (decide (noFragmentIn q t = false)) as [Hd|Hd];
      rewrite Hnf in Hd.
    + apply negb_false_iff in Hd.
      destruct (relevantBlob ch q) as [blob|] eqn:Hblob.
      * cbn [length]. split; [done|]. lia.
      * rewrite (proj1 Hnone eq_refl) in Hd. done.
    + apply not_false_is_true, negb_true_iff in Hd.
      rewrite (proj2 Hnone Hd). cbn [length]. split; [done|]. lia.
Qed.

(** X9: the tile matcher throws exactly when some template has no
    [chunked] object; otherwise it gives one fragment for each template
    that has a key starting with the tile, in the order of the
    templates, and so no more fragments than templates. *)
Theorem fragments_one_per_touching_template (templates : list Template)
    (q : string) :
  (getRelevantTemplateTileBlobs templates q = None
   ↔ Exists (λ t, chunked t = None) templates)
  ∧ (∀ blobs, getRelevantTemplateTileBlobs templates q = Some blobs →
       blobs = omap (λ t, chunked t ≫= λ ch, relevantBlob ch q) templates
       ∧ length blobs
         = length (filter (λ t, noFragmentIn q t = false) templates)
       ∧ (length blobs ≤ length templates)%nat).
Proof.
  split; [apply getRelevantTemplateTileBlobs_None|].
  intros blobs. apply getRelevantTemplateTileBlobs_Some.
Qed.

End FragmentFacts.

(** ** What a pass returns and what it leaves *)

Section PassFacts.
Context `{Externals}.
Import TemplateArray TemplateManager.

Lemma isAnyTemplateInTile_true templates q :
  isAnyTemplateInTile templates q = true
  ↔ ∃ t, t ∈ templates ∧ isTemplateInTile t q = true.
Proof.
  unfold isAnyTemplateInTile. rewrite existsb_exists.
  by setoid_rewrite <- list_elem_of_In.
Qed.

Lemma isAnyTemplateInTile_sorted templates q :
  isAnyTemplateInTile (sortByPriority templates) q
  = isAnyTemplateInTile templates q.
Proof.
  apply eq_true_iff_eq. rewrite !isAnyTemplateInTile_true.
  by setoid_rewrite elem_of_sortByPriority.
Qed.

Lemma Exists_sortByPriority (P : Template → Prop) templates :
  Exists P (sortByPriority templates) ↔ Exists P templates.
Proof.
  rewrite !Exists_exists. by setoid_rewrite elem_of_sortByPriority.
Qed.

(** X10: with what the calls outside the [try] blocks do given by
    [host], [drawTemplateOnTile] throws exactly when the templates are
    to be drawn, some template is in the tile, and either some template,
    the same or another, has no [chunked] object, or the tile blob does
    not decode, or the status is not displayed, or the canvas is not
    converted; in every other case it resolves. *)
Theorem drawTemplateOnTile_throws_iff mgr tileBlob tc snapshot host :
  drawTemplateOnTile mgr tileBlob tc snapshot host = None
  ↔ templatesShouldBeDrawn mgr = true
    ∧ isAnyTemplateInTile (templatesArray mgr) (formatTileCoords tc) = true
    ∧ (Exists (λ t, chunked t = None) (templatesArray mgr)
       ∨ tileDecodes host = false
       ∨ statusDisplays host = false
       ∨ canvasConverts host = false).
Proof.
  unfold drawTemplateOnTile.
  destruct (templatesShouldBeDrawn mgr); cbn [negb]; [|by split; [|intros []]].
  cbn [templatesArray setTemplatesArray].
  rewrite isAnyTemplateInTile_sorted.
  destruct (isAnyTemplateInTile _ _); cbn [negb];
    [|by split; [|intros (_ & ? & _)]].
  rewrite <- Exists_sortByPriority,
    <- (getRelevantTemplateTileBlobs_None _ (formatTileCoords tc)).
  destruct (getRelevantTemplateTileBlobs _ _) as [blobs|];
    [|split; [intros _; split; [done|split; [done|by left]]|done]].
  destruct (drawAllTemplates _ _ _ _).
  destruct (tileDecodes host), (statusDisplays host), (canvasConverts host);
    cbn [negb]; (split; [intros ?|intros (_ & _ & [?|[?|[?|?]]])]);
    try done; auto 10.
Qed.

Lemma foldl_drawOneTemplate_ops mgr snapshot st ops blobs :
  (foldl (drawOneTemplate mgr snapshot) (st, ops) blobs).2
  = ops ++ (overlayOp mgr <$> blobs).
Proof.
  revert st ops. induction blobs as [|b blobs IH]; intros st ops; simpl.
  - by rewrite app_nil_r.
  - unfold drawOneTemplate at 2. simpl. rewrite IH. by rewrite <- app_assoc.
Qed.

(** X11: what is drawn does not depend on the snapshot or on the
    counters: the tile first, then one drawing call for each fragment
    in the order of the fragments. *)
Theorem overlay_is_drawn_whatever_the_snapshot
    mgr (snapshot : option (list Z)) tileBlob blobs :
  (drawAllTemplates mgr snapshot tileBlob blobs).2
  = DrawTile tileBlob (tileSize mgr * drawMult mgr)
      :: (overlayOp mgr <$> blobs).
Proof. unfold drawAllTemplates. by rewrite foldl_drawOneTemplate_ops. Qed.

Lemma touching_template_gives_fragment templates q blobs :
  forallb prefixesDerived templates = true →
  isAnyTemplateInTile templates q = true →
  getRelevantTemplateTileBlobs templates q = Some blobs →
  blobs ≠ [].
Proof.
  intros Hps Hany Hblobs.
  destruct (getRelevantTemplateTileBlobs_Some _ _ _ Hblobs) as (_ & Hlen & _).
  apply isAnyTemplateInTile_true in Hany as (t & Ht & Hin).
  assert (noFragmentIn q t = false) as Hno.
  { destruct (noFragmentIn q t) eqn:Hno; [|done].
    rewrite isTemplateInTile_none in Hin; [done..|].
    rewrite forallb_forall in Hps. by apply Hps, list_elem_of_In. }
  assert (t ∈ filter (λ t, noFragmentIn q t = false) templates) as Hf.
  { by apply list_elem_of_filter. }
  intros ->. simpl in Hlen.
  destruct (filter _ templates); [by apply elem_of_nil in Hf|done].
Qed.

(** X12: when every template has an index derived from its keys, a
    call of [drawTemplateOnTile] that resolves either gives back the
    blob it was given and records nothing, or has drawn at least one
    fragment on the tile and left the counters of the pass as the
    record of the tile: no composite goes without a record. *)
Theorem pass_draws_and_records_or_neither
    mgr tileBlob tc snapshot host out mgr' :
  let q := formatTileCoords tc in
  let sorted := setTemplatesArray (sortByPriority (templatesArray mgr)) mgr in
  forallb prefixesDerived (templatesArray mgr) = true →
  drawTemplateOnTile mgr tileBlob tc snapshot host = Some (out, mgr') →
  (out = InputBlob tileBlob ∧ tileProgress mgr' = tileProgress mgr)
  ∨ ∃ blobs,
      blobs ≠ []
      ∧ getRelevantTemplateTileBlobs (templatesArray sorted) q = Some blobs
      ∧ out = CanvasBlob (tileSize mgr * drawMult mgr)
                (DrawTile tileBlob (tileSize mgr * drawMult mgr)
                   :: (overlayOp sorted <$> blobs))
      ∧ TileProgressManager.get q (tileProgress mgr')
        = Some (drawAllTemplates sorted snapshot tileBlob blobs).1.
Proof.
  intros q sorted Hps. unfold drawTemplateOnTile.
  destruct (templatesShouldBeDrawn mgr); cbn [negb];
    [|intros [= <- <-]; by left].
  fold q sorted.
  destruct (isAnyTemplateInTile (templatesArray sorted) q) eqn:Hany;
    cbn [negb]; [|intros [= <- <-]; by left].
  destruct (getRelevantTemplateTileBlobs (templatesArray sorted) q)
    as [blobs|] eqn:Hblobs; [|done].
  assert (blobs ≠ []) as Hne.
  { eapply touching_template_gives_fragment; [|done..].
    by apply forallb_sortByPriority. }
  pose proof (foldl_drawOneTemplate_ops sorted snapshot noProgress
                [DrawTile tileBlob (tileSize sorted * drawMult sorted)]
                blobs) as Hops.
  fold (drawAllTemplates sorted snapshot tileBlob blobs) in Hops.
  destruct (drawAllTemplates sorted snapshot tileBlob blobs)
    as [progress ops] eqn:Hd. simpl in Hops.
  destruct (tileDecodes host), (statusDisplays host), (canvasConverts host);
    cbn [negb]; try done.
  rewrite bool_decide_eq_true_2 by (destruct blobs; [done|simpl; lia]).
  intros [= <- <-]. right. exists blobs.
  split; [done|]. split; [done|]. split; [by rewrite Hops|].
  rewrite Hd. simpl. apply get_set_eq.
Qed.

(** X13: a pass that resolves leaves the tile size, the draw multiplier
    and the drawing switch as they were, keeps the templates, in the
    order of their [sortID] when the templates are to be drawn, and
    leaves the record of every tile but its own as it was. *)
Theorem pass_touches_only_its_tile mgr tileBlob tc snapshot host out mgr' :
  drawTemplateOnTile mgr tileBlob tc snapshot host = Some (out, mgr') →
  tileSize mgr' = tileSize mgr
  ∧ drawMult mgr' = drawMult mgr
  ∧ templatesShouldBeDrawn mgr' = templatesShouldBeDrawn mgr
  ∧ templatesArray mgr' ≡ₚ templatesArray mgr
  ∧ (templatesShouldBeDrawn mgr = true →
     templatesArray mgr' = sortByPriority (templatesArray mgr))
  ∧ (templatesShouldBeDrawn mgr = false → mgr' = mgr ∧ out = InputBlob tileBlob)
  ∧ ∀ k, k ≠ formatTileCoords tc →
      TileProgressManager.get k (tileProgress mgr')
      = TileProgressManager.get k (tileProgress mgr).
Proof.
  unfold drawTemplateOnTile.
  destruct (templatesShouldBeDrawn mgr) eqn:Hdrawn; cbn [negb].
  - destruct (isAnyTemplateInTile _ _); cbn [negb].
    + destruct (getRelevantTemplateTileBlobs _ _) as [blobs|]; [|done].
      destruct (drawAllTemplates _ _ _ _) as [progress ops].
      destruct (tileDecodes host), (statusDisplays host),
        (canvasConverts host); cbn [negb]; try done.
      intros [= <- <-]. case_bool_decide; simpl;
        repeat split; auto using sortByPriority_perm; try done.
      intros k Hk. by apply get_set_ne.
    + intros [= <- <-]. simpl.
      repeat split; auto using sortByPriority_perm; done.
  - intros [= <- <-]. repeat split; auto; done.
Qed.

End PassFacts.

(** ** What the counters of a pass count *)

Section CounterFacts.
Context `{Externals}.
Import TemplateArray TemplateManager.

Implicit Types (mgr : TemplateManager) (template : TemplateTileBlob).
Implicit Types (st : TileProgress) (x y : Z).

Lemma foldl_ext_in {S A} (f g : S → A → S) (l : list A) (s : S) :
  (∀ s a, a ∈ l → f s a = g s a) → foldl f s l = foldl g s l.
Proof.
  revert s. induction l as [|a l IH]; intros s Hfg; [done|]. simpl.
  rewrite Hfg by left. apply IH. intros s' a' Ha'. apply Hfg. by right.
Qed.

Lemma classifyPixel_same_allowed mgr mgr' snapshot template x y st :
  tileSize mgr = tileSize mgr' → drawMult mgr = drawMult mgr' →
  head (templatesArray mgr) ≫= allowedColorsSet
  = head (templatesArray mgr') ≫= allowedColorsSet →
  classifyPixel mgr snapshot template x y st
  = classifyPixel mgr' snapshot template x y st.
Proof. intros Hs Hd Ha. unfold classifyPixel. by rewrite Hs, Hd, Ha. Qed.

Lemma classifyTemplate_same_allowed mgr mgr' snapshot template st :
  tileSize mgr = tileSize mgr' → drawMult mgr = drawMult mgr' →
  head (templatesArray mgr) ≫= allowedColorsSet
  = head (templatesArray mgr') ≫= allowedColorsSet →
  classifyTemplate mgr snapshot template st
  = classifyTemplate mgr' snapshot template st.
Proof.
  intros Hs Hd Ha. rewrite !classifyTemplate_sampled, Hd.
  apply foldl_ext_in. intros s p _. by apply classifyPixel_same_allowed.
Qed.

(** X14: the counters of a pass depend on the manager only through the
    tile size, the draw multiplier and the allowed colors of the active
    template: two managers that agree on these, whatever their palettes
    and the enabled flags in them, count the same. *)
Theorem counters_do_not_depend_on_palette
    mgr mgr' (snapshot : option (list Z)) tileBlob blobs :
  tileSize mgr = tileSize mgr' → drawMult mgr = drawMult mgr' →
  head (templatesArray mgr) ≫= allowedColorsSet
  = head (templatesArray mgr') ≫= allowedColorsSet →
  (drawAllTemplates mgr snapshot tileBlob blobs).1
  = (drawAllTemplates mgr' snapshot tileBlob blobs).1.
Proof.
  intros Hs Hd Ha. unfold drawAllTemplates.
  generalize [DrawTile tileBlob (tileSize mgr * drawMult mgr)].
  generalize [DrawTile tileBlob (tileSize mgr' * drawMult mgr')].
  generalize noProgress.
  induction blobs as [|b blobs IH]; intros st ops ops'; [done|].
  simpl. unfold drawOneTemplate at 2 4. simpl.
  destruct snapshot as [snap|]; [|apply IH].
  rewrite (classifyTemplate_same_allowed mgr mgr') by done. apply IH.
Qed.

(** X15: in the counters of a pass, the total is the number of sampled
    required template pixels, the painted count the number of them that
    the snapshot shows in their color, and the wrong count the number
    of them that it shows in another color plus the number of blank
    template pixels over a painted allowed color; the wrong positions
    are those of the latter two, in the order of the pass. *)
Theorem counters_count_verdicts mgr snapshot tileBlob blobs :
  let progress := (drawAllTemplates mgr (Some snapshot) tileBlob blobs).1 in
  totalPixelCount progress
  = Z.of_nat (length (passPositionsWith [Correct; Wrong; Pending]
                        mgr snapshot blobs))
  ∧ paintedPixelCount progress
    = Z.of_nat (length (passPositionsWith [Correct] mgr snapshot blobs))
  ∧ wrongPixelCount progress
    = Z.of_nat (length (passPositionsWith [Overpainted; Wrong]
                          mgr snapshot blobs))
  ∧ wrongPixelPositions progress
    = (λ tp, wrongPosition (drawMult mgr) tp.1 tp.2.1 tp.2.2)
        <$> passPositionsWith [Overpainted; Wrong] mgr snapshot blobs.
Proof.
  cbv zeta. rewrite drawAllTemplates_fold.
  destruct (foldl_classifyPixel_counts mgr snapshot (passPositions blobs)
              noProgress) as (-> & -> & -> & ->).
  unfold passPositionsWith. simpl. done.
Qed.

Lemma filter_verdict_lengths {A} (v : A → Verdict) (l : list A) :
  length (filter (λ a, v a ∈ [Correct; Wrong; Pending]) l)
  = (length (filter (λ a, v a ∈ [Correct]) l)
     + length (filter (λ a, v a ∈ [Wrong; Pending]) l))%nat
  ∧ (filter (λ a, v a ∈ [Overpainted; Wrong; Pending]) l = []
     ↔ length (filter (λ a, v a ∈ [Wrong; Pending]) l) = 0%nat
       ∧ length (filter (λ a, v a ∈ [Overpainted; Wrong]) l) = 0%nat).
Proof.
  induction l as [|a l [IH1 IH2]]; [done|].
  rewrite !filter_cons.
  destruct (v a);
    repeat (first
      [rewrite decide_True by (apply (bool_decide_unpack _); by compute)
      |rewrite decide_False by (apply (bool_decide_unpack _); by compute)]);
    cbn [length]; (split; [lia|]); try done;
    split; (try discriminate); lia.
Qed.

(** X16: a pass reports as many painted pixels as required pixels, and
    no wrong pixel, exactly when no sampled position has a required
    pixel shown in another color or not painted, or a blank template
    pixel over a painted allowed color: a tile that matches its
    templates is reported complete, and only such a tile is. *)
Theorem complete_iff_nothing_left mgr snapshot tileBlob blobs :
  let progress := (drawAllTemplates mgr (Some snapshot) tileBlob blobs).1 in
  paintedPixelCount progress = totalPixelCount progress
  ∧ wrongPixelCount progress = 0
  ↔ passPositionsWith [Overpainted; Wrong; Pending] mgr snapshot blobs = [].
Proof.
  cbv zeta. rewrite drawAllTemplates_fold.
  destruct (foldl_classifyPixel_counts mgr snapshot (passPositions blobs)
              noProgress) as (-> & -> & -> & _).
  unfold passPositionsWith.
  destruct (filter_verdict_lengths
              (λ tp, verdictAt mgr snapshot tp.1 tp.2.1 tp.2.2)
              (passPositions blobs)) as [Hlen Hnil].
  rewrite Hnil. simpl. lia.
Qed.

Lemma sumCounts_empty : sumCounts ∅ = 0.
Proof. unfold sumCounts. by rewrite map_fold_empty. Qed.

Lemma sumCounts_insert_fresh key v (counts : gmap string Z) :
  counts !! key = None → sumCounts (<[key := v]> counts) = v + sumCounts counts.
Proof.
  intros Hk. unfold sumCounts. rewrite map_fold_insert_L; [done| |done].
  intros. lia.
Qed.

Lemma sumCounts_increment key (counts : gmap string Z) :
  sumCounts (increment key counts) = sumCounts counts + 1.
Proof.
  unfold increment. destruct (counts !! key) as [v|] eqn:Hk; simpl.
  - rewrite <- insert_delete_eq.
    rewrite sumCounts_insert_fresh by apply lookup_delete_eq.
    rewrite <- (insert_delete_id counts key v) at 2 by done.
    rewrite sumCounts_insert_fresh by apply lookup_delete_eq. lia.
  - rewrite sumCounts_insert_fresh by done. lia.
Qed.

Lemma classifyPixel_countsColors mgr snapshot template x y st :
  countsColors st → countsColors (classifyPixel mgr snapshot template x y st).
Proof.
  unfold countsColors. intros (Hp & Hw & Hpt & Hw0).
  rewrite classifyPixel_verdict.
  destruct (verdictAt mgr snapshot template x y);
    cbn [totalPixelCount paintedPixelCount wrongPixelCount
         paintedPixelColorCounts wrongPixelColorCounts
         recordWrong recordPainted incrementTotal];
    rewrite ?sumCounts_increment; lia.
Qed.

(** X17: in the record of a pass, the painted count is the sum of the
    painted counts of the colors and the wrong count the sum of the
    wrong counts of the colors, and the painted count never exceeds the
    total. *)
Theorem counters_agree_with_color_counts
    mgr (snapshot : option (list Z)) tileBlob blobs :
  let progress := (drawAllTemplates mgr snapshot tileBlob blobs).1 in
  paintedPixelCount progress = sumCounts (paintedPixelColorCounts progress)
  ∧ wrongPixelCount progress = sumCounts (wrongPixelColorCounts progress)
  ∧ 0 ≤ paintedPixelCount progress ≤ totalPixelCount progress
  ∧ 0 ≤ wrongPixelCount progress.
Proof.
  cbv zeta.
  assert (countsColors noProgress) as H0.
  { unfold countsColors. simpl. rewrite sumCounts_empty. lia. }
  destruct snapshot as [snap|].
  - rewrite drawAllTemplates_fold.
    apply (foldl_invariant countsColors); [|done].
    intros st [t p]. apply classifyPixel_countsColors.
  - by rewrite drawAllTemplates_no_snapshot.
Qed.

Lemma getFromData_inside (data : list Z) (i : Z) :
  0 ≤ i → i + 3 < Z.of_nat (length data) →
  ∃ r g b a,
    Pixel.getFromData data (Some i)
    = Pixel.mk (Some r) (Some g) (Some b) (Some a).
Proof.
  intros Hi Hlen. rewrite getFromData_lookups by done.
  destruct (lookup_lt_is_Some_2 data (Z.to_nat i)) as [r Hr]; [lia|].
  destruct (lookup_lt_is_Some_2 data (Z.to_nat (i + 1))) as [g Hg]; [lia|].
  destruct (lookup_lt_is_Some_2 data (Z.to_nat (i + 2))) as [b Hb]; [lia|].
  destruct (lookup_lt_is_Some_2 data (Z.to_nat (i + 3))) as [a Ha]; [lia|].
  exists r, g, b, a. by rewrite Hr, Hg, Hb, Ha.
Qed.

(** X18: the classification reads inside its arrays: at a position of
    the loops the template pixel has its four channels when the data of
    the bitmap has four bytes for each pixel, and at a sampled position
    of a fragment with numeric pixel coordinates the snapshot pixel has
    its four channels when the snapshot has four bytes for each pixel
    of the tile at the draw size. *)
Theorem classification_reads_inside_the_arrays
    mgr snapshot template x y px py :
  let bm := bitmap template in
  let drawSize := tileSize mgr * drawMult mgr in
  NumberOf (pixelCoords template).1 = Some px →
  NumberOf (pixelCoords template).2 = Some py →
  Z.of_nat (length (data bm)) = width bm * height bm * 4 →
  Z.of_nat (length snapshot) = drawSize * drawSize * 4 →
  (x, y) ∈ loopPositions (width bm) (height bm) →
  (∃ r g b a,
     shredPixelAt template x y = Pixel.mk (Some r) (Some g) (Some b) (Some a))
  ∧ (isSampled mgr template x y = true →
     ∃ r g b a,
       groundPixelAt mgr snapshot template x y
       = Pixel.mk (Some r) (Some g) (Some b) (Some a)).
Proof.
  intros bm drawSize Hpx Hpy Hdata Hsnap Hin.
  apply elem_of_loopPositions in Hin as [Hx Hy]. split.
  - apply getFromData_inside; fold bm; nia.
  - intros Hs. apply isSampled_inside in Hs.
    unfold isOutsideTile, groundPixelAt, globalX, globalY in *.
    rewrite Hpx, Hpy in *. simpl in *. fold drawSize in Hs |- *.
    rewrite !orb_false_iff, !bool_decide_eq_false in Hs.
    destruct Hs as [[[? ?] ?] ?].
    apply getFromData_inside; nia.
Qed.

(** X19: for a fragment one of whose pixel coordinates is not a number,
    as for a key with fewer than four fields, the index into the
    snapshot is not a number and no pixel is read: a sampled required
    pixel is counted in the total, and none is painted or wrong.  When
    both are not numbers every center passes the test of the bounds. *)
Theorem fragment_without_offset_is_pending mgr snapshot template x y :
  NumberOf (pixelCoords template).1 = None
  ∨ NumberOf (pixelCoords template).2 = None →
  verdictAt mgr snapshot template x y ∈ [NotSampled; Blank; Pending]
  ∧ (NumberOf (pixelCoords template).1 = None →
     NumberOf (pixelCoords template).2 = None →
     isSampled mgr template x y = negb (isNotCenter (drawMult mgr) x y)).
Proof.
  intros Hnan. split.
  - assert (Pixel.isPainted (groundPixelAt mgr snapshot template x y) = false)
      as Hg.
    { unfold groundPixelAt, globalX, globalY.
      destruct Hnan as [-> | ->]; simpl; [|done].
      by destruct (JS.mul (NumberOf _) _). }
    unfold verdictAt. cbv zeta. rewrite Hg. simpl.
    destruct (isSampled mgr template x y); simpl;
      [destruct (Pixel.isUnpainted _)|];
      apply (bool_decide_unpack _); by compute.
  - intros Hx Hy. unfold isSampled, isOutsideTile, globalX, globalY.
    rewrite Hx, Hy. simpl. by rewrite andb_true_r.
Qed.

End CounterFacts.

(** ** The records over several passes, and the filtered copy *)

Section RecordFacts.
Context `{Externals}.
Import TemplateArray TemplateManager.

Lemma drawAllTemplates_countsPositions mgr snapshot tileBlob blobs :
  countsPositions (drawAllTemplates mgr snapshot tileBlob blobs).1.
Proof.
  unfold drawAllTemplates.
  apply (foldl_invariant (λ acc, countsPositions acc.1)); [|done].
  intros [st ops] template Hst. unfold drawOneTemplate. simpl in *.
  destruct snapshot; [|done]. by apply classifyTemplate_countsPositions.
Qed.

(** X20: when the wrong count of every recorded tile is the number of
    its wrong positions, as in a new manager, the same holds after a
    call of [drawTemplateOnTile], and the wrong count of the totals is
    the number of wrong positions of the totals. *)
Theorem totals_wrong_count_is_number_of_positions
    mgr tileBlob tc snapshot host out mgr' :
  Forall countsPositions (tileProgress mgr).*2 →
  drawTemplateOnTile mgr tileBlob tc snapshot host = Some (out, mgr') →
  let total := TileProgressManager.computeTotalProgress (tileProgress mgr') in
  Forall countsPositions (tileProgress mgr').*2
  ∧ TileProgressManager.aggregateWrongPixelCount total
    = Z.of_nat (length (TileProgressManager.aggregateWrongPixelPositions total)).
Proof.
  intros Hall Hdraw.
  assert (Forall countsPositions (tileProgress mgr').*2) as Hall'.
  { destruct (drawTemplateOnTile_recorded _ _ _ _ _ _ _ Hdraw)
      as [-> | (blobs & _ & _ & ->)]; [done|].
    apply Forall_set; [|done]. apply drawAllTemplates_countsPositions. }
  cbv zeta. split; [done|].
  unfold TileProgressManager.computeTotalProgress.
  rewrite foldl_addProgress_sums. simpl.
  by apply length_concat_positions.
Qed.

Lemma arraySet_frame (j : Z) (d : list Z) (i : nat) :
  arraySet j 0 d !! i = d !! i
  ∨ arraySet j 0 d !! i = Some 0 ∧ i = Z.to_nat j.
Proof.
  unfold arraySet. destruct (decide (0 ≤ j)); [|by left].
  destruct (decide (i = Z.to_nat j)) as [->|Hne].
  - destruct (decide (Z.to_nat j < length d)%nat).
    + right. by rewrite list_lookup_insert_eq.
    + left. by rewrite list_insert_ge by lia.
  - left. by apply list_lookup_insert_ne.
Qed.

Lemma filterPixel_frame mgr w x y (d : list Z) (i : nat) :
  filterPixel mgr w x y d !! i = d !! i
  ∨ filterPixel mgr w x y d !! i = Some 0
    ∧ i = Z.to_nat ((y * w + x) * 4 + 3)
    ∧ isNotCenter (drawMult mgr) x y = false.
Proof.
  unfold filterPixel.
  destruct (isNotCenter (drawMult mgr) x y) eqn:Hc; [by left|].
  repeat case_match; try (by left);
    (destruct (arraySet_frame ((y * w + x) * 4 + 3) d i) as [?|[? ?]];
     [by left|by right]).
Qed.

Lemma filterPixel_length mgr w x y (d : list Z) :
  length (filterPixel mgr w x y d) = length d.
Proof.
  unfold filterPixel, arraySet.
  repeat case_match; try done; apply length_insert.
Qed.

Lemma foldl_filterPixel_frame mgr w (l : list (Z * Z)) (d : list Z) (i : nat) :
  let d' := foldl (λ d p, filterPixel mgr w p.1 p.2 d) d l in
  d' !! i = d !! i
  ∨ d' !! i = Some 0
    ∧ ∃ p, p ∈ l ∧ i = Z.to_nat ((p.2 * w + p.1) * 4 + 3)
           ∧ isNotCenter (drawMult mgr) p.1 p.2 = false.
Proof.
  cbv zeta. revert d. induction l as [|p l IH]; intros d; [by left|].
  cbn [foldl].
  destruct (IH (filterPixel mgr w p.1 p.2 d)) as [E | (E & q & Hq & Hi)].
  - destruct (filterPixel_frame mgr w p.1 p.2 d i) as [E' | (E' & Hi & Hc)].
    + left. by rewrite E.
    + right. split; [by rewrite E|]. exists p. split; [left|done].
  - right. split; [done|]. exists q. split; [by right|done].
Qed.

(** X21: the filtered copy of a bitmap has the length of its data, and
    each of its bytes is the byte of the data or is zero; a byte that
    differs is the alpha byte of a center pixel of the bitmap. *)
Theorem filter_changes_only_center_alpha mgr (bm : ImageBitmap) (i : nat) :
  length (filterTemplate mgr bm) = length (data bm)
  ∧ (filterTemplate mgr bm !! i = data bm !! i
     ∨ filterTemplate mgr bm !! i = Some 0
       ∧ ∃ x y, 0 ≤ x < width bm ∧ 0 ≤ y < height bm
                ∧ isNotCenter (drawMult mgr) x y = false
                ∧ i = Z.to_nat ((y * width bm + x) * 4 + 3)).
Proof.
  unfold filterTemplate.
  rewrite (forRange_nested (filterPixel mgr (width bm))). split.
  - apply (foldl_invariant (λ d, length d = length (data bm))); [|done].
    intros d p Hd. by rewrite filterPixel_length.
  - destruct (foldl_filterPixel_frame mgr (width bm)
                (loopPositions (width bm) (height bm)) (data bm) i)
      as [E | (E & [x y] & Hp & Hi & Hc)]; [by left|].
    right. split; [done|]. exists x, y.
    apply elem_of_loopPositions in Hp. by destruct Hp.
Qed.

End RecordFacts.

(** ** The import of stored templates *)

Section ImportFacts.
Import TemplateManager ParseBlueMarble.

Implicit Types (allowed : gset string) (st : Counting).

Lemma countPixel_thrown dm o w d x y st :
  thrown st = true → countPixel dm o w d x y st = st.
Proof. intros Ht. unfold countPixel. by rewrite Ht. Qed.

Lemma countPixel_skipped dm o w d x y st :
  isRequiredAt dm w d x y = false → countPixel dm o w d x y st = st.
Proof.
  unfold isRequiredAt, countPixel. cbv zeta. intros Hr.
  destruct (thrown st); [done|].
  destruct (isNotCenter dm x y); [done|].
  destruct (JS.lt _ _); [done|]. cbn [negb andb] in Hr.
  apply negb_false_iff in Hr. by rewrite Hr.
Qed.

Lemma countPixel_required dm o w d x y st :
  thrown st = false → isRequiredAt dm w d x y = true →
  requiredPixelCount (countPixel dm o w d x y st) = requiredPixelCount st + 1
  ∧ thrown (countPixel dm o w d x y st) = bool_decide (o = None)
  ∧ match o with
    | None => paletteMap (countPixel dm o w d x y st) = paletteMap st
    | Some allowed =>
        ∃ key, (key ∈ allowed ∨ key = "other")
               ∧ paletteMap (countPixel dm o w d x y st)
                 = increment key (paletteMap st)
    end.
Proof.
  unfold isRequiredAt, countPixel. cbv zeta. intros -> Hr.
  apply andb_true_iff in Hr as [Hr Hd]. apply andb_true_iff in Hr as [Hc Ha].
  apply negb_true_iff in Hc, Ha, Hd. rewrite Hc, Ha, Hd.
  destruct o as [allowed|];
    cbn [requiredPixelCount paletteMap thrown]; [|done].
  split; [done|]. split; [done|].
  eexists. split; [|done].
  destruct (bool_decide (_ ∈ allowed)) eqn:E; [left|by right].
  by apply bool_decide_eq_true in E.
Qed.

Lemma foldl_countPixel_thrown dm o w d (l : list (Z * Z)) st :
  thrown st = true →
  foldl (λ st p, countPixel dm o w d p.1 p.2 st) st l = st.
Proof.
  intros Ht. induction l as [|p l IH]; [done|].
  simpl. by rewrite countPixel_thrown.
Qed.

Lemma foldl_countPixel_unbound dm w d (l : list (Z * Z)) st :
  let required := filter (λ p, isRequiredAt dm w d p.1 p.2 = true) l in
  let st' := foldl (λ st p, countPixel dm None w d p.1 p.2 st) st l in
  thrown st = false →
  requiredPixelCount st'
  = requiredPixelCount st + (if decide (required = []) then 0 else 1)
  ∧ paletteMap st' = paletteMap st.
Proof.
  cbv zeta. revert st. induction l as [|p l IH]; intros st Ht.
  - simpl. split; [lia|done].
  - cbn [foldl]. rewrite filter_cons.
    destruct (decide (isRequiredAt dm w d p.1 p.2 = true)) as [Hr|Hr].
    + destruct (countPixel_required dm None w d p.1 p.2 st Ht Hr)
        as (Hcount & Hthrown & Hmap).
      rewrite foldl_countPixel_thrown by done.
      by rewrite decide_False by done.
    + apply not_true_is_false in Hr. rewrite countPixel_skipped by done.
      by apply IH.
Qed.

Lemma foldl_countPixel_bound dm allowed w d (l : list (Z * Z)) st :
  let required := filter (λ p, isRequiredAt dm w d p.1 p.2 = true) l in
  let st' := foldl (λ st p, countPixel dm (Some allowed) w d p.1 p.2 st) st l in
  thrown st = false →
  thrown st' = false
  ∧ requiredPixelCount st'
    = requiredPixelCount st + Z.of_nat (length required)
  ∧ sumCounts (paletteMap st')
    = sumCounts (paletteMap st) + Z.of_nat (length required)
  ∧ dom (paletteMap st') ⊆ dom (paletteMap st) ∪ allowed ∪ {["other"]}.
Proof.
  cbv zeta. revert st. induction l as [|p l IH]; intros st Ht.
  - simpl. repeat split; try done; try lia.
    intros k Hk. apply elem_of_union_l, elem_of_union_l, Hk.
  - cbn [foldl]. rewrite filter_cons.
    destruct (decide (isRequiredAt dm w d p.1 p.2 = true)) as [Hr|Hr].
    + destruct (countPixel_required dm (Some allowed) w d p.1 p.2 st Ht Hr)
        as (Hcount & Hthrown & key & Hkey & Hmap).
      destruct (IH _ Hthrown) as (-> & -> & -> & Hdom).
      rewrite Hcount, Hmap, sumCounts_increment. cbn [length].
      repeat split; try done; try lia.
      intros k Hk. apply Hdom in Hk. rewrite Hmap in Hk.
      unfold increment in Hk. rewrite dom_insert_L in Hk.
      rewrite !elem_of_union, !elem_of_singleton in Hk.
      rewrite !elem_of_union, elem_of_singleton.
      destruct Hk as [[[->|?]|?]|?]; auto.
      destruct Hkey as [?| ->]; auto.
    + apply not_true_is_false in Hr. rewrite countPixel_skipped by done.
      by apply IH.
Qed.

Lemma countTile_bound dm allowed (bm : ImageBitmap) (c : Z * gmap string Z) :
  let c' := countTile dm (Some allowed) bm c in
  c'.1 = c.1 + Z.of_nat (length (requiredPositions dm bm))
  ∧ sumCounts c'.2
    = sumCounts c.2 + Z.of_nat (length (requiredPositions dm bm))
  ∧ dom c'.2 ⊆ dom c.2 ∪ allowed ∪ {["other"]}.
Proof.
  cbv zeta. unfold countTile. cbn [fst snd].
  rewrite (forRange_nested
             (countPixel dm (Some allowed) (width bm) (data bm))).
  destruct (foldl_countPixel_bound dm allowed (width bm) (data bm)
              (loopPositions (width bm) (height bm))
              {| requiredPixelCount := c.1; paletteMap := c.2;
                 thrown := false |} eq_refl)
    as (_ & Hc & Hs & Hd).
  done.
Qed.

Lemma countTile_unbound dm (bm : ImageBitmap) (c : Z * gmap string Z) :
  countTile dm None bm c
  = (c.1 + (if decide (requiredPositions dm bm = []) then 0 else 1), c.2).
Proof.
  unfold countTile. cbn [fst snd].
  rewrite (forRange_nested (countPixel dm None (width bm) (data bm))).
  destruct (foldl_countPixel_unbound dm (width bm) (data bm)
              (loopPositions (width bm) (height bm))
              {| requiredPixelCount := c.1; paletteMap := c.2;
                 thrown := false |} eq_refl)
    as (Hc & Hs).
  by rewrite Hc, Hs.
Qed.

(** X22: where [activeTemplate.allowedColorsSet] evaluates to a set, the
    import counts for a template the center pixels of its tiles with
    alpha not under 64 that are not of the color 222, 250, 206; the
    counts of the colors add up to that number, and each color counted
    is of the set or is "other". *)
Theorem import_counts_required_pixels dm allowed
    (tiles : list (string * ImageBitmap)) :
  let counters := countTiles dm (Some allowed) tiles in
  counters.1
  = Z.of_nat (length (tile ← tiles; requiredPositions dm tile.2))
  ∧ sumCounts counters.2 = counters.1
  ∧ dom counters.2 ⊆ allowed ∪ {["other"]}.
Proof.
  cbv zeta. unfold countTiles.
  assert (∀ c : Z * gmap string Z,
    let c' := foldl (λ counters tile,
                       countTile dm (Some allowed) tile.2 counters) c tiles in
    c'.1 = c.1 + Z.of_nat (length (tile ← tiles; requiredPositions dm tile.2))
    ∧ sumCounts c'.2
      = sumCounts c.2
        + Z.of_nat (length (tile ← tiles; requiredPositions dm tile.2))
    ∧ dom c'.2 ⊆ dom c.2 ∪ allowed ∪ {["other"]}) as Hfold.
  { cbv zeta. induction tiles as [|[k bm] tiles IH]; intros c.
    - simpl. repeat split; try lia.
      intros key Hk. apply elem_of_union_l, elem_of_union_l, Hk.
    - cbn [foldl snd]. rewrite bind_cons, length_app.
      destruct (IH (countTile dm (Some allowed) bm c)) as (-> & -> & Hdom).
      destruct (countTile_bound dm allowed bm c) as (Hc & Hs & Hd).
      cbv zeta in Hc, Hs, Hd. cbn [snd].
      rewrite Hc, Hs. repeat split; try lia.
      intros key Hk. apply Hdom in Hk.
      rewrite !elem_of_union in Hk. rewrite !elem_of_union.
      destruct Hk as [[Hk|?]|?]; auto.
      apply Hd in Hk. by rewrite !elem_of_union in Hk. }
  destruct (Hfold (0, ∅)) as (Hc & Hs & Hd). cbn [fst snd] in *.
  rewrite sumCounts_empty in Hs. rewrite dom_empty_L in Hd.
  split; [lia|]. split; [lia|].
  intros key Hk. apply Hd in Hk.
  rewrite !elem_of_union in Hk. rewrite elem_of_union.
  destruct Hk as [[Hk|?]|?]; auto. by apply not_elem_of_empty in Hk.
Qed.

Lemma lookup_mergePersisted (entries : gmap string PersistedEntry)
    (colorPalette : gmap string PaletteEntry) (rgb : string) :
  mergePersisted (Some entries) colorPalette !! rgb
  = match entries !! rgb with
    | Some meta =>
        Some {| count := match colorPalette !! rgb with
                         | Some entry => count entry
                         | None => default 0 (persistedCount meta)
                         end;
                enabled := persistedEnabled meta |}
    | None => colorPalette !! rgb
    end.
Proof.
  unfold mergePersisted.
  apply (map_fold_weak_ind (λ r m,
    r !! rgb
    = match m !! rgb with
      | Some meta =>
          Some {| count := match colorPalette !! rgb with
                           | Some entry => count entry
                           | None => default 0 (persistedCount meta)
                           end;
                  enabled := persistedEnabled meta |}
      | None => colorPalette !! rgb
      end)).
  - by rewrite lookup_empty.
  - intros i meta m r Hi IH. unfold mergeEntry.
    destruct (decide (i = rgb)) as [->|Hne].
    + rewrite Hi in IH. rewrite lookup_insert_eq.
      rewrite IH. destruct (colorPalette !! rgb); by rewrite lookup_insert_eq.
    + rewrite (lookup_insert_ne m) by done. rewrite <- IH.
      destruct (r !! i); by rewrite lookup_insert_ne.
Qed.

(** X23: where the evaluation of [activeTemplate.allowedColorsSet] throws,
    as it does without a binding for [activeTemplate], the count of a
    tile ends at its first counted pixel: the import counts for a
    template the tiles that have such a pixel, and no color; the palette
    of the template is then the stored one. *)
Theorem import_counts_tiles_without_active_template dm
    (tiles : list (string * ImageBitmap))
    (persisted : option (gmap string PersistedEntry)) :
  let counters := countTiles dm None tiles in
  counters.1
  = Z.of_nat (length (filter (λ tile, requiredPositions dm tile.2 ≠ []) tiles))
  ∧ counters.2 = ∅
  ∧ importedPalette counters.2 persisted
    = (λ meta, {| count := default 0 (persistedCount meta);
                  enabled := persistedEnabled meta |})
        <$> default ∅ persisted.
Proof.
  cbv zeta. unfold countTiles.
  assert (∀ c : Z * gmap string Z,
    let c' := foldl (λ counters tile, countTile dm None tile.2 counters)
                c tiles in
    c'.1 = c.1 + Z.of_nat (length (filter
                    (λ tile, requiredPositions dm tile.2 ≠ []) tiles))
    ∧ c'.2 = c.2) as Hfold.
  { cbv zeta. induction tiles as [|[k bm] tiles IH]; intros c.
    - simpl. split; [lia|done].
    - cbn [foldl snd]. rewrite filter_cons.
      destruct (IH (countTile dm None bm c)) as (-> & ->).
      rewrite countTile_unbound. cbn [fst snd]. split; [|done].
      destruct (decide (requiredPositions dm bm = [])) as [E|E].
      + rewrite decide_False by (intros Hne; by apply Hne). lia.
      + rewrite decide_True by done. cbn [length]. lia. }
  destruct (Hfold (0, ∅)) as (Hc & Hs). cbn [fst snd] in *.
  rewrite Hs. split; [lia|]. split; [done|].
  unfold importedPalette, paletteObj. rewrite fmap_empty.
  destruct persisted as [entries|]; [|symmetry; apply fmap_empty].
  apply map_eq. intros k.
  rewrite lookup_mergePersisted, lookup_fmap, lookup_empty. simpl.
  by destruct (entries !! k).
Qed.

(** X24: in the palette of an imported template, a color of the stored
    palette is enabled as the stored palette says, with the count of
    the import, or the stored count when the import counted none, and
    another color is enabled with the count of the import.  So the
    overlay of the template is filtered exactly when the stored palette
    has a color that is not enabled. *)
Theorem imported_palette_follows_the_stored_one
    (paletteMap : gmap string Z) (entries : gmap string PersistedEntry)
    (rgb : string) :
  let colorPalette := importedPalette paletteMap (Some entries) in
  colorPalette !! rgb
  = match entries !! rgb, paletteMap !! rgb with
    | Some meta, Some c =>
        Some {| count := c; enabled := persistedEnabled meta |}
    | Some meta, None =>
        Some {| count := default 0 (persistedCount meta);
                enabled := persistedEnabled meta |}
    | None, Some c => Some {| count := c; enabled := true |}
    | None, None => None
    end
  ∧ hasDisabled colorPalette
    = bool_decide (map_Exists (λ _ meta, persistedEnabled meta = false) entries).
Proof.
  cbv zeta. unfold importedPalette.
  assert (∀ k, mergePersisted (Some entries) (paletteObj paletteMap) !! k
    = match entries !! k, paletteMap !! k with
      | Some meta, Some c =>
          Some {| count := c; enabled := persistedEnabled meta |}
      | Some meta, None =>
          Some {| count := default 0 (persistedCount meta);
                  enabled := persistedEnabled meta |}
      | None, Some c => Some {| count := c; enabled := true |}
      | None, None => None
      end) as Hlookup.
  { intros k. rewrite lookup_mergePersisted. unfold paletteObj.
    rewrite lookup_fmap.
    destruct (entries !! k), (paletteMap !! k); done. }
  split; [apply Hlookup|].
  unfold hasDisabled. apply bool_decide_ext.
  rewrite !map_Exists_lookup. split.
  - intros (k & e & Hk & He). rewrite Hlookup in Hk.
    destruct (entries !! k) as [meta|] eqn:Hm.
    + exists k, meta. split; [done|].
      destruct (paletteMap !! k); injection Hk as <-; done.
    + destruct (paletteMap !! k); [|done]. injection Hk as <-. done.
  - intros (k & meta & Hk & He).
    specialize (Hlookup k). rewrite Hk in Hlookup.
    destruct (paletteMap !! k); eexists k, _; (split; [exact Hlookup|done]).
Qed.

End ImportFacts.

(** ** The further statements on the inputs of the examples *)

Section MoreInstances.
Import Examples MoreExamples TemplateArray TemplateManager.

Local Existing Instance Host.externals.

Lemma drawTemplateOnTile_managerWithRecord :
  let sorted := setTemplatesArray
                  (sortByPriority (templatesArray managerWithRecord))
                  managerWithRecord in
  drawTemplateOnTile managerWithRecord tileBlob (1, 2) None hostOK
  = Some (CanvasBlob (tileSize managerWithRecord * drawMult managerWithRecord)
            (DrawTile tileBlob
               (tileSize managerWithRecord * drawMult managerWithRecord)
               :: (overlayOp sorted <$> [blobA])),
          setTileProgress
            (TileProgressManager.set (formatTileCoords (1, 2)) noProgress
               (tileProgress managerWithRecord)) sorted).
Proof.
  apply drawTemplateOnTile_no_snapshot.
  - reflexivity.
  - reflexivity.
  - reflexivity.
  - reflexivity.
  - vm_compute. reflexivity.
  - vm_compute. reflexivity.
  - discriminate.
Qed.

Lemma rerecord_replaces_witness :
  let m := TileProgressManager.set "0001,0002" progressA
             TileProgressManager.empty in
  let before := TileProgressManager.computeTotalProgress m in
  let after := TileProgressManager.computeTotalProgress
                 (TileProgressManager.set "0001,0002" progressB m) in
  TileProgressManager.get "0001,0002" m = Some progressA
  ∧ TileProgressManager.aggregateTotalPixelCount after
    = TileProgressManager.aggregateTotalPixelCount before
      - totalPixelCount progressA + totalPixelCount progressB
  ∧ TileProgressManager.aggregateTotalPixelCount after = 5.
Proof.
  cbv zeta.
  assert (TileProgressManager.get "0001,0002"
            (TileProgressManager.set "0001,0002" progressA
               TileProgressManager.empty) = Some progressA) as Hget
    by (vm_compute; reflexivity).
  split; [exact Hget|].
  destruct (rerecord_replaces "0001,0002" progressA progressB _ Hget)
    as [Htotal _].
  split; [exact Htotal|]. vm_compute. reflexivity.
Defined.

Lemma pass_draws_and_records_or_neither_witness :
  let q := formatTileCoords (1, 2) in
  let sorted := setTemplatesArray
                  (sortByPriority (templatesArray managerWithRecord))
                  managerWithRecord in
  forallb prefixesDerived (templatesArray managerWithRecord) = true
  ∧ ∃ out mgr',
      drawTemplateOnTile managerWithRecord tileBlob (1, 2) None hostOK
      = Some (out, mgr')
      ∧ ((out = InputBlob tileBlob
          ∧ tileProgress mgr' = tileProgress managerWithRecord)
         ∨ ∃ blobs,
             blobs ≠ []
             ∧ getRelevantTemplateTileBlobs (templatesArray sorted) q
               = Some blobs
             ∧ out = CanvasBlob
                       (tileSize managerWithRecord * drawMult managerWithRecord)
                       (DrawTile tileBlob
                          (tileSize managerWithRecord
                           * drawMult managerWithRecord)
                          :: (overlayOp sorted <$> blobs))
             ∧ TileProgressManager.get q (tileProgress mgr')
               = Some (drawAllTemplates sorted None tileBlob blobs).1).
Proof.
  cbv zeta.
  assert (forallb prefixesDerived (templatesArray managerWithRecord) = true)
    as Hps by (vm_compute; reflexivity).
  split; [exact Hps|].
  exact (ex_intro _ _ (ex_intro _ _
           (conj drawTemplateOnTile_managerWithRecord
              (pass_draws_and_records_or_neither _ _ _ _ _ _ _
                 Hps drawTemplateOnTile_managerWithRecord)))).
Defined.

Lemma pass_touches_only_its_tile_witness :
  ∃ out mgr',
    drawTemplateOnTile managerWithRecord tileBlob (1, 2) None hostOK
    = Some (out, mgr')
    ∧ tileSize mgr' = tileSize managerWithRecord
    ∧ drawMult mgr' = drawMult managerWithRecord
    ∧ templatesShouldBeDrawn mgr' = templatesShouldBeDrawn managerWithRecord
    ∧ templatesArray mgr' ≡ₚ templatesArray managerWithRecord
    ∧ (templatesShouldBeDrawn managerWithRecord = true →
       templatesArray mgr' = sortByPriority (templatesArray managerWithRecord))
    ∧ (templatesShouldBeDrawn managerWithRecord = false →
       mgr' = managerWithRecord ∧ out = InputBlob tileBlob)
    ∧ ∀ k, k ≠ formatTileCoords (1, 2) →
        TileProgressManager.get k (tileProgress mgr')
        = TileProgressManager.get k (tileProgress managerWithRecord).
Proof.
  exact (ex_intro _ _ (ex_intro _ _
           (conj drawTemplateOnTile_managerWithRecord
              (pass_touches_only_its_tile _ _ _ _ _ _ _
                 drawTemplateOnTile_managerWithRecord)))).
Defined.

Lemma counters_do_not_depend_on_palette_witness :
  (tileSize managerA = tileSize managerAHidden
   ∧ drawMult managerA = drawMult managerAHidden
   ∧ head (templatesArray managerA) ≫= allowedColorsSet
     = head (templatesArray managerAHidden) ≫= allowedColorsSet)
  ∧ hasDisabled (paletteOf (head (templatesArray managerA))) = false
  ∧ hasDisabled (paletteOf (head (templatesArray managerAHidden))) = true
  ∧ (drawAllTemplates managerA (Some snapshotA) tileBlob [blobA]).1
    = (drawAllTemplates managerAHidden (Some snapshotA) tileBlob [blobA]).1.
Proof.
  assert (tileSize managerA = tileSize managerAHidden) as Hts by reflexivity.
  assert (drawMult managerA = drawMult managerAHidden) as Hdm by reflexivity.
  assert (head (templatesArray managerA) ≫= allowedColorsSet
          = head (templatesArray managerAHidden) ≫= allowedColorsSet) as Hal
    by reflexivity.
  split; [exact (conj Hts (conj Hdm Hal))|].
  split; [vm_compute; reflexivity|].
  split; [vm_compute; reflexivity|].
  exact (counters_do_not_depend_on_palette
           managerA managerAHidden (Some snapshotA) tileBlob [blobA]
           Hts Hdm Hal).
Defined.

Lemma classification_reads_inside_the_arrays_witness :
  (NumberOf (pixelCoords blobA).1 = Some 5
   ∧ NumberOf (pixelCoords blobA).2 = Some 1
   ∧ Z.of_nat (length (data (bitmap blobA)))
     = width (bitmap blobA) * height (bitmap blobA) * 4
   ∧ Z.of_nat (length snapshotA)
     = tileSize managerA * drawMult managerA
       * (tileSize managerA * drawMult managerA) * 4
   ∧ (1, 1) ∈ loopPositions (width (bitmap blobA)) (height (bitmap blobA)))
  ∧ (∃ r g b a,
       shredPixelAt blobA 1 1 = Pixel.mk (Some r) (Some g) (Some b) (Some a))
  ∧ (isSampled managerA blobA 1 1 = true →
     ∃ r g b a,
       groundPixelAt managerA snapshotA blobA 1 1
       = Pixel.mk (Some r) (Some g) (Some b) (Some a)).
Proof.
  assert (NumberOf (pixelCoords blobA).1 = Some 5) as Hpx
    by (vm_compute; reflexivity).
  assert (NumberOf (pixelCoords blobA).2 = Some 1) as Hpy
    by (vm_compute; reflexivity).
  assert (Z.of_nat (length (data (bitmap blobA)))
          = width (bitmap blobA) * height (bitmap blobA) * 4) as Hdata
    by (vm_compute; reflexivity).
  assert (Z.of_nat (length snapshotA)
          = tileSize managerA * drawMult managerA
            * (tileSize managerA * drawMult managerA) * 4) as Hsnap
    by (rewrite snapshotA_length; vm_compute; reflexivity).
  assert ((1, 1) ∈ loopPositions (width (bitmap blobA))
                     (height (bitmap blobA))) as Hin
    by (apply elem_of_loopPositions; vm_compute; intuition discriminate).
  split; [exact (conj Hpx (conj Hpy (conj Hdata (conj Hsnap Hin))))|].
  exact (classification_reads_inside_the_arrays
           managerA snapshotA blobA 1 1 5 1 Hpx Hpy Hdata Hsnap Hin).
Defined.

Lemma fragment_without_offset_is_pending_witness :
  (NumberOf (pixelCoords blobNoOffset).1 = None
   ∨ NumberOf (pixelCoords blobNoOffset).2 = None)
  ∧ verdictAt managerA [] blobNoOffset 1 1 = Pending
  ∧ verdictAt managerA [] blobNoOffset 1 1 ∈ [NotSampled; Blank; Pending]
  ∧ (NumberOf (pixelCoords blobNoOffset).1 = None →
     NumberOf (pixelCoords blobNoOffset).2 = None →
     isSampled managerA blobNoOffset 1 1
     = negb (isNotCenter (drawMult managerA) 1 1)).
Proof.
  assert (NumberOf (pixelCoords blobNoOffset).1 = None
          ∨ NumberOf (pixelCoords blobNoOffset).2 = None) as Hnan
    by (left; reflexivity).
  split; [exact Hnan|]. split; [vm_compute; reflexivity|].
  exact (fragment_without_offset_is_pending managerA [] blobNoOffset 1 1 Hnan).
Defined.

Lemma totals_wrong_count_is_number_of_positions_witness :
  Forall countsPositions (tileProgress managerWithRecord).*2
  ∧ ∃ out mgr',
      drawTemplateOnTile managerWithRecord tileBlob (1, 2) None hostOK
      = Some (out, mgr')
      ∧ Forall countsPositions (tileProgress mgr').*2
      ∧ TileProgressManager.aggregateWrongPixelCount
          (TileProgressManager.computeTotalProgress (tileProgress mgr'))
        = Z.of_nat (length (TileProgressManager.aggregateWrongPixelPositions
                              (TileProgressManager.computeTotalProgress
                                 (tileProgress mgr')))).
Proof.
  assert (Forall countsPositions (tileProgress managerWithRecord).*2) as Hall.
  { repeat constructor. }
  split; [exact Hall|].
  exact (ex_intro _ _ (ex_intro _ _
           (conj drawTemplateOnTile_managerWithRecord
              (totals_wrong_count_is_number_of_positions _ _ _ _ _ _ _
                 Hall drawTemplateOnTile_managerWithRecord)))).
Defined.

End MoreInstances.
